(** * FormZero: notification settings

    A shallow embedding of the notification-settings routes of FormZero:

    - [app/routes/forms.$formId.settings.tsx]: the loader, [getEmailDomain],
      the provider table [SMTP_CONFIGS] and the [SettingsPage] component;
    - the [forms.$formId.settings.notifications] action (save and clear);
    - the [forms.$formId.settings.notifications.test] action (test send);
    - [app/routes/forms.tsx]: the loader and the action that creates a
      form under the slug of its name.

    Strings are sequences of code units in the range U+0000..U+00FF, held
    as Rocq strings; a string with a code unit beyond U+00FF is not a
    string of the embedding.  JavaScript numbers are integers of [Z] or
    [NaN]; the embedding of [parseInt] and [toString] is exact on the
    safe integers ([Js.isSafeInteger]), and a statement that depends on
    the digits of a number is stated for those. *)

From Stdlib Require Import String Ascii List ZArith Bool Lia DecimalString.
From Stdlib Require DecimalPos.
From Stdlib Require Import Permutation Sorted.
Import ListNotations.
Open Scope string_scope.

(** ** JavaScript values *)

Module Js.

(** Truthiness of a string: every string but the empty one. *)
Definition truthy (s : string) : bool :=
  match s with
  | EmptyString => false
  | String _ _ => true
  end.

(** Truthiness of [string | null | undefined]. *)
Definition truthy_opt (v : option string) : bool :=
  match v with
  | None => false
  | Some s => truthy s
  end.

(** [v || ""] on [string | null | undefined]. *)
Definition or_empty (v : option string) : string :=
  match v with
  | None => ""
  | Some s => s
  end.

Definition code (c : ascii) : N := N_of_ascii c.

(** [String.prototype.toLowerCase] on one code unit of the range
    U+0000..U+00FF: A-Z, and the capital letters U+00C0..U+00DE without
    the multiplication sign.  (Beyond that range some code units
    lowercase into it, as the Kelvin sign U+212A does to [k]; strings
    that hold them are outside the embedding.) *)
Definition lower_unit (c : ascii) : ascii :=
  let n := code c in
  if ((65 <=? n) && (n <=? 90) ||
      (192 <=? n) && (n <=? 222) && negb (n =? 215))%N
  then ascii_of_N (n + 32)
  else c.

Fixpoint toLowerCase (s : string) : string :=
  match s with
  | EmptyString => EmptyString
  | String c r => String (lower_unit c) (toLowerCase r)
  end.

(** Line terminators, which [.] of a regular expression does not match:
    LF and CR (U+2028 and U+2029 lie outside the modelled range). *)
Definition isLineTerminator (c : ascii) : bool :=
  ((code c =? 10) || (code c =? 13))%N.

(** White space skipped by [parseInt]: TAB, LF, VT, FF, CR, SP, NBSP. *)
Definition isWhiteSpace (c : ascii) : bool :=
  let n := code c in
  ((9 <=? n) && (n <=? 13) || (n =? 32) || (n =? 160))%N.

Fixpoint trimStart (s : string) : string :=
  match s with
  | EmptyString => EmptyString
  | String c r => if isWhiteSpace c then trimStart r else s
  end.

(** A JavaScript number, as far as this program meets them. *)
Inductive number : Type :=
| NaN
| Int (z : Z).

(** [Number.MAX_SAFE_INTEGER], 2^53 - 1, and [Number.isSafeInteger] on
    an integer: the integers that a double holds exactly, next to their
    neighbours. *)
Definition MAX_SAFE_INTEGER : Z := 9007199254740991.

Definition isSafeInteger (z : Z) : bool :=
  ((- MAX_SAFE_INTEGER <=? z) && (z <=? MAX_SAFE_INTEGER))%Z.

Definition digit (c : ascii) : option Z :=
  let n := code c in
  if ((48 <=? n) && (n <=? 57))%N then Some (Z.of_N n - 48)%Z else None.

(** The longest prefix of decimal digits, read as an integer: [acc] is
    the value of the digits read so far, [None] before the first one. *)
Fixpoint digits (s : string) (acc : option Z) : option Z :=
  match s with
  | EmptyString => acc
  | String c r =>
      match digit c with
      | None => acc
      | Some d =>
          digits r (Some (10 * match acc with Some a => a | None => 0 end + d)%Z)
      end
  end.

Definition of_digits (v : option Z) (sign : Z) : number :=
  match v with
  | None => NaN
  | Some z => Int (sign * z)
  end.

(** [parseInt(s, 10)]: leading white space, an optional sign, then the
    longest run of decimal digits; [NaN] when there is no digit.  The
    result is the integer that the digits write, which is what
    JavaScript returns while that integer is safe; a longer run it
    rounds to a double. *)
Definition parseInt (s : string) : number :=
  match trimStart s with
  | String "-"%char r => of_digits (digits r None) (-1)
  | String "+"%char r => of_digits (digits r None) 1
  | t => of_digits (digits t None) 1
  end.

(** [Number.prototype.toString] on a safe integer: its decimal digits,
    after a minus sign when it is negative.  (JavaScript prints a
    number beyond the safe integers by the shortest digits that single
    out its double, and from 1e21 on with an exponent.) *)
Definition toString (z : Z) : string :=
  NilZero.string_of_int (Z.to_int z).

End Js.

(** ** Provider detection: [getEmailDomain] and [SMTP_CONFIGS] *)

(** [(.+)$] tried at the start of [s]: at least one code unit, none of
    them a line terminator, up to the end of the input. *)
Fixpoint dot_star_end (s : string) : bool :=
  match s with
  | EmptyString => true
  | String c r => negb (Js.isLineTerminator c) && dot_star_end r
  end.

Definition dot_plus_end (s : string) : bool :=
  Js.truthy s && dot_star_end s.

(** [email.match(/@(.+)$/)]: the search tries every start position from
    the left and keeps the first one where the pattern matches; the
    result is capture group 1. *)
Fixpoint match_domain (email : string) : option string :=
  match email with
  | EmptyString => None
  | String c r =>
      if (c =? "@")%char && dot_plus_end r then Some r else match_domain r
  end.

Definition getEmailDomain (email : string) : option string :=
  match match_domain email with
  | Some m1 => Some (Js.toLowerCase m1)
  | None => None
  end.

(** The reading of the specification: the text after the last [@]. *)
Fixpoint after_last_at (email : string) : option string :=
  match email with
  | EmptyString => None
  | String c r =>
      match after_last_at r with
      | Some d => Some d
      | None => if (c =? "@")%char then Some r else None
      end
  end.

Definition spec_domain (email : string) : option string :=
  match after_last_at email with
  | Some d => if Js.truthy d then Some (Js.toLowerCase d) else None
  | None => None
  end.

Record SmtpProfile : Type := mkProfile {
  host : string;
  port : Z;
  secure : bool;
  hint : string
}.

Definition gmail : SmtpProfile :=
  mkProfile "smtp.gmail.com" 587 true
    "For Gmail, use an App Password instead of your regular password. Go to Google Account → Security → 2-Step Verification → App passwords.".

Definition outlook : SmtpProfile :=
  mkProfile "smtp-mail.outlook.com" 587 true
    "For Outlook, use your regular Microsoft account password or an App Password if you have 2FA enabled.".

Definition hotmail : SmtpProfile :=
  mkProfile "smtp-mail.outlook.com" 587 true
    "For Hotmail, use your regular Microsoft account password or an App Password if you have 2FA enabled.".

Definition yahoo : SmtpProfile :=
  mkProfile "smtp.mail.yahoo.com" 587 true
    "For Yahoo, generate an App Password at: Account Info → Account Security → Generate app password.".

Definition icloud : SmtpProfile :=
  mkProfile "smtp.mail.me.com" 587 true
    "For iCloud, use an App-Specific Password. Go to appleid.apple.com → Sign-In and Security → App-Specific Passwords.".

(** What [SMTP_CONFIGS[key]] evaluates to.  [SMTP_CONFIGS] is an object
    literal, so a key that is not one of its own is looked up on
    [Object.prototype]: [constructor] yields the function [Object] and
    [__proto__] yields [Object.prototype] itself.  The other members of
    [Object.prototype] have a capital letter in their names and are
    never equal to a key that went through [toLowerCase]. *)
Inductive Member : Type :=
| Own (p : SmtpProfile)
| ObjectFunction
| ObjectPrototype.

Definition SMTP_CONFIGS (key : string) : option Member :=
  if key =? "gmail.com" then Some (Own gmail)
  else if key =? "outlook.com" then Some (Own outlook)
  else if key =? "hotmail.com" then Some (Own hotmail)
  else if key =? "yahoo.com" then Some (Own yahoo)
  else if key =? "icloud.com" then Some (Own icloud)
  else if key =? "constructor" then Some ObjectFunction
  else if key =? "__proto__" then Some ObjectPrototype
  else None.

(** The names of the members of [Object.prototype]. *)
Definition object_prototype_names : list string :=
  ["constructor"; "__defineGetter__"; "__defineSetter__"; "hasOwnProperty";
   "__lookupGetter__"; "__lookupSetter__"; "isPrototypeOf";
   "propertyIsEnumerable"; "toString"; "valueOf"; "__proto__";
   "toLocaleString"].

Definition is_upper (c : ascii) : bool :=
  ((65 <=? Js.code c) && (Js.code c <=? 90))%N.

Fixpoint has_upper (s : string) : bool :=
  match s with
  | EmptyString => false
  | String c r => is_upper c || has_upper r
  end.

(** The own keys of the table. *)
Definition provider_domains : list string :=
  ["gmail.com"; "outlook.com"; "hotmail.com"; "yahoo.com"; "icloud.com"].

(** The own entries of the table, as the object literal lists them. *)
Definition provider_table : list (string * SmtpProfile) :=
  [("gmail.com", gmail); ("outlook.com", outlook); ("hotmail.com", hotmail);
   ("yahoo.com", yahoo); ("icloud.com", icloud)].

(** ** The D1 database and the server side *)

Record FormSettings : Type := mkSettings {
  id : string;
  form_id : string;
  notification_email : option string;
  notification_email_password : option string;
  smtp_host : option string;
  smtp_port : option Z;
  smtp_secure : Z;
  updated_at : Z
}.

(** The two tables the routes touch.  Of a row of [forms] only the [id]
    column is ever read. *)
Record Database : Type := mkDatabase {
  forms : list string;
  form_settings : list FormSettings
}.

(** The configuration handed to [sendTestEmail], and its answer. *)
Record EmailConfig : Type := mkEmailConfig {
  cfg_email : string;
  cfg_password : string;
  cfg_host : string;
  cfg_port : Js.number
}.

Record SendResult : Type := mkSendResult {
  sent_ok : bool;
  sent_messageId : option string;
  sent_error : option string
}.

(** What a request can change: the database, and the test emails that
    were handed to the email service. *)
Record World : Type := mkWorld {
  DB : Database;
  outbox : list EmailConfig
}.

(** The prepared statements of the routes, with their bound values. *)
Inductive Statement : Type :=
| SelectForm (formId : string)
| SelectSettingsId (formId : string)
| SelectSettings (formId : string)
| DeleteSettings (formId : string)
| UpdateSettings (email password smtpHost : string) (smtpPort : Js.number)
    (updatedAt : Z) (formId : string)
| InsertSettings (settingsId formId email password smtpHost : string)
    (smtpPort : Js.number) (updatedAt : Z).

(** A number bound to a statement reaches SQLite as an integer; SQLite
    has no NaN and holds it as NULL. *)
Definition sql_number (n : Js.number) : option Z :=
  match n with
  | Js.NaN => None
  | Js.Int z => Some z
  end.

(** The JSON body of a response, which is what a fetcher holds as its
    [data]. *)
Record ActionData : Type := mkData {
  success : bool;
  error : option string;
  messageId : option string
}.

(** A response made with [data(body, { status })]. *)
Record Response : Type := mkResponse {
  json : ActionData;
  status : Z
}.

Definition data (ok : bool) (err : option string) (code : Z) : Response :=
  mkResponse (mkData ok err None) code.

(** A request: its method, and the text entries that
    [request.formData()] yields, [None] when the body does not parse. *)
Record Request : Type := mkRequest {
  method : string;
  body : option (list (string * string))
}.

(** [formData.get(name)]: the first entry of that name, or [null]. *)
Fixpoint get (name : string) (entries : list (string * string)) : option string :=
  match entries with
  | [] => None
  | (k, v) :: rest => if k =? name then Some v else get name rest
  end.

(** A computation of a handler: it runs against the world and returns a
    value or throws. *)
Inductive Result (A : Type) : Type :=
| Ok (a : A)
| Throw.

Arguments Ok {A} a.
Arguments Throw {A}.

Definition M (A : Type) : Type := World -> Result A * World.

Definition ret {A : Type} (a : A) : M A := fun w => (Ok a, w).

Definition bind {A B : Type} (m : M A) (k : A -> M B) : M B :=
  fun w =>
    match m w with
    | (Ok a, w') => k a w'
    | (Throw, w') => (Throw, w')
    end.

Definition throw {A : Type} : M A := fun w => (Throw, w).

(** [try { m } catch (error) { handler }] *)
Definition try_catch {A : Type} (m : M A) (handler : M A) : M A :=
  fun w =>
    match m w with
    | (Ok a, w') => (Ok a, w')
    | (Throw, w') => handler w'
    end.

Declare Scope handler_scope.
Delimit Scope handler_scope with handler.
Notation "x <- m ;; k" := (bind m (fun x => k))
  (at level 61, m at next level, right associativity) : handler_scope.
Notation "m ;;; k" := (bind m (fun _ => k))
  (at level 61, right associativity) : handler_scope.

Definition has_form_id (formId : string) (row : FormSettings) : bool :=
  form_id row =? formId.

(** What a statement returns from [first()], and what [run()] leaves. *)
Definition select_form (formId : string) (d : Database) : option string :=
  find (fun row => row =? formId) (forms d).

Definition select_settings (formId : string) (d : Database) : option FormSettings :=
  find (has_form_id formId) (form_settings d).

Definition delete_settings (formId : string) (d : Database) : Database :=
  mkDatabase (forms d)
    (filter (fun row => negb (has_form_id formId row)) (form_settings d)).

Definition update_row (email password smtpHost : string) (smtpPort : Js.number)
    (updatedAt : Z) (formId : string) (row : FormSettings) : FormSettings :=
  if has_form_id formId row
  then mkSettings (id row) (form_id row) (Some email) (Some password)
         (Some smtpHost) (sql_number smtpPort) 1 updatedAt
  else row.

Definition update_settings (email password smtpHost : string)
    (smtpPort : Js.number) (updatedAt : Z) (formId : string) (d : Database)
    : Database :=
  mkDatabase (forms d)
    (map (update_row email password smtpHost smtpPort updatedAt formId)
       (form_settings d)).

Definition insert_settings (settingsId formId email password smtpHost : string)
    (smtpPort : Js.number) (updatedAt : Z) (d : Database) : Database :=
  mkDatabase (forms d)
    (form_settings d ++
       [mkSettings settingsId formId (Some email) (Some password)
          (Some smtpHost) (sql_number smtpPort) 1 updatedAt]).

Module D1.
Section Store.

(** Whether the store rejects a statement (an outage, a violated
    constraint): the statement then throws and changes nothing. *)
Variable d1_fails : Statement -> Database -> bool.

(** [db.prepare(sql).bind(...).first()] *)
Definition first {A : Type} (q : Statement) (read : Database -> option A)
    : M (option A) :=
  fun w => if d1_fails q (DB w) then (Throw, w) else (Ok (read (DB w)), w).

(** [db.prepare(sql).bind(...).run()] *)
Definition run (q : Statement) (write : Database -> Database) : M unit :=
  fun w =>
    if d1_fails q (DB w) then (Throw, w)
    else (Ok tt, mkWorld (write (DB w)) (outbox w)).

End Store.
End D1.

(** [await request.formData()] *)
Definition formData (request : Request) : M (list (string * string)) :=
  match body request with
  | Some entries => ret entries
  | None => throw
  end.

Definition is_null {A : Type} (v : option A) : bool :=
  match v with
  | None => true
  | Some _ => false
  end.

Open Scope handler_scope.

Module SettingsRoute.
Section Route.
Variable d1_fails : Statement -> Database -> bool.

(** [loader] of [forms.$formId.settings.tsx]: the settings row of the
    form, or [null]. *)
Definition loader (formId : string) : M (option FormSettings * string) :=
  settings <- D1.first d1_fails (SelectSettings formId) (select_settings formId) ;;
  ret (settings, formId).

End Route.
End SettingsRoute.

Module Notifications.
Section Route.
Variable d1_fails : Statement -> Database -> bool.

(** The write of the save branch, after validation. *)
Definition upsert (formId email password smtpHost smtpPort : string)
    (settingsId : string) (updatedAt : Z) : M unit :=
  existingSettings <-
    D1.first d1_fails (SelectSettingsId formId)
      (fun d => option_map id (select_settings formId d)) ;;
  if negb (is_null existingSettings) then
    D1.run d1_fails (UpdateSettings email password smtpHost (Js.parseInt smtpPort)
           updatedAt formId)
      (update_settings email password smtpHost (Js.parseInt smtpPort)
         updatedAt formId)
  else
    D1.run d1_fails (InsertSettings settingsId formId email password smtpHost
           (Js.parseInt smtpPort) updatedAt)
      (insert_settings settingsId formId email password smtpHost
         (Js.parseInt smtpPort) updatedAt).

(** [action] of the notifications route.  [settingsId] is the value of
    [crypto.randomUUID()] and [updatedAt] the value of [Date.now()],
    should the handler come to call them. *)
Definition action (request : Request) (formId : string)
    (settingsId : string) (updatedAt : Z) : M Response :=
  form <- D1.first d1_fails (SelectForm formId) (select_form formId) ;;
  if is_null form then
    ret (data false (Some "Form not found") 404)
  else if method request =? "DELETE" then
    try_catch
      (D1.run d1_fails (DeleteSettings formId) (delete_settings formId) ;;;
       ret (data true None 200))
      (ret (data false (Some "Failed to clear settings") 500))
  else if negb (method request =? "POST") then
    ret (data false (Some "Method not allowed") 405)
  else
    try_catch
      (entries <- formData request ;;
       let notification_email := get "notification_email" entries in
       let notification_email_password :=
         get "notification_email_password" entries in
       let smtp_host := get "smtp_host" entries in
       let smtp_port := get "smtp_port" entries in
       if negb (Js.truthy_opt notification_email)
          || negb (Js.truthy_opt notification_email_password)
          || negb (Js.truthy_opt smtp_host)
          || negb (Js.truthy_opt smtp_port)
       then ret (data false (Some "Missing required fields") 400)
       else
         upsert formId (Js.or_empty notification_email)
           (Js.or_empty notification_email_password)
           (Js.or_empty smtp_host) (Js.or_empty smtp_port)
           settingsId updatedAt ;;;
         ret (data true None 200))
      (ret (data false (Some "Failed to save settings") 500)).

End Route.
End Notifications.

Module NotificationsTest.
Section Route.
Variable d1_fails : Statement -> Database -> bool.

(** [sendTestEmail] of [~/lib/email.server]; [None] when it throws. *)
Variable sendTestEmail : EmailConfig -> option SendResult.

(** [await sendTestEmail(config)]: the call is recorded in the outbox. *)
Definition send (config : EmailConfig) : M SendResult :=
  fun w =>
    let w' := mkWorld (DB w) (outbox w ++ [config]) in
    match sendTestEmail config with
    | Some result => (Ok result, w')
    | None => (Throw, w')
    end.

(** [action] of the test route. *)
Definition action (request : Request) (formId : string) : M Response :=
  if negb (method request =? "POST") then
    ret (data false (Some "Method not allowed") 405)
  else
    try_catch
      (form <- D1.first d1_fails (SelectForm formId) (select_form formId) ;;
       if is_null form then
         ret (data false (Some "Form not found") 404)
       else
         entries <- formData request ;;
         let notification_email := get "notification_email" entries in
         let notification_email_password :=
           get "notification_email_password" entries in
         let smtp_host := get "smtp_host" entries in
         let smtp_port := get "smtp_port" entries in
         if negb (Js.truthy_opt notification_email)
            || negb (Js.truthy_opt notification_email_password)
            || negb (Js.truthy_opt smtp_host)
            || negb (Js.truthy_opt smtp_port)
         then ret (data false (Some "Missing required fields") 400)
         else
           result <-
             send (mkEmailConfig (Js.or_empty notification_email)
                     (Js.or_empty notification_email_password)
                     (Js.or_empty smtp_host)
                     (Js.parseInt (Js.or_empty smtp_port))) ;;
           if sent_ok result then
             ret (mkResponse (mkData true None (sent_messageId result)) 200)
           else
             ret (data false (sent_error result) 400))
      (ret (data false (Some "Failed to send test email") 500)).

End Route.
End NotificationsTest.

Close Scope handler_scope.

(** ** The settings page *)

Module Fetcher.

Inductive State : Type :=
| idle
| submitting
| loading.

(** What [useFetcher()] returns, as far as the page reads it, and the
    entries of the submission in flight. *)
Record t : Type := mk {
  state : State;
  data : option ActionData;
  formData : list (string * string)
}.

Definition IDLE_FETCHER : t := mk idle None [].

(** [fetcher.submit(formData, ...)]: the fetcher turns to submitting
    and keeps the data of its last answer. *)
Definition submit (entries : list (string * string)) (f : t) : t :=
  mk submitting (data f) entries.

Definition state_eqb (a b : State) : bool :=
  match a, b with
  | idle, idle | submitting, submitting | loading, loading => true
  | _, _ => false
  end.

(** [fetcher.state === "idle" && fetcher.data?.success] *)
Definition idle_success (f : t) : bool :=
  state_eqb (state f) idle &&
  match data f with
  | Some d => success d
  | None => false
  end.

End Fetcher.

(** A value of the [smtpConfig] state: a profile of the table, or an
    object that has no [host], [port] or [hint] of its own (the empty
    object, or [Object.prototype]). *)
Inductive ConfigValue : Type :=
| Provider (p : SmtpProfile)
| Bare.

(** The state of [SettingsPage] between two events: what the router
    hands to the component, the eight state hooks, and the pending
    timeout of the detection effect with the values its callback closed
    over.  [smtpHost] is [None] when it holds [undefined]. *)
Record Page : Type := mkPage {
  settings : option FormSettings;
  fetcher : Fetcher.t;
  testFetcher : Fetcher.t;
  clearFetcher : Fetcher.t;
  email : string;
  password : string;
  smtpHost : option string;
  smtpPort : string;
  emailDomain : option string;
  smtpConfig : option ConfigValue;
  testPassed : bool;
  testResultValid : bool;
  timer : option (string * option FormSettings)
}.

Definition setRouter (st : option FormSettings) (f t c : Fetcher.t) (p : Page) : Page :=
  mkPage st f t c (email p) (password p) (smtpHost p) (smtpPort p)
    (emailDomain p) (smtpConfig p) (testPassed p) (testResultValid p) (timer p).

Definition setFetcher (f : Fetcher.t) (p : Page) : Page :=
  setRouter (settings p) f (testFetcher p) (clearFetcher p) p.

Definition setTestFetcher (f : Fetcher.t) (p : Page) : Page :=
  setRouter (settings p) (fetcher p) f (clearFetcher p) p.

Definition setClearFetcher (f : Fetcher.t) (p : Page) : Page :=
  setRouter (settings p) (fetcher p) (testFetcher p) f p.

Definition setEmail (v : string) (p : Page) : Page :=
  mkPage (settings p) (fetcher p) (testFetcher p) (clearFetcher p)
    v (password p) (smtpHost p) (smtpPort p)
    (emailDomain p) (smtpConfig p) (testPassed p) (testResultValid p) (timer p).

Definition setPassword (v : string) (p : Page) : Page :=
  mkPage (settings p) (fetcher p) (testFetcher p) (clearFetcher p)
    (email p) v (smtpHost p) (smtpPort p)
    (emailDomain p) (smtpConfig p) (testPassed p) (testResultValid p) (timer p).

Definition setSmtpHost (v : option string) (p : Page) : Page :=
  mkPage (settings p) (fetcher p) (testFetcher p) (clearFetcher p)
    (email p) (password p) v (smtpPort p)
    (emailDomain p) (smtpConfig p) (testPassed p) (testResultValid p) (timer p).

Definition setSmtpPort (v : string) (p : Page) : Page :=
  mkPage (settings p) (fetcher p) (testFetcher p) (clearFetcher p)
    (email p) (password p) (smtpHost p) v
    (emailDomain p) (smtpConfig p) (testPassed p) (testResultValid p) (timer p).

Definition setEmailDomain (v : option string) (p : Page) : Page :=
  mkPage (settings p) (fetcher p) (testFetcher p) (clearFetcher p)
    (email p) (password p) (smtpHost p) (smtpPort p)
    v (smtpConfig p) (testPassed p) (testResultValid p) (timer p).

Definition setSmtpConfig (v : option ConfigValue) (p : Page) : Page :=
  mkPage (settings p) (fetcher p) (testFetcher p) (clearFetcher p)
    (email p) (password p) (smtpHost p) (smtpPort p)
    (emailDomain p) v (testPassed p) (testResultValid p) (timer p).

Definition setTestPassed (v : bool) (p : Page) : Page :=
  mkPage (settings p) (fetcher p) (testFetcher p) (clearFetcher p)
    (email p) (password p) (smtpHost p) (smtpPort p)
    (emailDomain p) (smtpConfig p) v (testResultValid p) (timer p).

Definition setTestResultValid (v : bool) (p : Page) : Page :=
  mkPage (settings p) (fetcher p) (testFetcher p) (clearFetcher p)
    (email p) (password p) (smtpHost p) (smtpPort p)
    (emailDomain p) (smtpConfig p) (testPassed p) v (timer p).

(** [setTimeout] and [clearTimeout] on the one timer of the page. *)
Definition setTimer (v : option (string * option FormSettings)) (p : Page) : Page :=
  mkPage (settings p) (fetcher p) (testFetcher p) (clearFetcher p)
    (email p) (password p) (smtpHost p) (smtpPort p)
    (emailDomain p) (smtpConfig p) (testPassed p) (testResultValid p) v.

(** [settings?.smtp_host]: [None] is [undefined], [Some None] is
    [null]. *)
Definition settings_smtp_host (st : option FormSettings) : option (option string) :=
  option_map smtp_host st.

(** [!settings?.smtp_host] *)
Definition no_persisted_host (st : option FormSettings) : bool :=
  match st with
  | Some row => negb (Js.truthy_opt (smtp_host row))
  | None => true
  end.

(** The value a state hook takes from [useState(v)] or a setter called
    with [v], for [v] a member of the table's lookup: React calls a
    function it is given, here [Object], on no argument (as an
    initializer) or on the previous state (as an updater), and
    [Object(x)] is [x] for an object and a new empty object for
    [null] or no argument. *)
Definition config_state (prev : option ConfigValue) (m : Member) : ConfigValue :=
  match m with
  | Own p => Provider p
  | ObjectPrototype => Bare
  | ObjectFunction =>
      match prev with
      | Some c => c
      | None => Bare
      end
  end.

(** The first render: the values of the state hooks on mount. *)
Definition initial (st : option FormSettings) : Page :=
  let initialEmail :=
    Js.or_empty (match st with Some r => notification_email r | None => None end) in
  let initialDomain := getEmailDomain initialEmail in
  let initialConfig :=
    match initialDomain with
    | Some d => if Js.truthy d then SMTP_CONFIGS d else None
    | None => None
    end in
  mkPage st Fetcher.IDLE_FETCHER Fetcher.IDLE_FETCHER Fetcher.IDLE_FETCHER
    initialEmail
    (Js.or_empty (match st with Some r => notification_email_password r | None => None end))
    (Some (Js.or_empty (match st with Some r => smtp_host r | None => None end)))
    (match st with
     | Some r => match smtp_port r with Some n => Js.toString n | None => "" end
     | None => ""
     end)
    initialDomain
    (option_map (config_state None) initialConfig)
    false true None.

(** *** Dependencies of the effects

    React runs an effect again when one of its dependencies differs
    from the render before.  Strings and booleans are compared by value;
    the [data] of a fetcher is an object compared by identity, which the
    embedding takes to be the identity of its contents. *)

Definition option_eqb {A : Type} (eqb : A -> A -> bool) (a b : option A) : bool :=
  match a, b with
  | Some x, Some y => eqb x y
  | None, None => true
  | _, _ => false
  end.

Definition data_eqb (a b : ActionData) : bool :=
  Bool.eqb (success a) (success b)
  && option_eqb String.eqb (error a) (error b)
  && option_eqb String.eqb (messageId a) (messageId b).

(** [[email, settings?.smtp_host]] *)
Definition detect_deps_eqb (a b : Page) : bool :=
  (email a =? email b)
  && option_eqb (option_eqb String.eqb)
       (settings_smtp_host (settings a)) (settings_smtp_host (settings b)).

(** [[email, password, smtpHost, smtpPort]] *)
Definition fields_eqb (a b : Page) : bool :=
  (email a =? email b) && (password a =? password b)
  && option_eqb String.eqb (smtpHost a) (smtpHost b)
  && (smtpPort a =? smtpPort b).

(** [[clearFetcher.state, clearFetcher.data]] *)
Definition clear_deps_eqb (a b : Page) : bool :=
  Fetcher.state_eqb (Fetcher.state (clearFetcher a)) (Fetcher.state (clearFetcher b))
  && option_eqb data_eqb (Fetcher.data (clearFetcher a)) (Fetcher.data (clearFetcher b)).

(** [testSuccess]: the test fetcher is idle with a successful answer
    and the answer is still valid for the fields.  (In the source the
    value is [false], [undefined] or a boolean; the effect on it acts
    only when it is truthy, so its falsy values are one here.) *)
Definition testSuccess (p : Page) : bool :=
  Fetcher.idle_success (testFetcher p) && testResultValid p.

(** [[testSuccess]] *)
Definition success_eqb (a b : Page) : bool :=
  Bool.eqb (testSuccess a) (testSuccess b).

(** *** The effects

    An effect reads the values of the render [cur] it closed over and
    queues its updates on [acc]. *)

(** The detection effect, from [const domain] to the [setTimeout]. *)
Definition detect (cur acc : Page) : Page :=
  match getEmailDomain (email cur) with
  | Some domain =>
      if Js.truthy domain
      then setTimer (Some (domain, settings cur)) acc
      else setSmtpConfig None (setEmailDomain None acc)
  | None => setSmtpConfig None (setEmailDomain None acc)
  end.

(** The callback of the timeout, with the [domain] and the [settings]
    it closed over.  For a member inherited from [Object.prototype] the
    callback takes the branch of a known provider: [config.host] is
    [undefined], and reading [config.port.toString] throws, after the
    three updates before it were queued. *)
Definition detected (domain : string) (st : option FormSettings) (acc : Page) : Page :=
  let acc := setEmailDomain (Some domain) acc in
  match SMTP_CONFIGS domain with
  | Some (Own config) =>
      setSmtpPort (Js.toString (port config))
        (setSmtpHost (Some (host config))
           (setSmtpConfig (Some (Provider config)) acc))
  | Some inherited =>
      setSmtpHost None
        (setSmtpConfig (Some (config_state (smtpConfig acc) inherited)) acc)
  | None =>
      let acc := setSmtpConfig None acc in
      if no_persisted_host st
      then setSmtpPort "" (setSmtpHost (Some "") acc)
      else acc
  end.

(** The body of the clear effect when its condition holds. *)
Definition cleared (acc : Page) : Page :=
  setTestResultValid false
    (setTestPassed false
       (setSmtpConfig None
          (setEmailDomain None
             (setSmtpPort ""
                (setSmtpHost (Some "")
                   (setPassword "" (setEmail "" acc))))))).

(** Whether the dependencies of an effect are those of the render
    before; on mount there is none and every effect runs. *)
Definition unchanged (eqb : Page -> Page -> bool) (prev : option Page) (cur : Page) : bool :=
  match prev with
  | Some p => eqb p cur
  | None => false
  end.

(** The cleanup of the detection effect: [clearTimeout(timer)]. *)
Definition cleanup (prev : option Page) (acc : Page) : Page :=
  match prev with
  | Some _ => setTimer None acc
  | None => acc
  end.

(** One commit: the effects whose dependencies changed since the render
    [prev] (all of them on mount) run in the order of the source, and
    their updates apply in that order. *)
Definition effects (prev : option Page) (cur : Page) : Page :=
  let acc := cur in
  let acc :=
    if unchanged detect_deps_eqb prev cur then acc
    else detect cur (cleanup prev acc) in
  let acc :=
    if unchanged success_eqb prev cur then acc
    else if testSuccess cur then setTestPassed true acc else acc in
  let acc :=
    if unchanged fields_eqb prev cur then acc
    else setTestResultValid false (setTestPassed false acc) in
  let acc :=
    if unchanged clear_deps_eqb prev cur then acc
    else if Fetcher.idle_success (clearFetcher cur) then cleared acc else acc in
  acc.

(** The updates of the effects cause a render of their own, whose
    effects run in turn; after the second commit nothing is left to run
    ([commit_settled] below). *)
Definition commit (prev : option Page) (cur : Page) : Page :=
  effects (Some cur) (effects prev cur).

(** The page after mounting with the loader's [settings]. *)
Definition mount (st : option FormSettings) : Page :=
  commit None (initial st).

(** *** What is rendered *)

(** [{emailDomain && (...)}]: password, SMTP fields and buttons. *)
Definition smtp_section (p : Page) : bool :=
  Js.truthy_opt (emailDomain p).

(** [{!smtpConfig && (...)}]: the editable host and port inputs. *)
Definition host_port_editable (p : Page) : bool :=
  smtp_section p && is_null (smtpConfig p).

(** [disabled] of the test button. *)
Definition test_disabled (p : Page) : bool :=
  negb (Js.truthy (email p)) || negb (Js.truthy (password p))
  || negb (Js.truthy_opt (smtpHost p)) || negb (Js.truthy (smtpPort p)).

(** [disabled={!testPassed}] of the Save Settings button. *)
Definition save_disabled (p : Page) : bool :=
  negb (testPassed p).

(** [{settings && (...)}]: the Disable Notifications button. *)
Definition disable_button (p : Page) : bool :=
  smtp_section p && negb (is_null (settings p)).

(** *** Event handlers *)

(** [String(v)] for [string | undefined], as [FormData.append] does. *)
Definition text_of (v : option string) : string :=
  match v with
  | Some s => s
  | None => "undefined"
  end.

(** The [FormData] that [handleTestEmail] builds from its render. *)
Definition test_entries (p : Page) : list (string * string) :=
  [("notification_email", email p);
   ("notification_email_password", password p);
   ("smtp_host", text_of (smtpHost p));
   ("smtp_port", smtpPort p)].

(** [handleTestEmail] does two things.  It queues the state update
    [setTestResultValid(true)], which is [handleTestEmail] here, and it
    calls [testFetcher.submit], which is [submitTest] below: the router
    (React Router 7, whose [data] and route types the routes import)
    publishes the new state of a fetcher in a transition, and React
    renders a transition after the updates that the handler queued
    itself. *)
Definition handleTestEmail (p : Page) : Page :=
  setTestResultValid true p.

(** The submission of [handleTestEmail] as the router publishes it: on
    the page [q] that is rendered by then, the test fetcher turns to
    submitting with the entries the handler read from its render [p]. *)
Definition submitTest (p q : Page) : Page :=
  setTestFetcher (Fetcher.submit (test_entries p) (testFetcher q)) q.

Definition handleDisableNotifications (p : Page) : Page :=
  setClearFetcher (Fetcher.submit [] (clearFetcher p)) p.

(** The four fields under the names of the inputs of the save form. *)
Definition save_entries (p : Page) : list (string * string) :=
  [("notification_email", email p);
   ("notification_email_password", password p);
   ("smtp_host", Js.or_empty (smtpHost p));
   ("smtp_port", smtpPort p)].

(** Submission of [fetcher.Form]: the save fetcher turns to submitting
    with the named inputs of the form. *)
Definition submitSave (p : Page) : Page :=
  setFetcher (Fetcher.submit (save_entries p) (fetcher p)) p.

(** What can happen to a mounted page: the user changes an input or
    presses a button, the browser submits the save form, the timeout of
    the detection fires, or the router renders the page with a new
    value of the loader data and of the three fetchers.

    [SubmitSave] is the [submit] event of [fetcher.Form]: the Save
    Settings button was pressed and the browser let the submission
    through.  The button is of [type="submit"] and the inputs of the
    form are [required], of [type="email"] and of [type="number"]; a
    press that the constraint validation of the browser blocks raises
    no event and changes nothing. *)
Inductive Event : Type :=
| ChangeEmail (value : string)
| ChangePassword (value : string)
| ChangeSmtpHost (value : string)
| ChangeSmtpPort (value : string)
| ClickTest
| SubmitSave
| ClickDisable
| Timeout
| Router (st : option FormSettings) (f t c : Fetcher.t).

(** The state updates of the handler of an event; an event on a control
    that is not rendered or is disabled does nothing.  For [ClickTest]
    these are the updates that [handleTestEmail] queues itself; its
    submission follows in [step]. *)
Definition handle (e : Event) (p : Page) : Page :=
  match e with
  | ChangeEmail v => setEmail v p
  | ChangePassword v => if smtp_section p then setPassword v p else p
  | ChangeSmtpHost v => if host_port_editable p then setSmtpHost (Some v) p else p
  | ChangeSmtpPort v => if host_port_editable p then setSmtpPort v p else p
  | ClickTest =>
      if smtp_section p && negb (test_disabled p) then handleTestEmail p else p
  | SubmitSave =>
      if smtp_section p && negb (save_disabled p) then submitSave p else p
  | ClickDisable =>
      if disable_button p then handleDisableNotifications p else p
  | Timeout =>
      match timer p with
      | Some (domain, st) => detected domain st (setTimer None p)
      | None => p
      end
  | Router st f t c => setRouter st f t c p
  end.

(** One event: the handler, then the renders and effects it causes.
    Events are taken one at a time, and the page has settled before the
    next event.  A press of the enabled test button causes two renders:
    first the page with [testResultValid] set and the test fetcher as
    it was, whose effects run, and then the page with the test fetcher
    submitting.  A handler that only submits a fetcher queues no update
    of its own, and the page is rendered once, with that fetcher
    submitting. *)
Definition step (p : Page) (e : Event) : Page :=
  match e with
  | ClickTest =>
      if smtp_section p && negb (test_disabled p)
      then commit (Some (commit (Some p) (handle ClickTest p)))
             (submitTest p (commit (Some p) (handle ClickTest p)))
      else commit (Some p) (handle ClickTest p)
  | _ => commit (Some p) (handle e p)
  end.

Definition run (p : Page) (events : list Event) : Page :=
  fold_left step events p.

(** Whether a string holds an [@]. *)
Fixpoint contains_at (s : string) : bool :=
  match s with
  | EmptyString => false
  | String c r => (c =? "@")%char || contains_at r
  end.

(** A store that answers every statement, and an email service that
    is down: the surroundings of the examples below. *)
Definition store_up : Statement -> Database -> bool := fun _ _ => false.

Definition no_email_service : EmailConfig -> option SendResult := fun _ => None.

(** The four editable fields of the page. *)
Definition fields (p : Page) : string * string * option string * string :=
  (email p, password p, smtpHost p, smtpPort p).

(** Whether the effects of a commit take the gate down: the fields
    changed, or a clear came back successful. *)
Definition clear_fires (prev : option Page) (cur : Page) : bool :=
  negb (unchanged clear_deps_eqb prev cur)
  && Fetcher.idle_success (clearFetcher cur).

Definition gate_resets (prev : option Page) (cur : Page) : bool :=
  negb (unchanged fields_eqb prev cur) || clear_fires prev cur.

(** *** Sample pages and events *)

(** A page mounted without settings, where the user typed a Gmail
    address, waited for the detection, typed a password and pressed
    the test button. *)
Definition page_testing : Page :=
  run (mount None)
    [ChangeEmail "me@gmail.com"; Timeout; ChangePassword "app password"; ClickTest].

(** The router hands over the test fetcher, idle with this answer. *)
Definition test_returns (answer : ActionData) : Event :=
  Router None Fetcher.IDLE_FETCHER
    (Fetcher.mk Fetcher.idle (Some answer) []) Fetcher.IDLE_FETCHER.

(** The router hands over the clear fetcher, idle with this answer. *)
Definition clear_returns (answer : ActionData) : Event :=
  Router None Fetcher.IDLE_FETCHER Fetcher.IDLE_FETCHER
    (Fetcher.mk Fetcher.idle (Some answer) []).

Definition sent : ActionData := mkData true None (Some "message-1").

(** A page mounted with a saved configuration, where the user pressed
    Disable Notifications. *)
Definition saved_row : FormSettings :=
  mkSettings "5f0c" "contact" (Some "me@gmail.com") (Some "app password")
    (Some "smtp.gmail.com") (Some 587%Z) 1 1000.

Definition page_clearing : Page :=
  step (mount (Some saved_row)) ClickDisable.

(** *** The vocabulary of the gate *)

(** The event is an edit: it changes one of the four inputs, which is
    rendered, to a new value. *)
Definition edits (p : Page) (e : Event) : bool :=
  match e with
  | ChangeEmail v => negb (email p =? v)
  | ChangePassword v => smtp_section p && negb (password p =? v)
  | ChangeSmtpHost v =>
      host_port_editable p && negb (option_eqb String.eqb (smtpHost p) (Some v))
  | ChangeSmtpPort v => host_port_editable p && negb (smtpPort p =? v)
  | _ => false
  end.

(** A test send completes successfully while its result is still
    current: the router hands over a test fetcher that is idle with a
    successful answer, which the one before was not, and
    [testResultValid] holds. *)
Definition test_succeeds (p : Page) (e : Event) : bool :=
  match e with
  | Router _ _ t _ =>
      testResultValid p
      && negb (Fetcher.idle_success (testFetcher p))
      && Fetcher.idle_success t
  | _ => false
  end.

(** The test button is pressed while the result of the last test is
    not current and the test fetcher still holds its successful answer:
    the render of [setTestResultValid(true)] shows that answer as
    current. *)
Definition revives (p : Page) (e : Event) : bool :=
  match e with
  | ClickTest =>
      smtp_section p && negb (test_disabled p)
      && negb (testResultValid p) && Fetcher.idle_success (testFetcher p)
  | _ => false
  end.

(** A clear completes successfully: the router hands over a clear
    fetcher that differs from the one before and is idle with a
    successful answer. *)
Definition clear_succeeds (p : Page) (e : Event) : bool :=
  match e with
  | Router _ _ _ c =>
      negb (Fetcher.state_eqb (Fetcher.state (clearFetcher p)) (Fetcher.state c)
            && option_eqb data_eqb (Fetcher.data (clearFetcher p)) (Fetcher.data c))
      && Fetcher.idle_success c
  | _ => false
  end.

(** The event disturbs a recorded test: a field has another value after
    it, or a clear completed. *)
Definition disturbs (p : Page) (e : Event) : bool :=
  negb (fields_eqb p (step p e)) || clear_succeeds p e.

Fixpoint undisturbed (p : Page) (events : list Event) : bool :=
  match events with
  | [] => true
  | e :: rest => negb (disturbs p e) && undisturbed (step p e) rest
  end.

(** The detection agrees with the email field: a pending timeout is
    for the domain of the email as it now stands, and while the email
    has no domain, no domain is detected and no profile is matched. *)
Definition detection_sound (p : Page) : Prop :=
  (forall d st, timer p = Some (d, st) -> getEmailDomain (email p) = Some d)
  /\ (getEmailDomain (email p) = None ->
      emailDomain p = None /\ smtpConfig p = None).

(** ** The forms route ([app/routes/forms.tsx]) *)

(** [[a-z0-9]] *)
Definition is_slug_char (c : ascii) : bool :=
  ((97 <=? Js.code c) && (Js.code c <=? 122)
   || (48 <=? Js.code c) && (Js.code c <=? 57))%N.

(** [.replace(/[^a-z0-9]+/g, "-")]: every maximal run of other
    characters becomes one dash.  [in_run] tells that the character
    before was part of such a run. *)
Fixpoint dash_runs (s : string) (in_run : bool) : string :=
  match s with
  | EmptyString => EmptyString
  | String c r =>
      if is_slug_char c then String c (dash_runs r false)
      else if in_run then dash_runs r true
      else String "-" (dash_runs r true)
  end.

(** [.replace(/^-+|-+$/g, "")]: the dashes at the start and the dashes
    at the end are removed. *)
Fixpoint drop_leading_dashes (s : string) : string :=
  match s with
  | String c r => if (c =? "-")%char then drop_leading_dashes r else s
  | EmptyString => EmptyString
  end.

Fixpoint drop_trailing_dashes (s : string) : string :=
  match s with
  | EmptyString => EmptyString
  | String c r =>
      match drop_trailing_dashes r with
      | EmptyString => if (c =? "-")%char then EmptyString else String c EmptyString
      | kept => String c kept
      end
  end.

(** The id of a new form: the slug of its name. *)
Definition slug (name : string) : string :=
  drop_trailing_dashes
    (drop_leading_dashes (dash_runs (Js.toLowerCase name) false)).

(** [url.pathname.replace(/\/$/, "")] *)
Fixpoint strip_trailing_slash (pathname : string) : string :=
  match pathname with
  | EmptyString => EmptyString
  | String c r =>
      match r with
      | EmptyString => if (c =? "/")%char then EmptyString else pathname
      | _ => String c (strip_trailing_slash r)
      end
  end.

Module Forms.

(** A row of the [forms] table, with the columns the route writes. *)
Record Form : Type := mkForm {
  id : string;
  name : string;
  created_at : Z;
  updated_at : Z
}.

(** [session.user], as far as the routes pass it on. *)
Record User : Type := mkUser {
  user_name : string;
  user_email : string
}.

Inductive Statement : Type :=
| SelectAll
| SelectById (id : string)
| Insert (id name : string) (createdAt updatedAt : Z).

(** What the loader and the action return: [redirect(location)], an
    object with an [error] under a status, or the loader data. *)
Inductive Reply : Type :=
| redirect (location : string)
| failure (error : string) (status : Z)
| page (forms : list (string * string)) (user : User).

(** [ORDER BY created_at ASC]; rows of one [created_at] are left in the
    order of the table. *)
Fixpoint insert_by_created_at (f : Form) (sorted : list Form) : list Form :=
  match sorted with
  | [] => [f]
  | g :: rest =>
      if (created_at f <=? created_at g)%Z then f :: sorted
      else g :: insert_by_created_at f rest
  end.

Definition order_by_created_at (table : list Form) : list Form :=
  fold_right insert_by_created_at [] table.

Definition select_by_id (formId : string) (table : list Form) : option Form :=
  find (fun f => id f =? formId) table.

(** The [forms] table as the settings routes read it. *)
Definition ids (table : list Form) : list string := map id table.

Section Route.

(** Whether the store rejects a statement, as for the settings. *)
Variable d1_fails : Statement -> list Form -> bool.

(** [loader].  [session] is what [auth.api.getSession] comes to:
    [session?.user], or a throw; [pathname] is the path of the request
    URL. *)
Definition loader (session : Result (option User)) (pathname : string)
    (table : list Form) : Result Reply :=
  match session with
  | Throw => Throw
  | Ok None => Ok (redirect "/login")
  | Ok (Some user) =>
      if d1_fails SelectAll table then Throw
      else
        let forms := map (fun f => (id f, name f)) (order_by_created_at table) in
        match forms with
        | [] => Ok (redirect "/setup")
        | first :: _ =>
            if strip_trailing_slash pathname =? "/forms"
            then Ok (redirect ("/forms/" ++ fst first ++ "/submissions"))
            else Ok (page forms user)
        end
  end.

(** [action]: the creation of a form.  [body] holds the entries of
    [request.formData()], [None] when the body does not parse;
    [createdAt] is the value of [Date.now()]. *)
Definition action (session : Result (option User))
    (body : option (list (string * string))) (createdAt : Z)
    (table : list Form) : Result Reply * list Form :=
  match session with
  | Throw => (Throw, table)
  | Ok None => (Ok (failure "Not Authorized" 401), table)
  | Ok (Some _) =>
      match body with
      | None => (Throw, table)
      | Some entries =>
          let name := get "name" entries in
          if negb (Js.truthy_opt name) then
            (Ok (failure "Form name is required" 200), table)
          else
            let id := slug (Js.or_empty name) in
            if d1_fails (SelectById id) table then (Throw, table)
            else
              match select_by_id id table with
              | Some existing =>
                  (Ok (failure "A form with this name already exists" 200), table)
              | None =>
                  if d1_fails (Insert id (Js.or_empty name) createdAt createdAt) table
                  then (Throw, table)
                  else
                    (Ok (redirect ("/forms/" ++ id ++ "/submissions")),
                     (table ++ [mkForm id (Js.or_empty name) createdAt createdAt])%list)
              end
      end
  end.

End Route.

End Forms.

(** A [forms] store that answers every statement. *)
Definition forms_store_up : Forms.Statement -> list Forms.Form -> bool :=
  fun _ _ => false.

(** Whether a string holds a character of [[a-z0-9]]. *)
Fixpoint has_slug_char (s : string) : bool :=
  match s with
  | EmptyString => false
  | String c r => is_slug_char c || has_slug_char r
  end.

(** A letter [A-Z] or [a-z], or a digit. *)
Definition is_alphanumeric (c : ascii) : bool :=
  ((65 <=? Js.code c) && (Js.code c <=? 90)
   || (97 <=? Js.code c) && (Js.code c <=? 122)
   || (48 <=? Js.code c) && (Js.code c <=? 57))%N.

Fixpoint has_alphanumeric (s : string) : bool :=
  match s with
  | EmptyString => false
  | String c r => is_alphanumeric c || has_alphanumeric r
  end.

(** The characters of a slug: [[a-z0-9]] and the dash. *)
Fixpoint slug_chars_only (s : string) : bool :=
  match s with
  | EmptyString => true
  | String c r => (is_slug_char c || (c =? "-")%char) && slug_chars_only r
  end.

(** No dash next to another, and none at the start, when [after_dash]
    tells that a dash came just before. *)
Fixpoint dashes_apart (s : string) (after_dash : bool) : bool :=
  match s with
  | EmptyString => true
  | String c r =>
      if (c =? "-")%char then negb after_dash && dashes_apart r true
      else dashes_apart r false
  end.

(** The last character of a string, if any. *)
Fixpoint last_char (s : string) : option ascii :=
  match s with
  | EmptyString => None
  | String c r =>
      match last_char r with
      | Some l => Some l
      | None => Some c
      end
  end.

(** ** More vocabulary of the server side *)

(** The four required fields of a body are all present and non-empty:
    the negation of the test that answers 400. *)
Definition all_fields_filled (entries : list (string * string)) : bool :=
  Js.truthy_opt (get "notification_email" entries)
  && Js.truthy_opt (get "notification_email_password" entries)
  && Js.truthy_opt (get "smtp_host" entries)
  && Js.truthy_opt (get "smtp_port" entries).

(** The configuration a test request asks the email service to try. *)
Definition test_config (entries : list (string * string)) : EmailConfig :=
  mkEmailConfig (Js.or_empty (get "notification_email" entries))
    (Js.or_empty (get "notification_email_password" entries))
    (Js.or_empty (get "smtp_host" entries))
    (Js.parseInt (Js.or_empty (get "smtp_port" entries))).

(** The settings rows of the other forms. *)
Definition other_rows (formId : string) (d : Database) : list FormSettings :=
  filter (fun row => negb (has_form_id formId row)) (form_settings d).

(** The worlds an action can leave: the one it found, or that one
    after the one write of its branch. *)
Inductive written (formId settingsId : string) (updatedAt : Z) (w : World)
    : World -> Prop :=
| written_nothing : written formId settingsId updatedAt w w
| written_delete :
    written formId settingsId updatedAt w
      (mkWorld (delete_settings formId (DB w)) (outbox w))
| written_update email password smtpHost smtpPort :
    select_settings formId (DB w) <> None ->
    written formId settingsId updatedAt w
      (mkWorld (update_settings email password smtpHost smtpPort updatedAt
                  formId (DB w)) (outbox w))
| written_insert email password smtpHost smtpPort :
    select_settings formId (DB w) = None ->
    written formId settingsId updatedAt w
      (mkWorld (insert_settings settingsId formId email password smtpHost
                  smtpPort updatedAt (DB w)) (outbox w)).

(** ** More vocabulary of the page *)

(** [{testFetcher.data?.error && testResultValid && (...)}]: the error
    of the last test is shown. *)
Definition test_error_shown (p : Page) : bool :=
  match Fetcher.data (testFetcher p) with
  | Some d => Js.truthy_opt (error d) && testResultValid p
  | None => false
  end.

(** A save request that carries the four fields as the page holds
    them. *)
Definition save_request (p : Page) : Request :=
  mkRequest "POST" (Some (save_entries p)).

(** The event comes from the router. *)
Definition from_router (e : Event) : bool :=
  match e with
  | Router _ _ _ _ => true
  | _ => false
  end.

(** The gate flags agree with the fields: [testPassed] only holds with
    [testResultValid], and [testResultValid] only holds while the SMTP
    section is rendered and the four fields are non-empty. *)
Definition gate_sound (p : Page) : Prop :=
  (testPassed p = true -> testResultValid p = true)
  /\ (testResultValid p = true ->
      test_disabled p = false /\ smtp_section p = true).

(** The value of a decimal numeral read from the left, after [acc]. *)
Fixpoint decimal_value (d : Decimal.uint) (acc : Z) : Z :=
  match d with
  | Decimal.Nil => acc
  | Decimal.D0 l => decimal_value l (10 * acc + 0)
  | Decimal.D1 l => decimal_value l (10 * acc + 1)
  | Decimal.D2 l => decimal_value l (10 * acc + 2)
  | Decimal.D3 l => decimal_value l (10 * acc + 3)
  | Decimal.D4 l => decimal_value l (10 * acc + 4)
  | Decimal.D5 l => decimal_value l (10 * acc + 5)
  | Decimal.D6 l => decimal_value l (10 * acc + 6)
  | Decimal.D7 l => decimal_value l (10 * acc + 7)
  | Decimal.D8 l => decimal_value l (10 * acc + 8)
  | Decimal.D9 l => decimal_value l (10 * acc + 9)
  end%Z.

(** The text does not go on with a digit. *)
Definition no_digit_ahead (s : string) : bool :=
  match s with
  | EmptyString => true
  | String c _ => is_null (Js.digit c)
  end.

(** * Properties *)

(** ** Provider detection *)

Example getEmailDomain_gmail : getEmailDomain "User@Gmail.com" = Some "gmail.com".
Proof. reflexivity. Qed.

Example getEmailDomain_no_suffix : getEmailDomain "user@" = None.
Proof. reflexivity. Qed.

Example parseInt_587 : Js.parseInt " 587px" = Js.Int 587.
Proof. reflexivity. Qed.

Example parseInt_abc : Js.parseInt "abc" = Js.NaN.
Proof. reflexivity. Qed.

Example toString_587 : Js.toString 587 = "587".
Proof. reflexivity. Qed.

Lemma match_domain_without_at (s : string) :
  contains_at s = false -> match_domain s = None.
Proof.
  induction s as [|c r IH]; simpl; [reflexivity|].
  intros H. apply orb_false_iff in H as [Hc Hr].
  rewrite Hc. simpl. auto.
Qed.

Lemma match_domain_first_at (pre suf : string) :
  contains_at pre = false ->
  dot_plus_end suf = true ->
  match_domain (pre ++ "@" ++ suf) = Some suf.
Proof.
  intros Hpre Hsuf. induction pre as [|c r IH]; simpl.
  - rewrite Hsuf. reflexivity.
  - simpl in Hpre. apply orb_false_iff in Hpre as [Hc Hr].
    rewrite Hc. simpl. auto.
Qed.

Lemma match_domain_trailing_at (pre : string) :
  contains_at pre = false -> match_domain (pre ++ "@") = None.
Proof.
  intros Hpre. induction pre as [|c r IH]; simpl; [reflexivity|].
  simpl in Hpre. apply orb_false_iff in Hpre as [Hc Hr].
  rewrite Hc. simpl. auto.
Qed.

(** The match is a non-empty suffix of the input: a detected domain is
    never the empty string. *)
Lemma match_domain_truthy (s m : string) :
  match_domain s = Some m -> Js.truthy m = true.
Proof.
  induction s as [|c r IH]; simpl; [discriminate|].
  destruct ((c =? "@")%char && dot_plus_end r) eqn:E; [|exact IH].
  intros [= <-]. apply andb_true_iff in E as [_ E].
  unfold dot_plus_end in E. apply andb_true_iff in E as [E _]. exact E.
Qed.

Lemma toLowerCase_truthy (s : string) :
  Js.truthy (Js.toLowerCase s) = Js.truthy s.
Proof. destruct s; reflexivity. Qed.

Lemma getEmailDomain_truthy (s d : string) :
  getEmailDomain s = Some d -> Js.truthy d = true.
Proof.
  unfold getEmailDomain. destruct (match_domain s) as [m|] eqn:E; [|discriminate].
  intros [= <-]. rewrite toLowerCase_truthy. eapply match_domain_truthy, E.
Qed.

(** A detected domain holds no capital letter, so the only members of
    [Object.prototype] it can name are [constructor] and [__proto__]:
    the lookup of [SMTP_CONFIGS] covers every key it is given. *)
Lemma lower_unit_not_upper (c : ascii) : is_upper (Js.lower_unit c) = false.
Proof. destruct c as [[] [] [] [] [] [] [] []]; reflexivity. Qed.

Lemma toLowerCase_no_upper (s : string) : has_upper (Js.toLowerCase s) = false.
Proof.
  induction s as [|c r IH]; simpl; [reflexivity|].
  now rewrite lower_unit_not_upper, IH.
Qed.

Lemma getEmailDomain_no_upper (email d : string) :
  getEmailDomain email = Some d -> has_upper d = false.
Proof.
  unfold getEmailDomain. destruct (match_domain email); [|discriminate].
  intros [= <-]. apply toLowerCase_no_upper.
Qed.

Lemma inherited_names_reached (email d : string) :
  getEmailDomain email = Some d -> In d object_prototype_names ->
  d = "constructor" \/ d = "__proto__".
Proof.
  intros H Hin. apply getEmailDomain_no_upper in H.
  simpl in Hin.
  repeat (destruct Hin as [<-|Hin]; [auto; discriminate H|]).
  destruct Hin.
Qed.

(** ** The store *)

Lemma select_form_present (formId : string) (d : Database) :
  In formId (forms d) -> select_form formId d = Some formId.
Proof.
  unfold select_form. induction (forms d) as [|x l IH]; simpl; [tauto|].
  intros [->|H].
  - rewrite String.eqb_refl. reflexivity.
  - destruct (x =? formId) eqn:E; [|auto].
    apply String.eqb_eq in E. now subst.
Qed.

Lemma select_form_absent (formId : string) (d : Database) :
  ~ In formId (forms d) -> select_form formId d = None.
Proof.
  unfold select_form. induction (forms d) as [|x l IH]; simpl; [reflexivity|].
  intros H. destruct (x =? formId) eqn:E.
  - apply String.eqb_eq in E. tauto.
  - apply IH. tauto.
Qed.

Lemma has_form_id_update_row (email password smtpHost : string)
    (smtpPort : Js.number) (updatedAt : Z) (formId : string) (row : FormSettings) :
  form_id (update_row email password smtpHost smtpPort updatedAt formId row)
  = form_id row.
Proof. unfold update_row. destruct (has_form_id formId row); reflexivity. Qed.

Lemma id_update_row (email password smtpHost : string)
    (smtpPort : Js.number) (updatedAt : Z) (formId : string) (row : FormSettings) :
  id (update_row email password smtpHost smtpPort updatedAt formId row) = id row.
Proof. unfold update_row. destruct (has_form_id formId row); reflexivity. Qed.

Lemma find_update_row (email password smtpHost : string)
    (smtpPort : Js.number) (updatedAt : Z) (formId : string)
    (rows : list FormSettings) :
  find (has_form_id formId)
    (map (update_row email password smtpHost smtpPort updatedAt formId) rows)
  = option_map (update_row email password smtpHost smtpPort updatedAt formId)
      (find (has_form_id formId) rows).
Proof.
  induction rows as [|r l IH]; simpl; [reflexivity|].
  unfold has_form_id at 1. rewrite has_form_id_update_row.
  fold (has_form_id formId r).
  destruct (has_form_id formId r); [reflexivity|exact IH].
Qed.

Lemma find_none_app {A : Type} (f : A -> bool) (l : list A) (x : A) :
  find f l = None -> find f (l ++ [x]) = find f [x].
Proof.
  induction l as [|y l IH]; simpl; [reflexivity|].
  destruct (f y); [discriminate|exact IH].
Qed.

Lemma filter_unmatched {A : Type} (f : A -> bool) (l : list A) :
  find f l = None -> filter (fun x => negb (f x)) l = l.
Proof.
  induction l as [|y l IH]; simpl; [reflexivity|].
  destruct (f y); [discriminate|]. simpl. intros H. now rewrite IH.
Qed.

Lemma find_filter_out {A : Type} (f : A -> bool) (l : list A) :
  find f (filter (fun x => negb (f x)) l) = None.
Proof.
  induction l as [|y l IH]; simpl; [reflexivity|].
  destruct (f y) eqn:E; simpl; [exact IH|]. now rewrite E.
Qed.

Lemma filter_update_row (email password smtpHost : string)
    (smtpPort : Js.number) (updatedAt : Z) (formId : string)
    (rows : list FormSettings) :
  filter (fun row => negb (has_form_id formId row))
    (map (update_row email password smtpHost smtpPort updatedAt formId) rows)
  = filter (fun row => negb (has_form_id formId row)) rows.
Proof.
  induction rows as [|r l IH]; simpl; [reflexivity|].
  unfold has_form_id at 1. rewrite has_form_id_update_row.
  fold (has_form_id formId r).
  destruct (has_form_id formId r) eqn:E; simpl; [exact IH|].
  unfold update_row at 1. rewrite E. now rewrite IH.
Qed.

Lemma database_eta (d : Database) : mkDatabase (forms d) (form_settings d) = d.
Proof. destruct d; reflexivity. Qed.

Lemma world_eta (w : World) : mkWorld (DB w) (outbox w) = w.
Proof. destruct w; reflexivity. Qed.

Lemma delete_settings_unmatched (formId : string) (d : Database) :
  select_settings formId d = None -> delete_settings formId d = d.
Proof.
  unfold select_settings, delete_settings. intros H.
  rewrite (filter_unmatched _ _ H). apply database_eta.
Qed.

(** [C7] A request for a form that does not exist is answered 404
    before anything else is looked at and changes nothing: on the
    notifications route whatever its method and body (save, clear or
    any other), on the test route for a test request (a POST), whatever
    its body.  Neither a row nor the outbox of test emails changes. *)
Theorem missing_form_is_404
    (d1_fails : Statement -> Database -> bool)
    (sendTestEmail : EmailConfig -> option SendResult)
    (w : World) (formId : string) (request : Request)
    (settingsId : string) (updatedAt : Z) :
  d1_fails (SelectForm formId) (DB w) = false ->
  ~ In formId (forms (DB w)) ->
  Notifications.action d1_fails request formId settingsId updatedAt w
  = (Ok (data false (Some "Form not found") 404), w)
  /\ (method request = "POST" ->
      NotificationsTest.action d1_fails sendTestEmail request formId w
      = (Ok (data false (Some "Form not found") 404), w)).
Proof.
  intros Hup Habsent. apply select_form_absent in Habsent.
  split.
  - unfold Notifications.action, bind, D1.first. rewrite Hup, Habsent. reflexivity.
  - intros Hpost. unfold NotificationsTest.action. rewrite Hpost. simpl.
    unfold try_catch, bind, D1.first. rewrite Hup, Habsent. reflexivity.
Qed.

Lemma missing_form_is_404_witness :
  Notifications.action store_up (mkRequest "POST" (Some [])) "contact" "uuid" 0
    (mkWorld (mkDatabase ["signup"] []) [])
  = (Ok (data false (Some "Form not found") 404),
     mkWorld (mkDatabase ["signup"] []) [])
  /\ NotificationsTest.action store_up no_email_service
       (mkRequest "POST" (Some [])) "contact"
       (mkWorld (mkDatabase ["signup"] []) [])
     = (Ok (data false (Some "Form not found") 404),
        mkWorld (mkDatabase ["signup"] []) []).
Proof.
  destruct (missing_form_is_404 store_up no_email_service
              (mkWorld (mkDatabase ["signup"] []) []) "contact"
              (mkRequest "POST" (Some [])) "uuid" 0) as [H1 H2].
  - reflexivity.
  - simpl. intros [H|[]]. discriminate H.
  - split; [exact H1|apply H2; reflexivity].
Defined.

(** On the test route the method is looked at first: any other verb
    than POST is answered 405, whether the form exists or not. *)
Lemma test_route_wrong_method_is_405
    (d1_fails : Statement -> Database -> bool)
    (sendTestEmail : EmailConfig -> option SendResult)
    (w : World) (formId : string) (request : Request) :
  method request <> "POST" ->
  NotificationsTest.action d1_fails sendTestEmail request formId w
  = (Ok (data false (Some "Method not allowed") 405), w).
Proof.
  intros H. unfold NotificationsTest.action.
  destruct (method request =? "POST") eqn:E; [|reflexivity].
  apply String.eqb_eq in E. contradiction.
Qed.

(** [C8] Clearing is idempotent.  For an existing form and a store
    that answers, DELETE returns 200 with [success: true] and leaves no
    settings row for the form, whether or not there was one; when there
    was none the world is left as it was, and a second DELETE answers
    the same and changes nothing more. *)
Theorem clear_is_idempotent
    (d1_fails : Statement -> Database -> bool)
    (w : World) (formId : string) (entries : option (list (string * string)))
    (settingsId : string) (updatedAt : Z) :
  (forall q d, d1_fails q d = false) ->
  In formId (forms (DB w)) ->
  let clear :=
    Notifications.action d1_fails (mkRequest "DELETE" entries) formId
      settingsId updatedAt in
  exists w',
    clear w = (Ok (data true None 200), w')
    /\ DB w' = delete_settings formId (DB w)
    /\ outbox w' = outbox w
    /\ select_settings formId (DB w') = None
    /\ (select_settings formId (DB w) = None -> w' = w)
    /\ clear w' = (Ok (data true None 200), w').
Proof.
  intros Hup Hform clear.
  assert (Hclear : forall v, In formId (forms (DB v)) ->
            clear v = (Ok (data true None 200),
                       mkWorld (delete_settings formId (DB v)) (outbox v))).
  { intros v Hv. unfold clear, Notifications.action, bind, try_catch, D1.first, D1.run.
    rewrite Hup, (select_form_present _ _ Hv). simpl. rewrite Hup. reflexivity. }
  exists (mkWorld (delete_settings formId (DB w)) (outbox w)).
  assert (Hgone : select_settings formId (delete_settings formId (DB w)) = None)
    by apply find_filter_out.
  repeat split; simpl; auto.
  - intros Hnone. rewrite (delete_settings_unmatched _ _ Hnone). apply world_eta.
  - rewrite Hclear by exact Hform. simpl.
    now rewrite (delete_settings_unmatched _ _ Hgone).
Qed.

Lemma clear_is_idempotent_witness :
  exists w',
    Notifications.action store_up (mkRequest "DELETE" None) "contact" "uuid" 0
      (mkWorld (mkDatabase ["contact"] []) [])
    = (Ok (data true None 200), w')
    /\ w' = mkWorld (mkDatabase ["contact"] []) [].
Proof.
  destruct (clear_is_idempotent store_up (mkWorld (mkDatabase ["contact"] []) [])
              "contact" None "uuid" 0) as (w' & H1 & _ & _ & _ & H5 & _).
  - reflexivity.
  - simpl. auto.
  - exists w'. split; [exact H1|apply H5; reflexivity].
Defined.

(** [C4], as amended.  A save for an existing form whose port field is
    absent or empty is answered 400 "Missing required fields", and
    nothing is written. *)
Theorem save_without_port_is_400
    (d1_fails : Statement -> Database -> bool)
    (w : World) (formId : string) (entries : list (string * string))
    (settingsId : string) (updatedAt : Z) :
  d1_fails (SelectForm formId) (DB w) = false ->
  In formId (forms (DB w)) ->
  get "smtp_port" entries = None \/ get "smtp_port" entries = Some "" ->
  Notifications.action d1_fails (mkRequest "POST" (Some entries)) formId
    settingsId updatedAt w
  = (Ok (data false (Some "Missing required fields") 400), w).
Proof.
  intros Hup Hform Hport.
  unfold Notifications.action, bind, try_catch, D1.first, formData, ret.
  rewrite Hup, (select_form_present _ _ Hform). simpl.
  assert (Hfalsy : Js.truthy_opt (get "smtp_port" entries) = false)
    by (destruct Hport as [-> | ->]; reflexivity).
  rewrite Hfalsy. simpl. rewrite !orb_true_r. reflexivity.
Qed.

Lemma save_without_port_is_400_witness :
  Notifications.action store_up
    (mkRequest "POST"
       (Some [("notification_email", "me@example.org");
              ("notification_email_password", "secret");
              ("smtp_host", "smtp.example.org");
              ("smtp_port", "")]))
    "contact" "uuid" 0 (mkWorld (mkDatabase ["contact"] []) [])
  = (Ok (data false (Some "Missing required fields") 400),
     mkWorld (mkDatabase ["contact"] []) []).
Proof.
  apply (save_without_port_is_400 store_up).
  - reflexivity.
  - simpl. auto.
  - right. reflexivity.
Defined.

(** [C4], as stated, fails: a port that is not a number passes the
    validation, the save is answered 200, and a row is written whose
    port is NULL. *)
Lemma save_with_nonnumeric_port_is_accepted :
  Notifications.action store_up
    (mkRequest "POST"
       (Some [("notification_email", "me@example.org");
              ("notification_email_password", "secret");
              ("smtp_host", "smtp.example.org");
              ("smtp_port", "abc")]))
    "contact" "uuid" 1000 (mkWorld (mkDatabase ["contact"] []) [])
  = (Ok (data true None 200),
     mkWorld
       (mkDatabase ["contact"]
          [mkSettings "uuid" "contact" (Some "me@example.org") (Some "secret")
             (Some "smtp.example.org") None 1 1000])
       []).
Proof. reflexivity. Qed.

Lemma map_id_update_row (email password smtpHost : string)
    (smtpPort : Js.number) (updatedAt : Z) (formId : string)
    (rows : list FormSettings) :
  map id (map (update_row email password smtpHost smtpPort updatedAt formId) rows)
  = map id rows
  /\ map form_id
       (map (update_row email password smtpHost smtpPort updatedAt formId) rows)
     = map form_id rows.
Proof.
  rewrite !map_map. split; apply map_ext; intros r.
  - apply id_update_row.
  - apply has_form_id_update_row.
Qed.

(** [C3] Round trip of a save.  For an existing form, a store that
    answers and a body whose four fields are non-empty, the save is
    answered 200 with [success: true] (the handler takes no account of
    any test).  It updates the rows of the form in place when there is
    one, keeping their ids, and else appends one row under the new id;
    other rows, the forms and the outbox are untouched.  The loader
    then returns a row of the form that holds the submitted email,
    password and host, the port as [parseInt] read it, and
    [smtp_secure = 1]. *)
Theorem save_then_load_round_trip
    (d1_fails : Statement -> Database -> bool)
    (w : World) (formId : string) (entries : list (string * string))
    (email password smtpHost smtpPort : string)
    (settingsId : string) (updatedAt : Z) :
  (forall q d, d1_fails q d = false) ->
  In formId (forms (DB w)) ->
  get "notification_email" entries = Some email ->
  get "notification_email_password" entries = Some password ->
  get "smtp_host" entries = Some smtpHost ->
  get "smtp_port" entries = Some smtpPort ->
  email <> "" -> password <> "" -> smtpHost <> "" -> smtpPort <> "" ->
  exists w',
    Notifications.action d1_fails (mkRequest "POST" (Some entries)) formId
      settingsId updatedAt w
    = (Ok (data true None 200), w')
    /\ outbox w' = outbox w
    /\ forms (DB w') = forms (DB w)
    /\ filter (fun row => negb (has_form_id formId row)) (form_settings (DB w'))
       = filter (fun row => negb (has_form_id formId row)) (form_settings (DB w))
    /\ (select_settings formId (DB w) <> None ->
        map id (form_settings (DB w')) = map id (form_settings (DB w))
        /\ map form_id (form_settings (DB w')) = map form_id (form_settings (DB w)))
    /\ (select_settings formId (DB w) = None ->
        form_settings (DB w')
        = (form_settings (DB w) ++
             [mkSettings settingsId formId (Some email) (Some password)
                (Some smtpHost) (sql_number (Js.parseInt smtpPort)) 1 updatedAt])%list)
    /\ exists row,
         SettingsRoute.loader d1_fails formId w' = (Ok (Some row, formId), w')
         /\ form_id row = formId
         /\ notification_email row = Some email
         /\ notification_email_password row = Some password
         /\ smtp_host row = Some smtpHost
         /\ smtp_port row = sql_number (Js.parseInt smtpPort)
         /\ smtp_secure row = 1%Z
         /\ updated_at row = updatedAt.
Proof.
  intros Hup Hform He Hp Hh Hq Ne Np Nh Nq.
  assert (T : forall s, s <> "" -> Js.truthy s = true)
    by (intros [|c r] H; [congruence|reflexivity]).
  unfold Notifications.action, Notifications.upsert, SettingsRoute.loader,
    bind, try_catch, D1.first, D1.run, formData, ret.
  rewrite Hup, (select_form_present _ _ Hform). simpl.
  rewrite He, Hp, Hh, Hq. simpl.
  rewrite (T _ Ne), (T _ Np), (T _ Nh), (T _ Nq). simpl.
  rewrite Hup.
  destruct (select_settings formId (DB w)) as [old|] eqn:Hold; simpl;
    rewrite Hup; eexists; (split; [reflexivity|]); simpl; rewrite Hup.
  - repeat split; try congruence.
    + apply filter_update_row.
    + apply map_id_update_row.
    + apply map_id_update_row.
    + unfold select_settings. simpl. rewrite find_update_row.
      fold (select_settings formId (DB w)). rewrite Hold. simpl.
      assert (Hm : has_form_id formId old = true)
        by (apply (find_some _ _ Hold)).
      eexists. split; [reflexivity|]. unfold update_row. rewrite Hm. simpl.
      unfold has_form_id in Hm. apply String.eqb_eq in Hm.
      repeat split; auto.
  - assert (Hnew : has_form_id formId
             (mkSettings settingsId formId (Some email) (Some password)
                (Some smtpHost) (sql_number (Js.parseInt smtpPort)) 1 updatedAt)
             = true) by apply String.eqb_refl.
    repeat split; try congruence.
    + rewrite filter_app. simpl. rewrite Hnew. simpl. apply app_nil_r.
    + unfold select_settings. simpl. rewrite (find_none_app _ _ _ Hold).
      simpl. rewrite Hnew.
      eexists. split; [reflexivity|]. simpl. repeat split.
Qed.

Lemma save_then_load_round_trip_witness :
  exists w' row,
    Notifications.action store_up
      (mkRequest "POST"
         (Some [("notification_email", "me@example.org");
                ("notification_email_password", "secret");
                ("smtp_host", "smtp.example.org");
                ("smtp_port", "465")]))
      "contact" "uuid" 1000 (mkWorld (mkDatabase ["contact"] []) [])
    = (Ok (data true None 200), w')
    /\ SettingsRoute.loader store_up "contact" w' = (Ok (Some row, "contact"), w')
    /\ smtp_port row = Some 465%Z.
Proof.
  destruct (save_then_load_round_trip store_up
              (mkWorld (mkDatabase ["contact"] []) []) "contact"
              [("notification_email", "me@example.org");
               ("notification_email_password", "secret");
               ("smtp_host", "smtp.example.org");
               ("smtp_port", "465")]
              "me@example.org" "secret" "smtp.example.org" "465" "uuid" 1000)
    as (w' & H1 & _ & _ & _ & _ & _ & row & H2 & _ & _ & _ & _ & H3 & _);
    try reflexivity; try discriminate.
  - simpl. auto.
  - exists w', row. auto.
Defined.

(** ** The page: one commit *)

Ltac split_effects :=
  unfold gate_resets, clear_fires, effects, cleanup, detect, cleared;
  repeat match goal with
         | |- context [unchanged ?e ?p ?c] => destruct (unchanged e p c) eqn:?
         | |- context [Fetcher.idle_success ?f] =>
             destruct (Fetcher.idle_success f) eqn:?
         | |- context [testSuccess ?c] => destruct (testSuccess c) eqn:?
         | |- context [match ?x with _ => _ end] => destruct x eqn:?
         end;
  simpl in *; try reflexivity; try congruence.

Lemma effects_router (prev : option Page) (cur : Page) :
  settings (effects prev cur) = settings cur
  /\ fetcher (effects prev cur) = fetcher cur
  /\ testFetcher (effects prev cur) = testFetcher cur
  /\ clearFetcher (effects prev cur) = clearFetcher cur.
Proof. repeat split; split_effects. Qed.

Lemma effects_testResultValid (prev : option Page) (cur : Page) :
  testResultValid (effects prev cur)
  = if gate_resets prev cur then false else testResultValid cur.
Proof. split_effects. Qed.

Lemma effects_testPassed (prev : option Page) (cur : Page) :
  testPassed (effects prev cur)
  = if gate_resets prev cur then false
    else if negb (unchanged success_eqb prev cur) && testSuccess cur then true
    else testPassed cur.
Proof. split_effects. Qed.

Lemma effects_fields (prev : option Page) (cur : Page) :
  fields (effects prev cur)
  = if clear_fires prev cur then ("", "", Some "", "") else fields cur.
Proof. unfold fields. split_effects. Qed.

Lemma effects_detection_cleared (prev : option Page) (cur : Page) :
  clear_fires prev cur = true ->
  emailDomain (effects prev cur) = None /\ smtpConfig (effects prev cur) = None.
Proof. split; revert H; split_effects. Qed.

(** *** Equality of dependencies *)

Lemma option_eqb_refl {A : Type} (eqb : A -> A -> bool) (a : option A) :
  (forall x, eqb x x = true) -> option_eqb eqb a a = true.
Proof. intros H. destruct a; simpl; auto. Qed.

Lemma option_eqb_string_eq (a b : option string) :
  option_eqb String.eqb a b = true <-> a = b.
Proof.
  destruct a as [x|], b as [y|]; simpl; split; try congruence.
  - intros H. apply String.eqb_eq in H. congruence.
  - intros [= ->]. apply String.eqb_refl.
Qed.

Lemma data_eqb_refl (d : ActionData) : data_eqb d d = true.
Proof.
  unfold data_eqb. rewrite Bool.eqb_reflx.
  rewrite !option_eqb_refl by apply String.eqb_refl. reflexivity.
Qed.

Lemma state_eqb_refl (s : Fetcher.State) : Fetcher.state_eqb s s = true.
Proof. destruct s; reflexivity. Qed.

Lemma state_eqb_eq (a b : Fetcher.State) : Fetcher.state_eqb a b = true <-> a = b.
Proof. destruct a, b; simpl; split; congruence. Qed.

Lemma clear_deps_eqb_same (a b : Page) :
  clearFetcher a = clearFetcher b -> clear_deps_eqb a b = true.
Proof.
  intros H. unfold clear_deps_eqb. rewrite H, state_eqb_refl.
  apply option_eqb_refl, data_eqb_refl.
Qed.

Lemma fields_eqb_eq (a b : Page) : fields_eqb a b = true <-> fields a = fields b.
Proof.
  unfold fields_eqb, fields. rewrite !andb_true_iff, !String.eqb_eq, option_eqb_string_eq.
  split; [intros [[[-> ->] ->] ->]; reflexivity|intros [= -> -> -> ->]; auto].
Qed.

Lemma fields_eqb_refl (a : Page) : fields_eqb a a = true.
Proof. now apply fields_eqb_eq. Qed.

Lemma detect_deps_eqb_same (a b : Page) :
  email a = email b -> settings a = settings b -> detect_deps_eqb a b = true.
Proof.
  intros He Hs. unfold detect_deps_eqb. rewrite He, Hs, String.eqb_refl. simpl.
  apply option_eqb_refl. intros x. apply option_eqb_refl, String.eqb_refl.
Qed.

Lemma success_eqb_same (a b : Page) :
  testFetcher a = testFetcher b -> testResultValid a = testResultValid b ->
  success_eqb a b = true.
Proof.
  intros Hf Hv. unfold success_eqb, testSuccess. rewrite Hf, Hv.
  apply Bool.eqb_reflx.
Qed.

Lemma effects_emailDomain (prev : option Page) (cur : Page) :
  emailDomain (effects prev cur)
  = if clear_fires prev cur then None
    else if unchanged detect_deps_eqb prev cur then emailDomain cur
    else match getEmailDomain (email cur) with
         | Some d => if Js.truthy d then emailDomain cur else None
         | None => None
         end.
Proof. split_effects. Qed.

Lemma effects_smtpConfig (prev : option Page) (cur : Page) :
  smtpConfig (effects prev cur)
  = if clear_fires prev cur then None
    else if unchanged detect_deps_eqb prev cur then smtpConfig cur
    else match getEmailDomain (email cur) with
         | Some d => if Js.truthy d then smtpConfig cur else None
         | None => None
         end.
Proof. split_effects. Qed.

Lemma effects_timer (prev : option Page) (cur : Page) :
  timer (effects prev cur)
  = if unchanged detect_deps_eqb prev cur then timer cur
    else match getEmailDomain (email cur) with
         | Some d =>
             if Js.truthy d then Some (d, settings cur) else timer (cleanup prev cur)
         | None => timer (cleanup prev cur)
         end.
Proof. split_effects. Qed.

(** ** The page: the second commit changes nothing the page shows *)

Lemma second_commit_clear (prev : option Page) (cur : Page) :
  clear_fires (Some cur) (effects prev cur) = false.
Proof.
  unfold clear_fires. simpl. rewrite clear_deps_eqb_same; [reflexivity|].
  symmetry. apply effects_router.
Qed.

Lemma second_commit_fields_unchanged (prev : option Page) (cur : Page) :
  clear_fires prev cur = false -> fields_eqb cur (effects prev cur) = true.
Proof.
  intros H. apply fields_eqb_eq. rewrite effects_fields, H. reflexivity.
Qed.

Lemma commit_fields (prev : option Page) (cur : Page) :
  fields (commit prev cur) = fields (effects prev cur).
Proof.
  unfold commit. rewrite (effects_fields (Some cur)), second_commit_clear.
  reflexivity.
Qed.

Lemma commit_router (prev : option Page) (cur : Page) :
  settings (commit prev cur) = settings cur
  /\ fetcher (commit prev cur) = fetcher cur
  /\ testFetcher (commit prev cur) = testFetcher cur
  /\ clearFetcher (commit prev cur) = clearFetcher cur.
Proof.
  unfold commit.
  destruct (effects_router (Some cur) (effects prev cur)) as (-> & -> & -> & ->).
  apply effects_router.
Qed.

Lemma commit_testResultValid (prev : option Page) (cur : Page) :
  testResultValid (commit prev cur)
  = if gate_resets prev cur then false else testResultValid cur.
Proof.
  unfold commit. rewrite (effects_testResultValid (Some cur)), effects_testResultValid.
  destruct (gate_resets prev cur) eqn:G; [now destruct (gate_resets (Some cur) _)|].
  unfold gate_resets in *. apply orb_false_iff in G as [_ G].
  rewrite second_commit_clear. simpl.
  now rewrite (second_commit_fields_unchanged _ _ G).
Qed.

Lemma commit_testPassed (prev : option Page) (cur : Page) :
  testPassed (commit prev cur)
  = if gate_resets prev cur then false
    else if negb (unchanged success_eqb prev cur) && testSuccess cur then true
    else testPassed cur.
Proof.
  unfold commit. rewrite (effects_testPassed (Some cur)).
  assert (Hv := effects_testResultValid prev cur).
  assert (Hp := effects_testPassed prev cur).
  destruct (effects_router prev cur) as (_ & _ & Ht & _).
  destruct (gate_resets prev cur) eqn:G.
  - assert (Hs : testSuccess (effects prev cur) = false)
      by (unfold testSuccess; rewrite Hv; apply andb_false_r).
    rewrite Hs, andb_false_r, Hp. now destruct (gate_resets (Some cur) _).
  - rewrite <- Hp. unfold gate_resets in *. apply orb_false_iff in G as [_ G].
    rewrite second_commit_clear. simpl.
    rewrite (second_commit_fields_unchanged _ _ G). simpl.
    rewrite success_eqb_same by congruence. reflexivity.
Qed.

Lemma commit_detection (prev : option Page) (cur : Page) :
  emailDomain (commit prev cur) = emailDomain (effects prev cur)
  /\ smtpConfig (commit prev cur) = smtpConfig (effects prev cur).
Proof.
  unfold commit.
  rewrite (effects_emailDomain (Some cur)), (effects_smtpConfig (Some cur)).
  rewrite second_commit_clear.
  destruct (unchanged detect_deps_eqb (Some cur) (effects prev cur)) eqn:U;
    [split; reflexivity|].
  assert (Hf := effects_fields prev cur).
  destruct (clear_fires prev cur) eqn:C.
  - destruct (effects_detection_cleared _ _ C) as [-> ->].
    split; destruct (getEmailDomain _) as [d|]; try destruct (Js.truthy d);
      reflexivity.
  - simpl in U. rewrite detect_deps_eqb_same in U; [discriminate| |].
    + unfold fields in Hf. now injection Hf as He _ _ _.
    + symmetry. apply effects_router.
Qed.

(** After the second commit no effect has anything left to run: its
    dependencies are those of the render before. *)
Lemma commit_settled (prev : option Page) (cur : Page) :
  effects (Some (effects prev cur)) (commit prev cur) = commit prev cur.
Proof.
  assert (Hf := commit_fields prev cur).
  assert (Hv : testResultValid (commit prev cur) = testResultValid (effects prev cur))
    by (now rewrite commit_testResultValid, effects_testResultValid).
  destruct (commit_router prev cur) as (Hs & _ & Ht & Hc).
  destruct (effects_router prev cur) as (Hs' & _ & Ht' & Hc').
  unfold effects at 1. simpl.
  rewrite detect_deps_eqb_same, success_eqb_same, clear_deps_eqb_same;
    try congruence.
  - replace (fields_eqb (effects prev cur) (commit prev cur)) with true;
      [reflexivity|].
    symmetry. apply fields_eqb_eq. congruence.
  - unfold fields in Hf. now injection Hf as He _ _ _.
Qed.

(** ** The page: one event *)

Lemma effects_idle (p : Page) : effects (Some p) p = p.
Proof.
  unfold effects, unchanged.
  rewrite detect_deps_eqb_same, success_eqb_same, fields_eqb_refl,
    clear_deps_eqb_same by reflexivity.
  reflexivity.
Qed.

Lemma commit_idle (p : Page) : commit (Some p) p = p.
Proof. unfold commit. now rewrite !effects_idle. Qed.

(** The render of the submitting test fetcher sets nothing: no effect
    of the page acts on a fetcher that is not idle. *)
Lemma effects_submitTest (p q : Page) :
  effects (Some q) (submitTest p q) = submitTest p q.
Proof.
  unfold effects, unchanged.
  rewrite detect_deps_eqb_same, clear_deps_eqb_same by reflexivity.
  replace (fields_eqb q (submitTest p q)) with true
    by (symmetry; now apply fields_eqb_eq).
  replace (testSuccess (submitTest p q)) with false by reflexivity.
  now destruct (success_eqb q (submitTest p q)).
Qed.

Lemma commit_submitTest (p q : Page) :
  commit (Some q) (submitTest p q) = submitTest p q.
Proof. unfold commit. rewrite effects_submitTest. apply effects_idle. Qed.

Lemma submitTest_testFetcher (p q : Page) :
  testFetcher (submitTest p q) = Fetcher.submit (test_entries p) (testFetcher q).
Proof. reflexivity. Qed.

Lemma step_plain (p : Page) (e : Event) :
  e <> ClickTest -> step p e = commit (Some p) (handle e p).
Proof. intros H. destruct e; try reflexivity. congruence. Qed.

Lemma step_ClickTest (p : Page) :
  step p ClickTest
  = if smtp_section p && negb (test_disabled p)
    then submitTest p (commit (Some p) (handle ClickTest p))
    else commit (Some p) (handle ClickTest p).
Proof. unfold step. now rewrite commit_submitTest. Qed.

(** An event leaves the page as the commit of its handler leaves it,
    but for the test fetcher after a press of the test button. *)
Lemma step_commit (p : Page) (e : Event) :
  step p e = commit (Some p) (handle e p)
  \/ step p e = submitTest p (commit (Some p) (handle e p)).
Proof.
  destruct e; try (left; reflexivity).
  rewrite step_ClickTest.
  destruct (smtp_section p && negb (test_disabled p)); auto.
Qed.

Lemma step_fields (p : Page) (e : Event) :
  fields (step p e) = fields (commit (Some p) (handle e p)).
Proof. now destruct (step_commit p e) as [-> | ->]. Qed.

Lemma step_flags (p : Page) (e : Event) :
  testPassed (step p e) = testPassed (commit (Some p) (handle e p))
  /\ testResultValid (step p e) = testResultValid (commit (Some p) (handle e p)).
Proof. now destruct (step_commit p e) as [-> | ->]. Qed.

Lemma step_detection (p : Page) (e : Event) :
  emailDomain (step p e) = emailDomain (commit (Some p) (handle e p))
  /\ smtpConfig (step p e) = smtpConfig (commit (Some p) (handle e p))
  /\ timer (step p e) = timer (commit (Some p) (handle e p)).
Proof. now destruct (step_commit p e) as [-> | ->]. Qed.

Ltac answered :=
  eexists; split; [reflexivity|]; simpl;
  split; [tauto|]; split; [reflexivity|]; intros; try reflexivity; congruence.

Ltac split_handle :=
  unfold handle, detected, handleTestEmail, handleDisableNotifications,
    submitSave, config_state;
  repeat match goal with
         | |- context [match ?x with _ => _ end] => destruct x eqn:?
         end;
  simpl in *; try reflexivity; try congruence.

Lemma handle_testPassed (e : Event) (p : Page) :
  testPassed (handle e p) = testPassed p.
Proof. split_handle. Qed.

Lemma handle_testResultValid (e : Event) (p : Page) :
  e <> ClickTest -> testResultValid (handle e p) = testResultValid p.
Proof. intros H. destruct e; try congruence; split_handle. Qed.

Lemma handle_testFetcher (e : Event) (p : Page) :
  testFetcher (handle e p)
  = match e with
    | Router _ _ t _ => t
    | _ => testFetcher p
    end.
Proof. destruct e; try reflexivity; split_handle. Qed.

Lemma handle_clear_fires (e : Event) (p : Page) :
  clear_fires (Some p) (handle e p) = clear_succeeds p e.
Proof.
  unfold clear_fires, unchanged.
  destruct e; try reflexivity; simpl;
    try solve [rewrite clear_deps_eqb_same; [reflexivity|split_handle]].
  unfold disable_button. destruct (smtp_section p && negb (is_null (settings p))).
  - simpl. apply andb_false_r.
  - now rewrite clear_deps_eqb_same.
Qed.

Lemma handle_Router_fields (p : Page) (st : option FormSettings) (f t c : Fetcher.t) :
  fields_eqb p (handle (Router st f t c) p) = true.
Proof. now apply fields_eqb_eq. Qed.

(** Whether the gate is reset by the commit of an event is whether the
    event disturbs. *)
Lemma gate_resets_disturbs (p : Page) (e : Event) :
  gate_resets (Some p) (handle e p) = disturbs p e.
Proof.
  unfold gate_resets, disturbs. rewrite handle_clear_fires. simpl.
  destruct (clear_succeeds p e) eqn:C; [now rewrite !orb_true_r|].
  rewrite !orb_false_r. f_equal.
  apply eq_true_iff_eq.
  rewrite !fields_eqb_eq, step_fields, commit_fields, effects_fields.
  now rewrite handle_clear_fires, C.
Qed.

Lemma handle_testSuccess (e : Event) (p : Page) :
  test_succeeds p e = false -> revives p e = false ->
  testSuccess p = false -> testSuccess (handle e p) = false.
Proof.
  intros Hr Hv Hs. unfold testSuccess in *.
  destruct e;
    try (rewrite handle_testFetcher, handle_testResultValid by discriminate;
         exact Hs).
  - simpl in *.
    destruct (smtp_section p && negb (test_disabled p)); [|exact Hs].
    simpl in *.
    destruct (Fetcher.idle_success (testFetcher p)), (testResultValid p);
      simpl in *; congruence.
  - simpl in *.
    destruct (Fetcher.idle_success t), (Fetcher.idle_success (testFetcher p)),
      (testResultValid p); simpl in *; congruence.
Qed.

(** [testSuccess] rises in the render of a handler's updates when a
    test returns successfully while its result is current, and when the
    test button is pressed over the successful answer of an earlier
    test. *)
Lemma testSuccess_rises (p : Page) (e : Event) :
  negb (unchanged success_eqb (Some p) (handle e p)) && testSuccess (handle e p)
  = test_succeeds p e || revives p e.
Proof.
  unfold unchanged, success_eqb.
  destruct (test_succeeds p e) eqn:R.
  - destruct e; try discriminate. unfold testSuccess. simpl in *.
    destruct (Fetcher.idle_success t), (Fetcher.idle_success (testFetcher p)),
      (testResultValid p); simpl in *; congruence.
  - destruct (revives p e) eqn:V.
    + destruct e; try discriminate. unfold testSuccess. simpl in *.
      destruct (smtp_section p && negb (test_disabled p)); [|discriminate].
      simpl in *.
      destruct (Fetcher.idle_success (testFetcher p)), (testResultValid p);
        simpl in *; congruence.
    + destruct (testSuccess p) eqn:S.
      * now destruct (testSuccess (handle e p)).
      * now rewrite handle_testSuccess.
Qed.

(** The gate after one event. *)
Lemma step_testPassed (p : Page) (e : Event) :
  testPassed (step p e)
  = negb (disturbs p e)
    && (test_succeeds p e || revives p e || testPassed p).
Proof.
  destruct (step_flags p e) as [-> _].
  rewrite commit_testPassed, gate_resets_disturbs, testSuccess_rises.
  rewrite handle_testPassed.
  destruct (disturbs p e), (test_succeeds p e), (revives p e); reflexivity.
Qed.

Lemma step_testResultValid (p : Page) (e : Event) :
  testResultValid (step p e)
  = negb (disturbs p e) && testResultValid (handle e p).
Proof.
  destruct (step_flags p e) as [_ ->].
  rewrite commit_testResultValid, gate_resets_disturbs.
  now destruct (disturbs p e).
Qed.

(** ** The gate *)

Lemma test_succeeds_disturbs (p : Page) (e : Event) :
  test_succeeds p e = true -> disturbs p e = clear_succeeds p e.
Proof.
  intros H. rewrite <- gate_resets_disturbs. unfold gate_resets.
  rewrite handle_clear_fires.
  destruct e; try discriminate. unfold unchanged.
  now rewrite handle_Router_fields.
Qed.

Lemma disturbs_clear_succeeds (p : Page) (e : Event) :
  disturbs p e = false -> clear_succeeds p e = false.
Proof. unfold disturbs. intros H. now apply orb_false_iff in H. Qed.

Lemma run_snoc (p : Page) (events : list Event) (e : Event) :
  run p (events ++ [e]) = step (run p events) e.
Proof. unfold run. now rewrite fold_left_app. Qed.

Lemma run_app (p : Page) (a b : list Event) :
  run p (a ++ b) = run (run p a) b.
Proof. unfold run. now rewrite fold_left_app. Qed.

Lemma undisturbed_app (p : Page) (a b : list Event) :
  undisturbed p (a ++ b) = undisturbed p a && undisturbed (run p a) b.
Proof.
  revert p. induction a as [|e a IH]; intros p; simpl; [reflexivity|].
  now rewrite IH, andb_assoc.
Qed.

Lemma undisturbed_keeps (p : Page) (events : list Event) :
  testPassed p = true -> undisturbed p events = true ->
  testPassed (run p events) = true.
Proof.
  revert p. induction events as [|e l IH]; intros p Hp Hu; simpl in *; [exact Hp|].
  apply andb_true_iff in Hu as [Hd Hu]. apply IH; [|exact Hu].
  rewrite step_testPassed, Hd, Hp. now rewrite !orb_true_r.
Qed.

Lemma mount_gate (st : option FormSettings) :
  testPassed (mount st) = false /\ testResultValid (mount st) = false.
Proof.
  unfold mount. rewrite commit_testPassed, commit_testResultValid.
  split; reflexivity.
Qed.

(** How the gate opens.  After any events on a page whose gate is
    shut, [testPassed] holds exactly when some event opened it, by the
    successful return of a current test or by a press of the test
    button over the successful answer of an earlier test, and nothing
    disturbed it since. *)
Lemma gate_history (p0 : Page) (events : list Event) :
  testPassed p0 = false ->
  testPassed (run p0 events) = true
  <-> exists before e after,
        events = (before ++ e :: after)%list
        /\ test_succeeds (run p0 before) e || revives (run p0 before) e = true
        /\ disturbs (run p0 before) e = false
        /\ undisturbed (step (run p0 before) e) after = true.
Proof.
  intros H0. split.
  - induction events as [|e tr IH] using rev_ind.
    + simpl. congruence.
    + rewrite run_snoc, step_testPassed. intros H.
      apply andb_true_iff in H as [Hd H]. apply negb_true_iff in Hd.
      destruct (test_succeeds (run p0 tr) e || revives (run p0 tr) e) eqn:R.
      * exists tr, e, []. repeat split; auto.
      * simpl in H. destruct (IH H) as (before & e0 & after & -> & Ht & Hc & Hu).
        exists before, e0, (after ++ [e])%list. repeat split; auto.
        -- now rewrite <- app_assoc.
        -- rewrite undisturbed_app, Hu. simpl.
           replace (run (step (run p0 before) e0) after)
             with (run p0 (before ++ e0 :: after)).
           ++ now rewrite Hd.
           ++ now rewrite run_app.
  - intros (before & e & after & -> & Ht & Hc & Hu).
    rewrite run_app. simpl. apply undisturbed_keeps; [|exact Hu].
    now rewrite step_testPassed, Hc, Ht.
Qed.

Lemma edits_change_fields (p : Page) (e : Event) :
  edits p e = true -> fields_eqb p (handle e p) = false.
Proof.
  unfold fields_eqb.
  destruct e; simpl; try discriminate; intros H.
  - apply negb_true_iff in H. now rewrite H.
  - apply andb_true_iff in H as [-> H]. simpl. apply negb_true_iff in H.
    now rewrite H, andb_false_r.
  - apply andb_true_iff in H as [-> H]. simpl. apply negb_true_iff in H.
    now rewrite H, andb_false_r.
  - apply andb_true_iff in H as [-> H]. simpl. apply negb_true_iff in H.
    now rewrite H, andb_false_r.
Qed.

Lemma edits_disturb (p : Page) (e : Event) :
  edits p e = true -> disturbs p e = true.
Proof.
  intros H. rewrite <- gate_resets_disturbs. unfold gate_resets, unchanged.
  now rewrite (edits_change_fields _ _ H).
Qed.

Lemma closed_gate_step (p : Page) (e : Event) :
  testPassed p = false -> testResultValid p = false -> e <> ClickTest ->
  testPassed (step p e) = false /\ testResultValid (step p e) = false.
Proof.
  intros Hp Hv He.
  rewrite step_testPassed, step_testResultValid, Hp.
  rewrite (handle_testResultValid _ _ He), Hv.
  assert (Ht : test_succeeds p e = false)
    by (destruct e; try reflexivity; simpl; now rewrite Hv).
  assert (Hr : revives p e = false)
    by (destruct e; try reflexivity; congruence).
  rewrite Ht, Hr. split; apply andb_false_r.
Qed.

Lemma closed_gate_run (p : Page) (events : list Event) :
  testPassed p = false -> testResultValid p = false -> ~ In ClickTest events ->
  testPassed (run p events) = false /\ testResultValid (run p events) = false.
Proof.
  revert p. induction events as [|e l IH]; intros p Hp Hv Hn; simpl; [auto|].
  simpl in Hn.
  destruct (closed_gate_step p e Hp Hv) as [Hp' Hv']; [intros ->; tauto|].
  apply IH; tauto.
Qed.

Lemma ClickTest_quiet (p : Page) : disturbs p ClickTest = false.
Proof.
  rewrite <- gate_resets_disturbs. unfold gate_resets, unchanged.
  rewrite handle_clear_fires. simpl.
  replace (fields_eqb p _) with true; [reflexivity|].
  symmetry. apply fields_eqb_eq.
  destruct (smtp_section p && negb (test_disabled p)); reflexivity.
Qed.

(** A press of the enabled test button over the successful answer of
    an earlier test, whose result an edit had made stale, opens the
    gate in the render of [setTestResultValid(true)], while the new
    test is only being submitted. *)
Lemma press_over_old_success (p : Page) :
  smtp_section p = true -> test_disabled p = false ->
  testResultValid p = false ->
  Fetcher.idle_success (testFetcher p) = true ->
  testPassed (step p ClickTest) = true
  /\ testResultValid (step p ClickTest) = true
  /\ Fetcher.state (testFetcher (step p ClickTest)) = Fetcher.submitting.
Proof.
  intros Hs Hd Hv Hi.
  rewrite step_testPassed, step_testResultValid, ClickTest_quiet.
  rewrite step_ClickTest. simpl handle. simpl revives.
  rewrite Hs, Hd, Hv, Hi. repeat split.
Qed.




(** [C6] A successful clear resets the workflow.  Whatever the page
    holds, and whatever the save and test fetchers are doing, when the
    router hands over the clear fetcher of a clear in flight as idle
    with a successful answer, the four fields become empty, the
    detected domain and the matched profile become null, and both gate
    flags become false.  What a save or a test still in flight returns
    later does not open the gate again. *)
Theorem clear_resets_workflow
    (p : Page) (st : option FormSettings) (f t c : Fetcher.t) :
  Fetcher.state (clearFetcher p) <> Fetcher.idle ->
  Fetcher.idle_success c = true ->
  let p' := step p (Router st f t c) in
  email p' = "" /\ password p' = "" /\ smtpHost p' = Some "" /\ smtpPort p' = ""
  /\ emailDomain p' = None /\ smtpConfig p' = None
  /\ testPassed p' = false /\ testResultValid p' = false
  /\ (forall events, ~ In ClickTest events -> testPassed (run p' events) = false).
Proof.
  intros Hflight Hok p'.
  enough (H : email p' = "" /\ password p' = "" /\ smtpHost p' = Some ""
              /\ smtpPort p' = "" /\ emailDomain p' = None /\ smtpConfig p' = None
              /\ testPassed p' = false /\ testResultValid p' = false).
  { destruct H as (H1 & H2 & H3 & H4 & H5 & H6 & H7 & H8).
    repeat split; auto. intros events Hn.
    now apply (closed_gate_run p' events H7 H8). }
  assert (Hc : clear_succeeds p (Router st f t c) = true).
  { simpl. rewrite Hok, andb_true_r. apply negb_true_iff.
    apply andb_false_iff. left.
    unfold Fetcher.idle_success in Hok. apply andb_true_iff in Hok as [Hi _].
    apply state_eqb_eq in Hi. rewrite Hi.
    destruct (Fetcher.state (clearFetcher p)); simpl; congruence. }
  assert (Hfire : clear_fires (Some p) (handle (Router st f t c) p) = true)
    by now rewrite handle_clear_fires.
  assert (Hf : fields p' = ("", "", Some "", ""))
    by (unfold p', step; now rewrite commit_fields, effects_fields, Hfire).
  unfold fields in Hf. injection Hf as -> -> -> ->.
  destruct (commit_detection (Some p) (handle (Router st f t c) p)) as [Hd Hg].
  destruct (effects_detection_cleared _ _ Hfire) as [Hd' Hg'].
  unfold p' at 1 2. unfold step. rewrite Hd, Hg, Hd', Hg'.
  unfold p'. rewrite step_testPassed, step_testResultValid.
  unfold disturbs. rewrite Hc, orb_true_r. repeat split.
Qed.

Lemma clear_resets_workflow_witness :
  let p' := step page_clearing (clear_returns (mkData true None None)) in
  email p' = "" /\ password p' = "" /\ smtpHost p' = Some "" /\ smtpPort p' = ""
  /\ emailDomain p' = None /\ smtpConfig p' = None
  /\ testPassed p' = false /\ testResultValid p' = false
  /\ (forall events, ~ In ClickTest events -> testPassed (run p' events) = false).
Proof.
  apply (clear_resets_workflow page_clearing).
  - vm_compute. discriminate.
  - reflexivity.
Defined.

(** ** Detection follows the email field *)

Lemma clear_fires_email (prev : option Page) (cur : Page) :
  email (effects prev cur) = if clear_fires prev cur then "" else email cur.
Proof.
  assert (H := effects_fields prev cur). unfold fields in H.
  destruct (clear_fires prev cur); now injection H as -> _ _ _.
Qed.

Lemma commit_email (prev : option Page) (cur : Page) :
  email (commit prev cur) = email (effects prev cur).
Proof.
  assert (H := commit_fields prev cur). unfold fields in H.
  now injection H as -> _ _ _.
Qed.

Lemma commit_detection_sound (prev : option Page) (cur : Page) :
  (unchanged detect_deps_eqb prev cur = true -> detection_sound cur) ->
  (prev = None -> timer cur = None) ->
  detection_sound (commit prev cur).
Proof.
  intros HQ Hm.
  assert (He := clear_fires_email prev cur).
  destruct (commit_detection prev cur) as [Hd Hc].
  rewrite effects_emailDomain in Hd. rewrite effects_smtpConfig in Hc.
  destruct (effects_router prev cur) as (Hs & _ & _ & _).
  assert (Ht1 := effects_timer prev cur).
  assert (Ht2 := effects_timer (Some cur) (effects prev cur)).
  fold (commit prev cur) in Ht2. simpl in Ht2.
  unfold detection_sound. rewrite commit_email, He, Hd, Hc.
  assert (Hcleanup : unchanged detect_deps_eqb prev cur = false ->
            getEmailDomain (email cur) = None -> timer (cleanup prev cur) = None).
  { intros _ _. destruct prev; [reflexivity|]. now apply Hm. }
  assert (Hfalsy : forall d, getEmailDomain (email cur) = Some d ->
            Js.truthy d = true) by (intros d; apply getEmailDomain_truthy).
  destruct (clear_fires prev cur) eqn:C.
  - split; [|auto].
    intros d st. rewrite Ht2.
    destruct (detect_deps_eqb cur (effects prev cur)) eqn:U.
    + assert (Hempty : email cur = "").
      { unfold detect_deps_eqb in U. apply andb_true_iff in U as [U _].
        apply String.eqb_eq in U. congruence. }
      rewrite Ht1.
      destruct (unchanged detect_deps_eqb prev cur) eqn:U1.
      * destruct (HQ eq_refl) as [HQ1 _]. rewrite Hempty in HQ1. apply HQ1.
      * rewrite Hempty in *. simpl. rewrite Hcleanup; auto. discriminate.
    + rewrite He. simpl. discriminate.
  - rewrite detect_deps_eqb_same in Ht2 by congruence. rewrite Ht2, Ht1.
    destruct (unchanged detect_deps_eqb prev cur) eqn:U1; [now apply HQ|].
    destruct (getEmailDomain (email cur)) as [d|] eqn:G.
    + rewrite (Hfalsy d eq_refl). split; [|discriminate].
      now intros d' st [= -> _].
    + rewrite Hcleanup by auto. split; [discriminate|auto].
Qed.

Lemma handle_detection_sound (p : Page) (e : Event) :
  detection_sound p ->
  unchanged detect_deps_eqb (Some p) (handle e p) = true ->
  detection_sound (handle e p).
Proof.
  intros [H1 H2] U. simpl in U.
  destruct e; simpl;
    try (split; [exact H1|exact H2]);
    try (match goal with
         | |- context [if ?b then _ else _] =>
             destruct b; split; solve [exact H1|exact H2]
         end).
  - unfold detect_deps_eqb in U. apply andb_true_iff in U as [U _].
    apply String.eqb_eq in U. simpl in U. rewrite <- U.
    split; [exact H1|exact H2].
  - assert (H : detection_sound p) by (split; assumption).
    destruct (timer p) as [[d st]|] eqn:T; [|exact H].
    specialize (H1 d st eq_refl).
    split.
    + intros d' st'. unfold detected. split_handle.
    + replace (email (detected d st (setTimer None p))) with (email p)
        by (unfold detected; split_handle).
      congruence.
Qed.

Lemma step_detection_sound (p : Page) (e : Event) :
  detection_sound p -> detection_sound (step p e).
Proof.
  intros H.
  assert (Hc : detection_sound (commit (Some p) (handle e p))).
  { apply commit_detection_sound; [|discriminate].
    now apply handle_detection_sound. }
  destruct (step_commit p e) as [-> | ->]; exact Hc.
Qed.

Lemma mount_detection_sound (st : option FormSettings) :
  detection_sound (mount st).
Proof. apply commit_detection_sound; [discriminate|reflexivity]. Qed.

Lemma run_detection_sound (p : Page) (events : list Event) :
  detection_sound p -> detection_sound (run p events).
Proof.
  revert p. induction events as [|e l IH]; intros p H; simpl; [exact H|].
  apply IH, step_detection_sound, H.
Qed.

(** [C5], as amended.  The detected domain is the text after the first
    [@] of the email, lowercased, provided that text is not empty and
    holds no line terminator.  An email without [@], or with nothing
    after its first [@], has no domain; and in every state a mounted
    page can reach, while the email has no domain, the detected domain
    and the matched profile are null. *)
Theorem domain_after_first_at :
  (forall pre suf,
      contains_at pre = false -> suf <> "" -> dot_star_end suf = true ->
      getEmailDomain (pre ++ "@" ++ suf) = Some (Js.toLowerCase suf))
  /\ (forall email, contains_at email = false -> getEmailDomain email = None)
  /\ (forall pre, contains_at pre = false -> getEmailDomain (pre ++ "@") = None)
  /\ (forall st events,
        getEmailDomain (email (run (mount st) events)) = None ->
        emailDomain (run (mount st) events) = None
        /\ smtpConfig (run (mount st) events) = None).
Proof.
  split; [|split; [|split]].
  - intros pre suf Hpre Hsuf Hline. unfold getEmailDomain.
    rewrite (match_domain_first_at pre suf); auto.
    unfold dot_plus_end. rewrite Hline. destruct suf; [congruence|reflexivity].
  - intros email0 H. unfold getEmailDomain.
    now rewrite match_domain_without_at.
  - intros pre H. unfold getEmailDomain. now rewrite match_domain_trailing_at.
  - intros st events.
    apply (run_detection_sound (mount st) events (mount_detection_sound st)).
Qed.

Lemma domain_after_first_at_witness :
  getEmailDomain ("user" ++ "@" ++ "Mail.Example.org") = Some "mail.example.org".
Proof.
  apply (proj1 domain_after_first_at "user" "Mail.Example.org");
    [reflexivity|discriminate|reflexivity].
Defined.

(** [C5], as stated, fails: with two [@] the code keeps the text after
    the first one, where the claim has the text after the last. *)
Lemma domain_is_not_after_last_at :
  getEmailDomain "a@b@C.com" = Some "b@c.com"
  /\ spec_domain "a@b@C.com" = Some "c.com".
Proof. split; reflexivity. Qed.

(** ** Detection on mount and after the quiet period *)

Lemma mount_clear_quiet (st : option FormSettings) :
  clear_fires None (initial st) = false.
Proof. reflexivity. Qed.

(** The page mounted with a saved row, in terms of the domain of the
    saved email and of the lookup in the table. *)
Lemma mount_of_saved_row (row : FormSettings) :
  let saved := Js.or_empty (notification_email row) in
  let looked_up :=
    match getEmailDomain saved with
    | Some d => option_map (config_state None) (SMTP_CONFIGS d)
    | None => None
    end in
  emailDomain (initial (Some row)) = getEmailDomain saved
  /\ smtpConfig (initial (Some row)) = looked_up
  /\ emailDomain (mount (Some row)) = getEmailDomain saved
  /\ smtpConfig (mount (Some row)) = looked_up
  /\ smtpHost (mount (Some row)) = Some (Js.or_empty (smtp_host row))
  /\ smtpPort (mount (Some row))
     = match smtp_port row with
       | Some n => Js.toString n
       | None => ""
       end
  /\ smtp_section (mount (Some row))
     = match getEmailDomain saved with
       | Some _ => true
       | None => false
       end
  /\ timer (mount (Some row))
     = match getEmailDomain saved with
       | Some d => Some (d, Some row)
       | None => None
       end.
Proof.
  intros saved looked_up.
  assert (Hi : smtpConfig (initial (Some row)) = looked_up).
  { unfold looked_up. simpl. fold saved.
    destruct (getEmailDomain saved) as [d|] eqn:G; [|reflexivity].
    now rewrite (getEmailDomain_truthy _ _ G). }
  assert (Hd : emailDomain (mount (Some row)) = getEmailDomain saved
               /\ smtpConfig (mount (Some row)) = looked_up).
  { unfold mount. destruct (commit_detection None (initial (Some row))) as [-> ->].
    rewrite effects_emailDomain, effects_smtpConfig, mount_clear_quiet, Hi.
    simpl. fold saved. unfold looked_up.
    destruct (getEmailDomain saved) as [d|] eqn:G; [|now split].
    now rewrite (getEmailDomain_truthy _ _ G). }
  assert (Hf := commit_fields None (initial (Some row))).
  rewrite effects_fields, mount_clear_quiet in Hf. fold (mount (Some row)) in Hf.
  unfold fields in Hf. injection Hf as _ _ Hh Hp.
  destruct Hd as [Hd Hc].
  repeat split; auto.
  - unfold smtp_section. rewrite Hd.
    destruct (getEmailDomain saved) as [d|] eqn:G; [|reflexivity].
    apply (getEmailDomain_truthy _ _ G).
  - unfold mount, commit. rewrite (effects_timer (Some (initial (Some row)))).
    assert (He := clear_fires_email None (initial (Some row))).
    rewrite mount_clear_quiet in He.
    destruct (effects_router None (initial (Some row))) as (Hs & _ & _ & _).
    simpl unchanged. rewrite detect_deps_eqb_same by congruence.
    rewrite effects_timer. simpl. fold saved.
    destruct (getEmailDomain saved) as [d|] eqn:G; [|reflexivity].
    now rewrite (getEmailDomain_truthy _ _ G).
Qed.

Lemma getEmailDomain_first_at (pre suf : string) :
  contains_at pre = false -> suf <> "" -> dot_star_end suf = true ->
  getEmailDomain (pre ++ "@" ++ suf) = Some (Js.toLowerCase suf).
Proof.
  intros Hpre Hsuf Hline. unfold getEmailDomain.
  rewrite (match_domain_first_at pre suf); auto.
  unfold dot_plus_end. rewrite Hline. destruct suf; [congruence|reflexivity].
Qed.

Lemma provider_table_lookup (d : string) (profile : SmtpProfile) :
  In (d, profile) provider_table -> SMTP_CONFIGS d = Some (Own profile).
Proof.
  unfold provider_table. simpl.
  intros H. repeat destruct H as [H|H]; try (injection H as <- <-; reflexivity).
  contradiction.
Qed.

Lemma other_domain_lookup (d : string) :
  ~ In d provider_domains -> d <> "constructor" -> d <> "__proto__" ->
  SMTP_CONFIGS d = None.
Proof.
  unfold provider_domains, SMTP_CONFIGS. simpl. intros Hn Hc Hp.
  repeat match goal with
         | |- context [if ?x =? ?y then _ else _] =>
             destruct (String.eqb_spec x y); [exfalso; subst; tauto|]
         end.
  reflexivity.
Qed.

(** [C10] On mount with a saved row whose email has a domain part (some
    text before a first [@], and after it a non-empty text on one
    line), before any timeout fires: the detected domain is that text
    after the [@], lowercased, already in the first render, and the
    SMTP section is rendered.  When the domain is a key of the provider
    table the matched profile is that provider's and the host and port
    inputs are not rendered; for a domain that is no key of the table
    (and no member of [Object.prototype]) no profile is matched.  The
    host and port fields hold the host and port of the row, whatever
    the profile says, and the detection that is debounced is still
    pending. *)
Theorem mount_detects_saved_email (row : FormSettings) (pre suf : string) :
  notification_email row = Some (pre ++ "@" ++ suf) ->
  contains_at pre = false -> suf <> "" -> dot_star_end suf = true ->
  (emailDomain (initial (Some row)) = Some (Js.toLowerCase suf)
   /\ smtp_section (initial (Some row)) = true
   /\ emailDomain (mount (Some row)) = Some (Js.toLowerCase suf)
   /\ smtp_section (mount (Some row)) = true)
  /\ (forall profile,
        In (Js.toLowerCase suf, profile) provider_table ->
        smtpConfig (initial (Some row)) = Some (Provider profile)
        /\ smtpConfig (mount (Some row)) = Some (Provider profile)
        /\ host_port_editable (mount (Some row)) = false)
  /\ (~ In (Js.toLowerCase suf) provider_domains ->
      Js.toLowerCase suf <> "constructor" ->
      Js.toLowerCase suf <> "__proto__" ->
      smtpConfig (initial (Some row)) = None
      /\ smtpConfig (mount (Some row)) = None
      /\ host_port_editable (mount (Some row)) = true)
  /\ smtpHost (mount (Some row)) = Some (Js.or_empty (smtp_host row))
  /\ smtpPort (mount (Some row))
     = match smtp_port row with
       | Some n => Js.toString n
       | None => ""
       end
  /\ timer (mount (Some row)) = Some (Js.toLowerCase suf, Some row).
Proof.
  intros Hrow Hpre Hsuf Hline.
  assert (G := getEmailDomain_first_at pre suf Hpre Hsuf Hline).
  assert (Htruthy := getEmailDomain_truthy _ _ G).
  destruct (mount_of_saved_row row)
    as (Hd0 & Hc0 & Hd & Hc & Hh & Hp & Hs & Ht).
  rewrite Hrow in *. cbn [Js.or_empty] in *. rewrite G in *.
  assert (Hs0 : smtp_section (initial (Some row)) = true)
    by (unfold smtp_section; now rewrite Hd0).
  split; [auto|]. split; [|split; [|auto]].
  - intros profile Hin. apply provider_table_lookup in Hin.
    rewrite Hin in *. cbn [option_map config_state] in *.
    unfold host_port_editable. rewrite Hs, Hc. auto.
  - intros Hn Hcons Hproto.
    rewrite (other_domain_lookup _ Hn Hcons Hproto) in *.
    cbn [option_map] in *.
    unfold host_port_editable. rewrite Hs, Hc. auto.
Qed.

Lemma mount_detects_saved_email_witness :
  emailDomain
    (mount (Some (mkSettings "5f0c" "contact" (Some "Me@Gmail.com")
                    (Some "app password") (Some "mail.example.org")
                    (Some 2525%Z) 1 1000)))
  = Some "gmail.com"
  /\ smtp_section
       (mount (Some (mkSettings "5f0c" "contact" (Some "Me@Gmail.com")
                       (Some "app password") (Some "mail.example.org")
                       (Some 2525%Z) 1 1000)))
     = true
  /\ smtpConfig
       (mount (Some (mkSettings "5f0c" "contact" (Some "Me@Gmail.com")
                       (Some "app password") (Some "mail.example.org")
                       (Some 2525%Z) 1 1000)))
     = Some (Provider gmail)
  /\ smtpHost
       (mount (Some (mkSettings "5f0c" "contact" (Some "Me@Gmail.com")
                       (Some "app password") (Some "mail.example.org")
                       (Some 2525%Z) 1 1000)))
     = Some "mail.example.org"
  /\ smtpPort
       (mount (Some (mkSettings "5f0c" "contact" (Some "Me@Gmail.com")
                       (Some "app password") (Some "mail.example.org")
                       (Some 2525%Z) 1 1000)))
     = "2525".
Proof.
  destruct (mount_detects_saved_email
              (mkSettings "5f0c" "contact" (Some "Me@Gmail.com")
                 (Some "app password") (Some "mail.example.org")
                 (Some 2525%Z) 1 1000)
              "Me" "Gmail.com")
    as ((_ & _ & Hd & Hs) & Hk & _ & Hh & Hp & _);
    [reflexivity|reflexivity|discriminate|reflexivity|].
  destruct (Hk gmail) as (_ & Hc & _); [simpl; auto|].
  split; [exact Hd|]. split; [exact Hs|]. split; [exact Hc|].
  split; [exact Hh|exact Hp].
Defined.

(** For a domain whose lookup in the table yields nothing, the timeout
    clears the matched profile, so that the host and port inputs are
    rendered; it empties host and port when no host is saved and
    leaves them as they are when one is. *)
Lemma unknown_domain_detection (p : Page) (d : string) (st : option FormSettings) :
  timer p = Some (d, st) -> SMTP_CONFIGS d = None ->
  emailDomain (step p Timeout) = Some d
  /\ smtpConfig (step p Timeout) = None
  /\ (no_persisted_host st = true ->
      smtpHost (step p Timeout) = Some "" /\ smtpPort (step p Timeout) = "")
  /\ (no_persisted_host st = false ->
      smtpHost (step p Timeout) = smtpHost p
      /\ smtpPort (step p Timeout) = smtpPort p).
Proof.
  intros Ht Hl. rewrite (step_plain p Timeout) by discriminate.
  set (cur := handle Timeout p).
  assert (Hq : clear_fires (Some p) cur = false)
    by (unfold cur; now rewrite handle_clear_fires).
  assert (Hu : unchanged detect_deps_eqb (Some p) cur = true).
  { unfold cur. simpl. rewrite Ht.
    apply detect_deps_eqb_same; unfold detected; split_handle. }
  assert (Hf := commit_fields (Some p) cur).
  rewrite effects_fields, Hq in Hf.
  unfold fields in Hf. injection Hf as _ _ Hh Hp.
  destruct (commit_detection (Some p) cur) as [-> ->].
  rewrite effects_emailDomain, effects_smtpConfig, Hq, Hu, Hh, Hp.
  unfold cur. simpl. rewrite Ht. unfold detected. rewrite Hl.
  destruct (no_persisted_host st); repeat split; try discriminate; reflexivity.
Qed.

(** [C9] fails on the code for a domain that names a member inherited
    from [Object.prototype].  Typing [me@constructor] on a page mounted
    without settings and waiting for the timeout: the domain is not a
    key of the provider table, yet the lookup is truthy, the branch of
    a known provider runs, the profile is not cleared, the host and
    port inputs are not rendered, and the host is left [undefined]. *)
Theorem inherited_key_is_taken_for_a_provider :
  getEmailDomain "me@constructor" = Some "constructor"
  /\ ~ In "constructor" provider_domains
  /\ smtpConfig (run (mount None) [ChangeEmail "me@constructor"; Timeout])
     = Some Bare
  /\ host_port_editable (run (mount None) [ChangeEmail "me@constructor"; Timeout])
     = false
  /\ smtpHost (run (mount None) [ChangeEmail "me@constructor"; Timeout]) = None.
Proof.
  repeat split; try reflexivity.
  simpl. intros H. repeat destruct H as [H|H]; try discriminate H. exact H.
Qed.

(** For a domain that is a key of the table, the timeout matches its
    profile and overwrites host and port with it; the host and port
    inputs are then not rendered. *)
Lemma known_domain_detection (p : Page) (d : string) (st : option FormSettings)
    (config : SmtpProfile) :
  timer p = Some (d, st) -> SMTP_CONFIGS d = Some (Own config) ->
  emailDomain (step p Timeout) = Some d
  /\ smtpConfig (step p Timeout) = Some (Provider config)
  /\ smtpHost (step p Timeout) = Some (host config)
  /\ smtpPort (step p Timeout) = Js.toString (port config)
  /\ host_port_editable (step p Timeout) = false.
Proof.
  intros Ht Hl. rewrite (step_plain p Timeout) by discriminate.
  set (cur := handle Timeout p).
  assert (Hq : clear_fires (Some p) cur = false)
    by (unfold cur; now rewrite handle_clear_fires).
  assert (Hu : unchanged detect_deps_eqb (Some p) cur = true).
  { unfold cur. simpl. rewrite Ht.
    apply detect_deps_eqb_same; unfold detected; split_handle. }
  assert (Hf := commit_fields (Some p) cur).
  rewrite effects_fields, Hq in Hf.
  unfold fields in Hf. injection Hf as _ _ Hh Hp.
  assert (Hc : smtpConfig (commit (Some p) cur) = Some (Provider config)).
  { destruct (commit_detection (Some p) cur) as [_ ->].
    rewrite effects_smtpConfig, Hq, Hu. unfold cur. simpl. rewrite Ht.
    unfold detected. now rewrite Hl. }
  unfold host_port_editable. rewrite Hc, Hh, Hp.
  unfold smtp_section.
  destruct (commit_detection (Some p) cur) as [-> _].
  rewrite effects_emailDomain, Hq, Hu.
  unfold cur. simpl. rewrite Ht. unfold detected. rewrite Hl. simpl.
  repeat split. apply andb_false_r.
Qed.

Example user_at_gmail :
  let p := run (mount None) [ChangeEmail "user@gmail.com"; Timeout] in
  smtpHost p = Some "smtp.gmail.com" /\ smtpPort p = "587"
  /\ host_port_editable p = false.
Proof. repeat split. Qed.

(** ** Scenarios *)

(** A second save of the same form keeps the row and its id. *)
Example save_twice_updates_in_place :
  snd (Notifications.action store_up
         (mkRequest "POST"
            (Some [("notification_email", "me@example.org");
                   ("notification_email_password", "new secret");
                   ("smtp_host", "smtp.example.org");
                   ("smtp_port", "2525")]))
         "contact" "another uuid" 2000
         (mkWorld (mkDatabase ["contact"] [saved_row]) []))
  = mkWorld
      (mkDatabase ["contact"]
         [mkSettings "5f0c" "contact" (Some "me@example.org") (Some "new secret")
            (Some "smtp.example.org") (Some 2525%Z) 1 2000])
      [].
Proof. reflexivity. Qed.

(** The test passes, the button opens; the password changes, it shuts;
    the same answer handed over again does not open it. *)
Example gate_opens_and_shuts :
  save_disabled (run page_testing [test_returns sent]) = false
  /\ save_disabled
       (run page_testing [test_returns sent; ChangePassword "other"]) = true
  /\ save_disabled
       (run page_testing
          [test_returns sent; ChangePassword "other"; test_returns sent])
     = true.
Proof. repeat split. Qed.

(** A test for a form that exists, with its four fields, reaches the
    email service; here the service is down and the answer is 500. *)
Example test_reaches_the_service :
  NotificationsTest.action store_up no_email_service
    (mkRequest "POST"
       (Some [("notification_email", "me@example.org");
              ("notification_email_password", "secret");
              ("smtp_host", "smtp.example.org");
              ("smtp_port", "465")]))
    "contact" (mkWorld (mkDatabase ["contact"] []) [])
  = (Ok (data false (Some "Failed to send test email") 500),
     mkWorld (mkDatabase ["contact"] [])
       [mkEmailConfig "me@example.org" "secret" "smtp.example.org" (Js.Int 465)]).
Proof. reflexivity. Qed.

(** * Further properties of the routes *)

(** ** The notifications action *)

Lemma action_on_existing_form
    (d1_fails : Statement -> Database -> bool)
    (w : World) (formId : string) (request : Request)
    (settingsId : string) (updatedAt : Z) :
  d1_fails (SelectForm formId) (DB w) = false ->
  In formId (forms (DB w)) ->
  Notifications.action d1_fails request formId settingsId updatedAt w
  = (if method request =? "DELETE" then
       try_catch
         (bind (D1.run d1_fails (DeleteSettings formId) (delete_settings formId))
            (fun _ => ret (data true None 200)))
         (ret (data false (Some "Failed to clear settings") 500))
     else if negb (method request =? "POST") then
       ret (data false (Some "Method not allowed") 405)
     else
       try_catch
         (bind (formData request)
            (fun entries =>
               if negb (all_fields_filled entries)
               then ret (data false (Some "Missing required fields") 400)
               else
                 bind
                   (Notifications.upsert d1_fails formId
                      (Js.or_empty (get "notification_email" entries))
                      (Js.or_empty (get "notification_email_password" entries))
                      (Js.or_empty (get "smtp_host" entries))
                      (Js.or_empty (get "smtp_port" entries))
                      settingsId updatedAt)
                   (fun _ => ret (data true None 200))))
         (ret (data false (Some "Failed to save settings") 500))) w.
Proof.
  intros Hup Hform. unfold Notifications.action, bind at 1, D1.first.
  rewrite Hup, (select_form_present _ _ Hform). simpl.
  destruct (method request =? "DELETE"); [reflexivity|].
  destruct (negb (method request =? "POST")); [reflexivity|].
  unfold try_catch, bind. destruct (formData request w) as [[entries|] w1];
    [|reflexivity].
  unfold all_fields_filled. rewrite !negb_andb. reflexivity.
Qed.

Lemma select_form_some (formId x : string) (d : Database) :
  select_form formId d = Some x -> In formId (forms d).
Proof.
  unfold select_form. intros H. destruct (find_some _ _ H) as [Hin Heq].
  apply String.eqb_eq in Heq. now subst.
Qed.

Lemma upsert_runs
    (d1_fails : Statement -> Database -> bool)
    (formId email password smtpHost smtpPort settingsId : string)
    (updatedAt : Z) (w : World) :
  Notifications.upsert d1_fails formId email password smtpHost smtpPort
    settingsId updatedAt w
  = if d1_fails (SelectSettingsId formId) (DB w) then (Throw, w)
    else match select_settings formId (DB w) with
         | Some _ =>
             D1.run d1_fails
               (UpdateSettings email password smtpHost (Js.parseInt smtpPort)
                  updatedAt formId)
               (update_settings email password smtpHost (Js.parseInt smtpPort)
                  updatedAt formId) w
         | None =>
             D1.run d1_fails
               (InsertSettings settingsId formId email password smtpHost
                  (Js.parseInt smtpPort) updatedAt)
               (insert_settings settingsId formId email password smtpHost
                  (Js.parseInt smtpPort) updatedAt) w
         end.
Proof.
  unfold Notifications.upsert, bind, D1.first.
  destruct (d1_fails (SelectSettingsId formId) (DB w)); [reflexivity|].
  destruct (select_settings formId (DB w)); reflexivity.
Qed.

Lemma action_writes
    (d1_fails : Statement -> Database -> bool)
    (w : World) (formId : string) (request : Request)
    (settingsId : string) (updatedAt : Z) :
  written formId settingsId updatedAt w
    (snd (Notifications.action d1_fails request formId settingsId updatedAt w)).
Proof.
  destruct (d1_fails (SelectForm formId) (DB w)) eqn:Hup.
  { unfold Notifications.action, bind, D1.first. rewrite Hup. constructor. }
  destruct (select_form formId (DB w)) as [x|] eqn:Hf.
  2:{ unfold Notifications.action, bind, D1.first. rewrite Hup, Hf. constructor. }
  rewrite (action_on_existing_form _ _ _ _ _ _ Hup (select_form_some _ _ _ Hf)).
  destruct (method request =? "DELETE").
  { unfold try_catch, bind, D1.run, ret.
    destruct (d1_fails (DeleteSettings formId) (DB w)); constructor. }
  destruct (negb (method request =? "POST")); [constructor|].
  unfold try_catch, bind at 1, formData.
  destruct (body request) as [entries|]; [|constructor].
  unfold ret at 1.
  destruct (negb (all_fields_filled entries)); [constructor|].
  unfold bind. rewrite upsert_runs.
  destruct (d1_fails (SelectSettingsId formId) (DB w)); [constructor|].
  unfold D1.run.
  destruct (select_settings formId (DB w)) eqn:Hs;
    match goal with
    | |- context [if ?b then _ else _] => destruct b
    end; simpl; try constructor; congruence.
Qed.

Lemma filter_filter_out {A : Type} (f : A -> bool) (l : list A) :
  filter (fun x => negb (f x)) (filter (fun x => negb (f x)) l)
  = filter (fun x => negb (f x)) l.
Proof.
  induction l as [|y l IH]; simpl; [reflexivity|].
  destruct (f y) eqn:E; simpl; [exact IH|]. now rewrite E, IH.
Qed.

Lemma NoDup_map_filter {A B : Type} (f : A -> B) (keep : A -> bool) (l : list A) :
  NoDup (map f l) -> NoDup (map f (filter keep l)).
Proof.
  induction l as [|y l IH]; simpl; [auto|].
  intros H. inversion H as [|? ? Hn Hd]; subst.
  destruct (keep y); simpl; [|auto].
  constructor; [|auto]. intros Hin. apply Hn.
  apply in_map_iff in Hin as (z & Hz & Hin).
  apply filter_In in Hin as [Hin _]. apply in_map_iff. eauto.
Qed.

Lemma select_settings_none_not_in (formId : string) (d : Database) :
  select_settings formId d = None -> ~ In formId (map form_id (form_settings d)).
Proof.
  unfold select_settings. intros H Hin.
  apply in_map_iff in Hin as (row & Heq & Hin).
  apply (find_none _ _ H) in Hin. unfold has_form_id in Hin.
  rewrite Heq, String.eqb_refl in Hin. discriminate.
Qed.

Lemma NoDup_snoc {A : Type} (l : list A) (x : A) :
  NoDup l -> ~ In x l -> NoDup (l ++ [x]).
Proof.
  intros Hd Hn. apply NoDup_app; auto.
  - repeat constructor. simpl. tauto.
  - intros y Hy [<-|[]]. tauto.
Qed.

Lemma action_keeps_forms
    (d1_fails : Statement -> Database -> bool)
    (w : World) (formId : string) (request : Request)
    (settingsId : string) (updatedAt : Z) :
  forms (DB (snd (Notifications.action d1_fails request formId settingsId
                    updatedAt w)))
  = forms (DB w).
Proof.
  now destruct (action_writes d1_fails w formId request settingsId updatedAt).
Qed.

(** An action touches nothing but the settings rows of its own form:
    the forms, the outbox of test emails and the rows of every other
    form are after any request what they were before it. *)
Theorem action_leaves_other_forms_alone
    (d1_fails : Statement -> Database -> bool)
    (w : World) (formId : string) (request : Request)
    (settingsId : string) (updatedAt : Z) :
  let w' :=
    snd (Notifications.action d1_fails request formId settingsId updatedAt w) in
  forms (DB w') = forms (DB w)
  /\ outbox w' = outbox w
  /\ other_rows formId (DB w') = other_rows formId (DB w).
Proof.
  intros w'. unfold w'.
  destruct (action_writes d1_fails w formId request settingsId updatedAt);
    unfold other_rows; simpl; repeat split.
  - apply filter_filter_out.
  - apply filter_update_row.
  - rewrite filter_app. simpl. unfold has_form_id at 2. simpl.
    rewrite String.eqb_refl. simpl. apply app_nil_r.
Qed.

(** An action keeps the settings table at one row per form: when no
    two rows are of the same form before a request, none are after it;
    and the ids of the rows stay distinct as long as the id drawn for
    a new row is not yet taken. *)
Theorem one_row_per_form_is_kept
    (d1_fails : Statement -> Database -> bool)
    (w : World) (formId : string) (request : Request)
    (settingsId : string) (updatedAt : Z) :
  let w' :=
    snd (Notifications.action d1_fails request formId settingsId updatedAt w) in
  (NoDup (map form_id (form_settings (DB w))) ->
   NoDup (map form_id (form_settings (DB w'))))
  /\ (NoDup (map id (form_settings (DB w))) ->
      ~ In settingsId (map id (form_settings (DB w))) ->
      NoDup (map id (form_settings (DB w')))).
Proof.
  intros w'. unfold w'.
  destruct (action_writes d1_fails w formId request settingsId updatedAt)
    as [| |e p h q Hs|e p h q Hs]; simpl; split; intros Hd; auto.
  - now apply NoDup_map_filter.
  - intros _. now apply NoDup_map_filter.
  - now rewrite (proj2 (map_id_update_row e p h q updatedAt formId _)).
  - intros _. now rewrite (proj1 (map_id_update_row e p h q updatedAt formId _)).
  - rewrite map_app. simpl. apply NoDup_snoc; auto.
    now apply select_settings_none_not_in.
  - intros Hn. rewrite map_app. simpl. now apply NoDup_snoc.
Qed.

Lemma one_row_per_form_is_kept_witness :
  NoDup
    (map form_id
       (form_settings
          (DB (snd (Notifications.action store_up
                      (mkRequest "POST"
                         (Some [("notification_email", "me@example.org");
                                ("notification_email_password", "secret");
                                ("smtp_host", "smtp.example.org");
                                ("smtp_port", "465")]))
                      "signup" "77aa" 2000
                      (mkWorld (mkDatabase ["contact"; "signup"] [saved_row]) [])))))).
Proof.
  apply (proj1 (one_row_per_form_is_kept store_up
                  (mkWorld (mkDatabase ["contact"; "signup"] [saved_row]) [])
                  "signup" _ "77aa" 2000)).
  simpl. repeat constructor. simpl. tauto.
Defined.

(** A save of an existing form, with a body that parses and a store
    that answers, is accepted exactly when the four fields are all
    present and non-empty; otherwise it is answered 400 and nothing is
    written. *)
Theorem save_needs_all_four_fields
    (d1_fails : Statement -> Database -> bool)
    (w : World) (formId : string) (entries : list (string * string))
    (settingsId : string) (updatedAt : Z) :
  (forall q d, d1_fails q d = false) ->
  In formId (forms (DB w)) ->
  let answer :=
    Notifications.action d1_fails (mkRequest "POST" (Some entries)) formId
      settingsId updatedAt w in
  (all_fields_filled entries = true -> fst answer = Ok (data true None 200))
  /\ (all_fields_filled entries = false ->
      answer = (Ok (data false (Some "Missing required fields") 400), w)).
Proof.
  intros Hup Hform answer. unfold answer.
  rewrite (action_on_existing_form _ _ _ _ _ _ (Hup _ _) Hform).
  change (method (mkRequest "POST" (Some entries)) =? "DELETE") with false.
  change (negb (method (mkRequest "POST" (Some entries)) =? "POST")) with false.
  cbv beta iota. unfold try_catch, bind, formData, ret. cbn [body].
  destruct (all_fields_filled entries) eqn:F; cbn [negb];
    (split; [|intros; try discriminate; reflexivity]); [|discriminate].
  intros _. rewrite upsert_runs, Hup. unfold D1.run.
  destruct (select_settings formId (DB w)); rewrite Hup; reflexivity.
Qed.

Lemma save_needs_all_four_fields_witness :
  Notifications.action store_up
    (mkRequest "POST"
       (Some [("notification_email", "me@example.org");
              ("smtp_host", "smtp.example.org");
              ("smtp_port", "465")]))
    "contact" "uuid" 0 (mkWorld (mkDatabase ["contact"] []) [])
  = (Ok (data false (Some "Missing required fields") 400),
     mkWorld (mkDatabase ["contact"] []) []).
Proof.
  apply (proj2 (save_needs_all_four_fields store_up
                  (mkWorld (mkDatabase ["contact"] []) []) "contact" _ "uuid" 0
                  (fun _ _ => eq_refl) (or_introl eq_refl))).
  reflexivity.
Defined.

(** On an existing form, a verb that is neither DELETE nor POST is
    answered 405, the body is not read and nothing is written. *)
Theorem other_verbs_are_405
    (d1_fails : Statement -> Database -> bool)
    (w : World) (formId : string) (request : Request)
    (settingsId : string) (updatedAt : Z) :
  d1_fails (SelectForm formId) (DB w) = false ->
  In formId (forms (DB w)) ->
  method request <> "DELETE" -> method request <> "POST" ->
  Notifications.action d1_fails request formId settingsId updatedAt w
  = (Ok (data false (Some "Method not allowed") 405), w).
Proof.
  intros Hup Hform Hd Hp.
  rewrite (action_on_existing_form _ _ _ _ _ _ Hup Hform).
  apply String.eqb_neq in Hd, Hp. now rewrite Hd, Hp.
Qed.

Lemma other_verbs_are_405_witness :
  Notifications.action store_up (mkRequest "PUT" None) "contact" "uuid" 0
    (mkWorld (mkDatabase ["contact"] [saved_row]) [])
  = (Ok (data false (Some "Method not allowed") 405),
     mkWorld (mkDatabase ["contact"] [saved_row]) []).
Proof.
  apply (other_verbs_are_405 store_up); try reflexivity; try discriminate.
  simpl. auto.
Defined.

(** Once the lookup of the form is answered, the action always returns
    a response, whatever else the store does: its status is one of 200,
    400, 404, 405 and 500, [success] is true exactly for 200, and a
    response other than 200 means that nothing was written. *)
Theorem a_refused_request_writes_nothing
    (d1_fails : Statement -> Database -> bool)
    (w : World) (formId : string) (request : Request)
    (settingsId : string) (updatedAt : Z) :
  d1_fails (SelectForm formId) (DB w) = false ->
  exists response,
    fst (Notifications.action d1_fails request formId settingsId updatedAt w)
    = Ok response
    /\ In (status response) [200; 400; 404; 405; 500]%Z
    /\ success (json response) = (status response =? 200)%Z
    /\ (status response <> 200%Z ->
        snd (Notifications.action d1_fails request formId settingsId updatedAt w)
        = w).
Proof.
  intros Hup.
  destruct (select_form formId (DB w)) as [x|] eqn:Hf.
  2:{ unfold Notifications.action, bind, D1.first. rewrite Hup, Hf. answered. }
  rewrite (action_on_existing_form _ _ _ _ _ _ Hup (select_form_some _ _ _ Hf)).
  destruct (method request =? "DELETE").
  { unfold try_catch, bind, D1.run, ret.
    destruct (d1_fails (DeleteSettings formId) (DB w)); answered. }
  destruct (negb (method request =? "POST")); [answered|].
  unfold try_catch, bind, formData, ret.
  destruct (body request) as [entries|]; [|answered].
  destruct (negb (all_fields_filled entries)); [answered|].
  rewrite upsert_runs.
  destruct (d1_fails (SelectSettingsId formId) (DB w)); [answered|].
  unfold D1.run.
  destruct (select_settings formId (DB w));
    match goal with
    | |- context [if ?b then _ else _] => destruct b
    end; answered.
Qed.

Lemma a_refused_request_writes_nothing_witness :
  exists response,
    fst (Notifications.action store_up (mkRequest "POST" None) "contact" "uuid" 0
           (mkWorld (mkDatabase ["contact"] [saved_row]) []))
    = Ok response
    /\ status response = 500%Z.
Proof.
  destruct (a_refused_request_writes_nothing store_up
              (mkWorld (mkDatabase ["contact"] [saved_row]) []) "contact"
              (mkRequest "POST" None) "uuid" 0 eq_refl)
    as (response & H & _).
  exists response. split; [exact H|].
  simpl in H. injection H as <-. reflexivity.
Defined.

(** When the store does not answer the lookup of the form, the
    notifications action throws, for every request: the lookup stands
    outside its [try].  The test action has it inside and answers
    500. *)
Theorem form_lookup_failure_escapes
    (d1_fails : Statement -> Database -> bool)
    (sendTestEmail : EmailConfig -> option SendResult)
    (w : World) (formId : string) (request : Request)
    (settingsId : string) (updatedAt : Z) :
  d1_fails (SelectForm formId) (DB w) = true ->
  Notifications.action d1_fails request formId settingsId updatedAt w = (Throw, w)
  /\ (method request = "POST" ->
      NotificationsTest.action d1_fails sendTestEmail request formId w
      = (Ok (data false (Some "Failed to send test email") 500), w)).
Proof.
  intros Hdown. split.
  - unfold Notifications.action, bind, D1.first. now rewrite Hdown.
  - intros Hpost. unfold NotificationsTest.action. rewrite Hpost. simpl.
    unfold try_catch, bind, D1.first. now rewrite Hdown.
Qed.

Lemma form_lookup_failure_escapes_witness :
  Notifications.action (fun _ _ => true) (mkRequest "DELETE" None) "contact"
    "uuid" 0 (mkWorld (mkDatabase ["contact"] [saved_row]) [])
  = (Throw, mkWorld (mkDatabase ["contact"] [saved_row]) []).
Proof.
  apply (form_lookup_failure_escapes (fun _ _ => true) no_email_service).
  reflexivity.
Defined.

Lemma save_writes
    (d1_fails : Statement -> Database -> bool)
    (w : World) (formId : string) (entries : list (string * string))
    (settingsId : string) (updatedAt : Z) :
  (forall q d, d1_fails q d = false) ->
  In formId (forms (DB w)) ->
  all_fields_filled entries = true ->
  DB (snd (Notifications.action d1_fails (mkRequest "POST" (Some entries))
             formId settingsId updatedAt w))
  = match select_settings formId (DB w) with
    | Some _ =>
        update_settings (Js.or_empty (get "notification_email" entries))
          (Js.or_empty (get "notification_email_password" entries))
          (Js.or_empty (get "smtp_host" entries))
          (Js.parseInt (Js.or_empty (get "smtp_port" entries)))
          updatedAt formId (DB w)
    | None =>
        insert_settings settingsId formId
          (Js.or_empty (get "notification_email" entries))
          (Js.or_empty (get "notification_email_password" entries))
          (Js.or_empty (get "smtp_host" entries))
          (Js.parseInt (Js.or_empty (get "smtp_port" entries)))
          updatedAt (DB w)
    end.
Proof.
  intros Hup Hform F.
  rewrite (action_on_existing_form _ _ _ _ _ _ (Hup _ _) Hform).
  change (method (mkRequest "POST" (Some entries)) =? "DELETE") with false.
  change (negb (method (mkRequest "POST" (Some entries)) =? "POST")) with false.
  cbv beta iota. unfold try_catch, bind, formData, ret. cbn [body].
  rewrite F. cbn [negb]. rewrite upsert_runs, Hup. unfold D1.run.
  destruct (select_settings formId (DB w)); rewrite Hup; reflexivity.
Qed.

Lemma loader_reads (d1_fails : Statement -> Database -> bool)
    (w : World) (formId : string) :
  d1_fails (SelectSettings formId) (DB w) = false ->
  SettingsRoute.loader d1_fails formId w
  = (Ok (select_settings formId (DB w), formId), w).
Proof.
  intros H. unfold SettingsRoute.loader, bind, D1.first. now rewrite H.
Qed.

Lemma filled_field (name : string) (entries : list (string * string)) :
  Js.truthy_opt (get name entries) = true ->
  get name entries = Some (Js.or_empty (get name entries)).
Proof. destruct (get name entries); [reflexivity|discriminate]. Qed.

(** The last save wins, and the row keeps its id.  After two accepted
    saves of a form, the loader returns the fields of the second under
    the id of the row that the loader returned after the first: the
    second save draws a new id and does not use it, and the table has
    no more rows than after the first. *)
Theorem last_save_wins
    (d1_fails : Statement -> Database -> bool)
    (w : World) (formId : string) (first second : list (string * string))
    (id1 id2 : string) (at1 at2 : Z) :
  (forall q d, d1_fails q d = false) ->
  In formId (forms (DB w)) ->
  all_fields_filled first = true ->
  all_fields_filled second = true ->
  let w1 :=
    snd (Notifications.action d1_fails (mkRequest "POST" (Some first)) formId
           id1 at1 w) in
  let w2 :=
    snd (Notifications.action d1_fails (mkRequest "POST" (Some second)) formId
           id2 at2 w1) in
  exists row1 row2,
    SettingsRoute.loader d1_fails formId w1 = (Ok (Some row1, formId), w1)
    /\ SettingsRoute.loader d1_fails formId w2 = (Ok (Some row2, formId), w2)
    /\ id row2 = id row1
    /\ notification_email row2 = get "notification_email" second
    /\ notification_email_password row2 = get "notification_email_password" second
    /\ smtp_host row2 = get "smtp_host" second
    /\ smtp_port row2
       = sql_number (Js.parseInt (Js.or_empty (get "smtp_port" second)))
    /\ updated_at row2 = at2
    /\ length (form_settings (DB w2)) = length (form_settings (DB w1)).
Proof.
  intros Hup Hform F1 F2 w1 w2.
  assert (Hforms1 : In formId (forms (DB w1))).
  { unfold w1. now rewrite action_keeps_forms. }
  assert (H1 : exists row1, select_settings formId (DB w1) = Some row1).
  { unfold w1. rewrite (save_writes _ _ _ _ _ _ Hup Hform F1).
    unfold select_settings.
    destruct (find (has_form_id formId) (form_settings (DB w))) as [old|] eqn:Hold;
      simpl.
    - rewrite find_update_row, Hold. simpl. eauto.
    - rewrite (find_none_app _ _ _ Hold). simpl. unfold has_form_id. simpl.
      rewrite String.eqb_refl. eauto. }
  destruct H1 as [row1 H1].
  assert (Hm : has_form_id formId row1 = true) by apply (find_some _ _ H1).
  exists row1.
  eexists. rewrite !loader_reads by apply Hup. rewrite H1.
  split; [reflexivity|].
  unfold w2. rewrite (save_writes _ _ _ _ _ _ Hup Hforms1 F2), H1.
  unfold select_settings. simpl. rewrite find_update_row.
  fold (select_settings formId (DB w1)). rewrite H1. simpl.
  split; [reflexivity|]. unfold update_row. rewrite Hm. simpl.
  unfold all_fields_filled in F2. rewrite !andb_true_iff in F2.
  destruct F2 as [[[Fe Fp] Fh] Fq].
  rewrite <- !filled_field by assumption.
  repeat split. apply length_map.
Qed.

Lemma last_save_wins_witness :
  exists row,
    fst (SettingsRoute.loader store_up "contact"
           (snd (Notifications.action store_up
                   (mkRequest "POST"
                      (Some [("notification_email", "you@example.org");
                             ("notification_email_password", "other");
                             ("smtp_host", "mail.example.org");
                             ("smtp_port", "25")]))
                   "contact" "second id" 2
                   (snd (Notifications.action store_up
                           (mkRequest "POST"
                              (Some [("notification_email", "me@example.org");
                                     ("notification_email_password", "secret");
                                     ("smtp_host", "smtp.example.org");
                                     ("smtp_port", "465")]))
                           "contact" "first id" 1
                           (mkWorld (mkDatabase ["contact"] []) []))))))
    = Ok (Some row, "contact")
    /\ id row = "first id" /\ smtp_port row = Some 25%Z.
Proof.
  destruct (last_save_wins store_up (mkWorld (mkDatabase ["contact"] []) [])
              "contact"
              [("notification_email", "me@example.org");
               ("notification_email_password", "secret");
               ("smtp_host", "smtp.example.org");
               ("smtp_port", "465")]
              [("notification_email", "you@example.org");
               ("notification_email_password", "other");
               ("smtp_host", "mail.example.org");
               ("smtp_port", "25")]
              "first id" "second id" 1 2)
    as (row1 & row2 & H1 & H2 & Hid & _ & _ & _ & Hport & _);
    try reflexivity.
  - simpl. auto.
  - exists row2. rewrite H2. simpl. split; [reflexivity|].
    rewrite Hid, Hport. simpl in H1. injection H1 as <-. split; reflexivity.
Defined.

(** ** The test action *)

Lemma test_action_runs
    (d1_fails : Statement -> Database -> bool)
    (sendTestEmail : EmailConfig -> option SendResult)
    (w : World) (formId : string) (request : Request) :
  method request = "POST" ->
  d1_fails (SelectForm formId) (DB w) = false ->
  In formId (forms (DB w)) ->
  NotificationsTest.action d1_fails sendTestEmail request formId w
  = match body request with
    | None => (Ok (data false (Some "Failed to send test email") 500), w)
    | Some entries =>
        if all_fields_filled entries then
          let w' := mkWorld (DB w) (outbox w ++ [test_config entries]) in
          match sendTestEmail (test_config entries) with
          | Some result =>
              (Ok (if sent_ok result
                   then mkResponse (mkData true None (sent_messageId result)) 200
                   else data false (sent_error result) 400), w')
          | None => (Ok (data false (Some "Failed to send test email") 500), w')
          end
        else (Ok (data false (Some "Missing required fields") 400), w)
    end.
Proof.
  intros Hpost Hup Hform. unfold NotificationsTest.action. rewrite Hpost.
  change (negb ("POST" =? "POST")) with false. cbv beta iota.
  unfold try_catch, bind, D1.first, formData, ret, throw.
  rewrite Hup, (select_form_present _ _ Hform). cbn [is_null].
  destruct (body request) as [entries|]; [|reflexivity].
  fold (test_config entries).
  replace (negb (Js.truthy_opt (get "notification_email" entries))
           || negb (Js.truthy_opt (get "notification_email_password" entries))
           || negb (Js.truthy_opt (get "smtp_host" entries))
           || negb (Js.truthy_opt (get "smtp_port" entries)))
    with (negb (all_fields_filled entries))
    by (unfold all_fields_filled; now rewrite !negb_andb).
  destruct (all_fields_filled entries); [|reflexivity]. cbn [negb].
  unfold NotificationsTest.send.
  destruct (sendTestEmail (test_config entries)) as [result|]; [|reflexivity].
  destruct (sent_ok result); reflexivity.
Qed.

(** The test action never writes to the database, and hands at most
    one configuration to the email service, whatever the request and
    whatever the store and the service do. *)
Theorem test_action_never_writes
    (d1_fails : Statement -> Database -> bool)
    (sendTestEmail : EmailConfig -> option SendResult)
    (w : World) (formId : string) (request : Request) :
  let w' := snd (NotificationsTest.action d1_fails sendTestEmail request formId w) in
  DB w' = DB w
  /\ (outbox w' = outbox w
      \/ exists config, outbox w' = (outbox w ++ [config])%list).
Proof.
  intros w'. unfold w'.
  destruct (method request =? "POST") eqn:Hm.
  2:{ unfold NotificationsTest.action. rewrite Hm. simpl. auto. }
  apply String.eqb_eq in Hm.
  destruct (d1_fails (SelectForm formId) (DB w)) eqn:Hup.
  { unfold NotificationsTest.action. rewrite Hm. simpl.
    unfold try_catch, bind, D1.first. rewrite Hup. simpl. auto. }
  destruct (select_form formId (DB w)) as [x|] eqn:Hf.
  2:{ unfold NotificationsTest.action. rewrite Hm. simpl.
      unfold try_catch, bind, D1.first. rewrite Hup, Hf. simpl. auto. }
  rewrite (test_action_runs _ _ _ _ _ Hm Hup (select_form_some _ _ _ Hf)).
  destruct (body request) as [entries|]; [|simpl; auto].
  destruct (all_fields_filled entries); [|simpl; auto].
  destruct (sendTestEmail (test_config entries)); simpl; eauto.
Qed.

(** A test request with one of the four fields absent or empty is
    answered 400 and no email is handed to the service. *)
Theorem test_validates_before_sending
    (d1_fails : Statement -> Database -> bool)
    (sendTestEmail : EmailConfig -> option SendResult)
    (w : World) (formId : string) (entries : list (string * string)) :
  d1_fails (SelectForm formId) (DB w) = false ->
  In formId (forms (DB w)) ->
  all_fields_filled entries = false ->
  NotificationsTest.action d1_fails sendTestEmail
    (mkRequest "POST" (Some entries)) formId w
  = (Ok (data false (Some "Missing required fields") 400), w).
Proof.
  intros Hup Hform F.
  rewrite (test_action_runs _ _ _ _ (mkRequest "POST" (Some entries)) eq_refl
             Hup Hform).
  simpl. now rewrite F.
Qed.

Lemma test_validates_before_sending_witness :
  NotificationsTest.action store_up (fun _ => Some (mkSendResult true None None))
    (mkRequest "POST"
       (Some [("notification_email", "me@example.org");
              ("notification_email_password", "");
              ("smtp_host", "smtp.example.org");
              ("smtp_port", "465")]))
    "contact" (mkWorld (mkDatabase ["contact"] []) [])
  = (Ok (data false (Some "Missing required fields") 400),
     mkWorld (mkDatabase ["contact"] []) []).
Proof.
  apply test_validates_before_sending; [reflexivity|simpl; auto|reflexivity].
Defined.

(** A test request with its four fields reaches the email service once,
    with the submitted email, password and host and the port as
    [parseInt] reads it, and the answer of the service is relayed: 200
    with its message id when it succeeds, 400 with its error when it
    fails, and 500 with a fixed message when it throws. *)
Theorem test_relays_the_service
    (d1_fails : Statement -> Database -> bool)
    (sendTestEmail : EmailConfig -> option SendResult)
    (w : World) (formId : string) (entries : list (string * string)) :
  d1_fails (SelectForm formId) (DB w) = false ->
  In formId (forms (DB w)) ->
  all_fields_filled entries = true ->
  let config :=
    mkEmailConfig (Js.or_empty (get "notification_email" entries))
      (Js.or_empty (get "notification_email_password" entries))
      (Js.or_empty (get "smtp_host" entries))
      (Js.parseInt (Js.or_empty (get "smtp_port" entries))) in
  NotificationsTest.action d1_fails sendTestEmail
    (mkRequest "POST" (Some entries)) formId w
  = (match sendTestEmail config with
     | Some result =>
         if sent_ok result
         then Ok (mkResponse (mkData true None (sent_messageId result)) 200)
         else Ok (mkResponse (mkData false (sent_error result) None) 400)
     | None =>
         Ok (mkResponse (mkData false (Some "Failed to send test email") None) 500)
     end,
     mkWorld (DB w) (outbox w ++ [config])).
Proof.
  intros Hup Hform F config.
  rewrite (test_action_runs _ _ _ _ (mkRequest "POST" (Some entries)) eq_refl
             Hup Hform).
  simpl. rewrite F.
  fold config. unfold test_config. fold config.
  destruct (sendTestEmail config) as [result|]; [|reflexivity].
  destruct (sent_ok result); reflexivity.
Qed.

Lemma test_relays_the_service_witness :
  NotificationsTest.action store_up
    (fun _ => Some (mkSendResult false None (Some "535 Authentication failed")))
    (mkRequest "POST"
       (Some [("notification_email", "me@example.org");
              ("notification_email_password", "secret");
              ("smtp_host", "smtp.example.org");
              ("smtp_port", "465")]))
    "contact" (mkWorld (mkDatabase ["contact"] []) [])
  = (Ok (data false (Some "535 Authentication failed") 400),
     mkWorld (mkDatabase ["contact"] [])
       [mkEmailConfig "me@example.org" "secret" "smtp.example.org" (Js.Int 465)]).
Proof.
  apply (test_relays_the_service store_up
           (fun _ => Some (mkSendResult false None (Some "535 Authentication failed"))));
    [reflexivity|simpl; auto|reflexivity].
Defined.

(** ** More on provider detection *)

Lemma lower_unit_at (c : ascii) :
  (Js.lower_unit c =? "@")%char = (c =? "@")%char.
Proof. destruct c as [[] [] [] [] [] [] [] []]; reflexivity. Qed.

Lemma lower_unit_line_terminator (c : ascii) :
  Js.isLineTerminator (Js.lower_unit c) = Js.isLineTerminator c.
Proof. destruct c as [[] [] [] [] [] [] [] []]; reflexivity. Qed.

Lemma lower_unit_idempotent (c : ascii) :
  Js.lower_unit (Js.lower_unit c) = Js.lower_unit c.
Proof. destruct c as [[] [] [] [] [] [] [] []]; reflexivity. Qed.

Lemma toLowerCase_idempotent (s : string) :
  Js.toLowerCase (Js.toLowerCase s) = Js.toLowerCase s.
Proof.
  induction s as [|c r IH]; simpl; [reflexivity|].
  now rewrite lower_unit_idempotent, IH.
Qed.

Lemma dot_star_end_toLowerCase (s : string) :
  dot_star_end (Js.toLowerCase s) = dot_star_end s.
Proof.
  induction s as [|c r IH]; simpl; [reflexivity|].
  now rewrite lower_unit_line_terminator, IH.
Qed.

Lemma dot_plus_end_toLowerCase (s : string) :
  dot_plus_end (Js.toLowerCase s) = dot_plus_end s.
Proof.
  unfold dot_plus_end. now rewrite toLowerCase_truthy, dot_star_end_toLowerCase.
Qed.

Lemma match_domain_toLowerCase (s : string) :
  match_domain (Js.toLowerCase s) = option_map Js.toLowerCase (match_domain s).
Proof.
  induction s as [|c r IH]; simpl; [reflexivity|].
  rewrite lower_unit_at, dot_plus_end_toLowerCase.
  destruct ((c =? "@")%char && dot_plus_end r); [reflexivity|exact IH].
Qed.

Lemma match_domain_suffix (s m : string) :
  match_domain s = Some m -> exists pre, s = pre ++ "@" ++ m.
Proof.
  induction s as [|c r IH]; simpl; [discriminate|].
  destruct ((c =? "@")%char && dot_plus_end r) eqn:E.
  - intros [= <-]. apply andb_true_iff in E as [E _].
    apply Ascii.eqb_eq in E. subst. now exists "".
  - intros H. destruct (IH H) as [pre ->]. now exists (String c pre).
Qed.

Lemma match_domain_single_line (s m : string) :
  match_domain s = Some m -> dot_star_end m = true.
Proof.
  induction s as [|c r IH]; simpl; [discriminate|].
  destruct ((c =? "@")%char && dot_plus_end r) eqn:E; [|exact IH].
  intros [= <-]. apply andb_true_iff in E as [_ E].
  unfold dot_plus_end in E. now apply andb_true_iff in E.
Qed.

(** Detection does not depend on the case of the email: the domain of
    the lowercased email is the domain of the email. *)
Theorem getEmailDomain_ignores_case (email : string) :
  getEmailDomain (Js.toLowerCase email) = getEmailDomain email.
Proof.
  unfold getEmailDomain. rewrite match_domain_toLowerCase.
  destruct (match_domain email); simpl; [|reflexivity].
  now rewrite toLowerCase_idempotent.
Qed.

(** A detected domain is the lowercased text after some [@] of the
    email; it is not empty, holds no line terminator and no capital
    letter A-Z, and lowercasing it again changes nothing. *)
Theorem detected_domain_shape (email d : string) :
  getEmailDomain email = Some d ->
  (exists pre m, email = pre ++ "@" ++ m /\ d = Js.toLowerCase m)
  /\ d <> ""
  /\ dot_star_end d = true
  /\ has_upper d = false
  /\ Js.toLowerCase d = d.
Proof.
  unfold getEmailDomain. destruct (match_domain email) as [m|] eqn:E;
    [|discriminate].
  intros [= <-]. repeat split.
  - destruct (match_domain_suffix _ _ E) as [pre ->]. eauto.
  - apply match_domain_truthy in E. destruct m; [discriminate|]. discriminate.
  - rewrite dot_star_end_toLowerCase. eapply match_domain_single_line, E.
  - apply toLowerCase_no_upper.
  - apply toLowerCase_idempotent.
Qed.

Lemma detected_domain_shape_witness :
  (exists pre m, "Me@Mail.Example.ORG" = pre ++ "@" ++ m
                 /\ "mail.example.org" = Js.toLowerCase m)
  /\ "mail.example.org" <> ""
  /\ dot_star_end "mail.example.org" = true
  /\ has_upper "mail.example.org" = false
  /\ Js.toLowerCase "mail.example.org" = "mail.example.org".
Proof.
  apply (detected_domain_shape "Me@Mail.Example.ORG" "mail.example.org").
  reflexivity.
Defined.

(** ** [parseInt] and [toString] *)

Lemma digits_decimal (d : Decimal.uint) (rest : string) (acc : Z) :
  no_digit_ahead rest = true ->
  Js.digits (NilEmpty.string_of_uint d ++ rest) (Some acc)
  = Some (decimal_value d acc).
Proof.
  intros Hrest. revert acc.
  induction d; intros acc; simpl; try apply IHd.
  destruct rest as [|c r]; [reflexivity|]. simpl in *.
  destruct (Js.digit c); [discriminate|reflexivity].
Qed.

Lemma digits_decimal_first (d : Decimal.uint) (rest : string) :
  d <> Decimal.Nil -> no_digit_ahead rest = true ->
  Js.digits (NilEmpty.string_of_uint d ++ rest) None
  = Some (decimal_value d 0).
Proof.
  intros Hd Hrest.
  destruct d; try congruence; simpl; now rewrite digits_decimal.
Qed.

Lemma decimal_value_acc (d : Decimal.uint) (acc : positive) :
  decimal_value d (Z.pos acc) = Z.pos (Pos.of_uint_acc d acc).
Proof.
  revert acc.
  induction d; intros acc; cbn [decimal_value Pos.of_uint_acc];
    try reflexivity; rewrite <- IHd; f_equal; lia.
Qed.

Lemma decimal_value_of_uint (d : Decimal.uint) :
  decimal_value d 0 = Z.of_N (Pos.of_uint d).
Proof.
  induction d; simpl; try reflexivity; try apply IHd;
    apply (decimal_value_acc d).
Qed.

Lemma parseInt_digit_first (c : ascii) (r : string) :
  Js.digit c <> None ->
  Js.parseInt (String c r) = Js.of_digits (Js.digits (String c r) None) 1.
Proof.
  destruct c as [[] [] [] [] [] [] [] []]; intros H;
    try reflexivity; exfalso; apply H; reflexivity.
Qed.

Lemma string_of_uint_digit_first (d : Decimal.uint) (rest : string) :
  d <> Decimal.Nil ->
  exists c r, NilEmpty.string_of_uint d ++ rest = String c r
              /\ Js.digit c <> None.
Proof.
  intros H. destruct d; try congruence; simpl; do 2 eexists;
    (split; [reflexivity|discriminate]).
Qed.

Lemma parseInt_numeral (d : Decimal.uint) (rest : string) :
  d <> Decimal.Nil -> no_digit_ahead rest = true ->
  Js.parseInt (NilEmpty.string_of_uint d ++ rest)
  = Js.Int (Z.of_N (Pos.of_uint d))
  /\ Js.parseInt (String "-" (NilEmpty.string_of_uint d ++ rest))
     = Js.Int (- Z.of_N (Pos.of_uint d)).
Proof.
  intros Hd Hrest. split.
  - destruct (string_of_uint_digit_first d rest Hd) as (c & r & E & Hc).
    rewrite E, (parseInt_digit_first c r Hc), <- E.
    rewrite (digits_decimal_first d rest Hd Hrest), decimal_value_of_uint.
    unfold Js.of_digits. f_equal; lia.
  - change (Js.parseInt (String "-" (NilEmpty.string_of_uint d ++ rest)))
      with (Js.of_digits (Js.digits (NilEmpty.string_of_uint d ++ rest) None) (-1)).
    rewrite (digits_decimal_first d rest Hd Hrest), decimal_value_of_uint.
    unfold Js.of_digits. f_equal; lia.
Qed.

Lemma string_of_uint_nonnil (d : Decimal.uint) :
  d <> Decimal.Nil -> NilZero.string_of_uint d = NilEmpty.string_of_uint d.
Proof. destruct d; [congruence|reflexivity..]. Qed.

(** [parseInt] reads back what [toString] printed, and stops at the
    first character that is not a digit: for every safe integer [n]
    (at most 2^53 - 1 in magnitude), a text that starts with the
    decimal form of [n] and does not go on with a digit parses to [n].
    So the port of a saved row, shown in the port field, is saved again
    as the same number, and a port followed by other text is accepted
    as that port. *)
Theorem parseInt_reads_back_toString (n : Z) (rest : string) :
  Js.isSafeInteger n = true ->
  no_digit_ahead rest = true ->
  Js.parseInt (Js.toString n ++ rest) = Js.Int n.
Proof.
  intros _ Hrest. unfold Js.toString. destruct n as [|p|p]; simpl Z.to_int.
  - apply (parseInt_numeral (Decimal.D0 Decimal.Nil) rest); [discriminate|exact Hrest].
  - assert (Hn := DecimalPos.Unsigned.to_uint_nonnil p).
    unfold NilZero.string_of_int. rewrite (string_of_uint_nonnil _ Hn).
    rewrite (proj1 (parseInt_numeral _ rest Hn Hrest)).
    now rewrite DecimalPos.Unsigned.of_to.
  - assert (Hn := DecimalPos.Unsigned.to_uint_nonnil p).
    unfold NilZero.string_of_int. rewrite (string_of_uint_nonnil _ Hn).
    change (String "-" (NilEmpty.string_of_uint (Pos.to_uint p)) ++ rest)
      with (String "-" (NilEmpty.string_of_uint (Pos.to_uint p) ++ rest)).
    rewrite (proj2 (parseInt_numeral _ rest Hn Hrest)).
    now rewrite DecimalPos.Unsigned.of_to.
Qed.

Lemma parseInt_reads_back_toString_witness :
  Js.parseInt (Js.toString 587 ++ " (TLS)") = Js.Int 587.
Proof. apply parseInt_reads_back_toString; reflexivity. Defined.

(** ** The page: what the gate implies *)

Lemma test_disabled_fields (a b : Page) :
  fields a = fields b -> test_disabled a = test_disabled b.
Proof.
  unfold fields, test_disabled. now intros [= -> -> -> ->].
Qed.

Lemma undisturbed_fields (p : Page) (e : Event) :
  disturbs p e = false ->
  fields (step p e) = fields p /\ fields (handle e p) = fields p.
Proof.
  intros H. assert (G := gate_resets_disturbs p e). rewrite H in G.
  unfold disturbs in H. apply orb_false_iff in H as [Hf Hc].
  apply negb_false_iff, fields_eqb_eq in Hf.
  unfold gate_resets in G. apply orb_false_iff in G as [G _].
  apply negb_false_iff in G. simpl in G. apply fields_eqb_eq in G.
  split; congruence.
Qed.

Lemma handle_smtp_section (p : Page) (e : Event) :
  detection_sound p -> smtp_section p = true -> smtp_section (handle e p) = true.
Proof.
  intros [Ht _] Hs. unfold smtp_section in Hs.
  destruct e; simpl; try exact Hs;
    try solve [match goal with
               | |- context [if ?b then _ else _] => destruct b; exact Hs
               end].
  destruct (timer p) as [[d st]|] eqn:T; [|exact Hs].
  unfold smtp_section.
  replace (emailDomain (detected d st (setTimer None p))) with (Some d)
    by (unfold detected; split_handle).
  apply (getEmailDomain_truthy (email p)). now apply (Ht d st).
Qed.

Lemma step_smtp_section (p : Page) (e : Event) :
  detection_sound p -> smtp_section p = true -> disturbs p e = false ->
  smtp_section (step p e) = true.
Proof.
  intros Hd Hs Hq.
  assert (Hh := handle_smtp_section p e Hd Hs).
  destruct (undisturbed_fields p e Hq) as [_ Hf].
  assert (Hc : clear_fires (Some p) (handle e p) = false).
  { rewrite handle_clear_fires. now apply disturbs_clear_succeeds. }
  assert (He : getEmailDomain (email (handle e p)) <> None).
  { unfold fields in Hf. injection Hf as -> _ _ _. intros Hn.
    destruct Hd as [_ Hd]. destruct (Hd Hn) as [Hnone _].
    unfold smtp_section in Hs. rewrite Hnone in Hs. discriminate. }
  unfold smtp_section.
  destruct (step_detection p e) as (-> & _ & _).
  destruct (commit_detection (Some p) (handle e p)) as [-> _].
  rewrite effects_emailDomain, Hc.
  destruct (unchanged detect_deps_eqb (Some p) (handle e p)); [exact Hh|].
  destruct (getEmailDomain (email (handle e p))) as [d|] eqn:G; [|congruence].
  now rewrite (getEmailDomain_truthy _ _ G).
Qed.

Lemma handle_valid_cases (p : Page) (e : Event) :
  testResultValid (handle e p) = true ->
  testResultValid p = true
  \/ (smtp_section p = true /\ test_disabled p = false).
Proof.
  destruct e; try (rewrite handle_testResultValid by discriminate; auto).
  simpl. destruct (smtp_section p) eqn:S, (test_disabled p) eqn:D; simpl; auto.
Qed.

Lemma step_gate_sound (p : Page) (e : Event) :
  detection_sound p -> gate_sound p -> gate_sound (step p e).
Proof.
  intros Hd [Hpv Hvf]. split.
  - rewrite step_testPassed, step_testResultValid. intros H.
    apply andb_true_iff in H as [-> H]. simpl.
    apply orb_true_iff in H as [H|H]; [apply orb_true_iff in H as [H|H]|].
    + destruct e; try discriminate. simpl in *.
      now destruct (testResultValid p).
    + destruct e; try discriminate. simpl in *.
      now destruct (smtp_section p && negb (test_disabled p)).
    + specialize (Hpv H). destruct e;
        try (now rewrite handle_testResultValid by discriminate).
      simpl. now destruct (smtp_section p && negb (test_disabled p)).
  - rewrite step_testResultValid. intros H.
    apply andb_true_iff in H as [Hq H]. apply negb_true_iff in Hq.
    assert (Hp : test_disabled p = false /\ smtp_section p = true).
    { destruct (handle_valid_cases p e H) as [Hv|[Hs Ht]]; auto. }
    destruct Hp as [Ht Hs]. split.
    + rewrite <- Ht. apply test_disabled_fields.
      apply (undisturbed_fields p e Hq).
    + now apply step_smtp_section.
Qed.

Lemma run_gate_sound (st : option FormSettings) (events : list Event) :
  detection_sound (run (mount st) events) /\ gate_sound (run (mount st) events).
Proof.
  induction events as [|e l IH] using rev_ind.
  - split; [apply mount_detection_sound|].
    destruct (mount_gate st) as [Hp Hv]. simpl.
    split; rewrite ?Hp, ?Hv; discriminate.
  - rewrite run_snoc. destruct IH as [Hd Hg].
    split; [now apply step_detection_sound|now apply step_gate_sound].
Qed.

(** On a mounted page the Save Settings button is only enabled while
    the test result is current, the SMTP section is rendered and none
    of the four fields is empty. *)
Theorem save_enabled_means_fields_filled
    (st : option FormSettings) (events : list Event) :
  save_disabled (run (mount st) events) = false ->
  testResultValid (run (mount st) events) = true
  /\ smtp_section (run (mount st) events) = true
  /\ email (run (mount st) events) <> ""
  /\ password (run (mount st) events) <> ""
  /\ (exists h, smtpHost (run (mount st) events) = Some h /\ h <> "")
  /\ smtpPort (run (mount st) events) <> "".
Proof.
  destruct (run_gate_sound st events) as [_ [Hpv Hvf]].
  set (p := run (mount st) events) in *.
  unfold save_disabled. rewrite negb_false_iff. intros Hp.
  specialize (Hpv Hp). destruct (Hvf Hpv) as [Ht Hs].
  split; [exact Hpv|]. split; [exact Hs|].
  unfold test_disabled in Ht. rewrite !orb_false_iff, !negb_false_iff in Ht.
  destruct Ht as [[[He Hw] Hh] Hq].
  repeat split.
  - intros E. now rewrite E in He.
  - intros E. now rewrite E in Hw.
  - destruct (smtpHost p) as [h|]; [|discriminate].
    exists h. split; [reflexivity|]. intros E. now rewrite E in Hh.
  - intros E. now rewrite E in Hq.
Qed.

Lemma save_enabled_means_fields_filled_witness :
  smtpPort
    (run (mount None)
       [ChangeEmail "me@gmail.com"; Timeout; ChangePassword "app password";
        ClickTest; test_returns sent])
  <> "".
Proof.
  apply (save_enabled_means_fields_filled None
           [ChangeEmail "me@gmail.com"; Timeout; ChangePassword "app password";
            ClickTest; test_returns sent]).
  reflexivity.
Defined.

(** An email behind an enabled Save Settings button has a domain: what
    the page saves is an email for which a mount detects one. *)
Lemma enabled_save_has_domain (st : option FormSettings) (events : list Event) :
  save_disabled (run (mount st) events) = false ->
  getEmailDomain (email (run (mount st) events)) <> None.
Proof.
  destruct (run_gate_sound st events) as [[_ Hd] [Hpv Hvf]].
  unfold save_disabled. rewrite negb_false_iff. intros Hp Hnone.
  destruct (Hvf (Hpv Hp)) as [_ Hs]. destruct (Hd Hnone) as [He _].
  unfold smtp_section in Hs. rewrite He in Hs. discriminate.
Qed.

Lemma filled_save_is_accepted
    (d1_fails : Statement -> Database -> bool)
    (w : World) (formId : string) (entries : list (string * string))
    (settingsId : string) (updatedAt : Z) :
  (forall q d, d1_fails q d = false) ->
  In formId (forms (DB w)) ->
  all_fields_filled entries = true ->
  fst (Notifications.action d1_fails (mkRequest "POST" (Some entries)) formId
         settingsId updatedAt w)
  = Ok (data true None 200).
Proof.
  intros Hup Hform F.
  rewrite (action_on_existing_form _ _ _ _ _ _ (Hup _ _) Hform).
  change (method (mkRequest "POST" (Some entries)) =? "DELETE") with false.
  change (negb (method (mkRequest "POST" (Some entries)) =? "POST")) with false.
  cbv beta iota. unfold try_catch, bind, formData, ret. cbn [body].
  rewrite F. cbn [negb]. rewrite upsert_runs, Hup. unfold D1.run.
  destruct (select_settings formId (DB w)); rewrite Hup; reflexivity.
Qed.

(** Behind an enabled Save Settings button the fields pass the check of
    the save action.  On a mounted page with the button enabled, the
    four fields that the page holds are all non-empty, and for an
    existing form and a store that answers, the save action answers a
    request that carries them 200: it does not meet the 400 of a
    missing field. *)
Theorem enabled_save_is_accepted
    (d1_fails : Statement -> Database -> bool)
    (st : option FormSettings) (events : list Event)
    (w : World) (formId settingsId : string) (updatedAt : Z) :
  (forall q d, d1_fails q d = false) ->
  In formId (forms (DB w)) ->
  save_disabled (run (mount st) events) = false ->
  all_fields_filled (save_entries (run (mount st) events)) = true
  /\ fst (Notifications.action d1_fails (save_request (run (mount st) events))
            formId settingsId updatedAt w)
     = Ok (data true None 200).
Proof.
  intros Hup Hform Hen.
  destruct (run_gate_sound st events) as [_ [Hpv Hvf]].
  set (p := run (mount st) events) in *.
  assert (Hp : testPassed p = true)
    by (unfold save_disabled in Hen; now apply negb_false_iff in Hen).
  destruct (Hvf (Hpv Hp)) as [Ht Hs].
  assert (F : all_fields_filled (save_entries p) = true).
  { unfold all_fields_filled, save_entries. simpl.
    unfold test_disabled in Ht. rewrite !orb_false_iff, !negb_false_iff in Ht.
    destruct Ht as [[[He Hw] Hh] Hq]. rewrite He, Hw, Hq.
    destruct (smtpHost p) as [h|]; [|discriminate]. simpl in *. now rewrite Hh. }
  split; [exact F|].
  unfold save_request. now apply filled_save_is_accepted.
Qed.

Lemma enabled_save_is_accepted_witness :
  all_fields_filled
    (save_entries
       (run (mount None)
          [ChangeEmail "me@gmail.com"; Timeout;
           ChangePassword "app password"; ClickTest; test_returns sent]))
  = true
  /\ fst (Notifications.action store_up
            (save_request
               (run (mount None)
                  [ChangeEmail "me@gmail.com"; Timeout;
                   ChangePassword "app password"; ClickTest; test_returns sent]))
            "contact" "uuid" 0 (mkWorld (mkDatabase ["contact"] []) []))
     = Ok (data true None 200).
Proof.
  apply (enabled_save_is_accepted store_up None
           [ChangeEmail "me@gmail.com"; Timeout; ChangePassword "app password";
            ClickTest; test_returns sent]
           (mkWorld (mkDatabase ["contact"] []) []) "contact" "uuid" 0).
  - reflexivity.
  - simpl. auto.
  - reflexivity.
Defined.

(** Traffic that is not of the test or the clear fetcher leaves the
    gate alone: when the router hands over new loader data or a new
    save fetcher (a save in flight, accepted or refused, a
    revalidation), the gate flags and the four fields stay as they
    are. *)
Theorem other_traffic_keeps_the_gate
    (p : Page) (st : option FormSettings) (f : Fetcher.t) :
  let p' := step p (Router st f (testFetcher p) (clearFetcher p)) in
  testPassed p' = testPassed p
  /\ testResultValid p' = testResultValid p
  /\ fields p' = fields p
  /\ settings p' = st /\ fetcher p' = f.
Proof.
  intros p'. unfold p'.
  set (e := Router st f (testFetcher p) (clearFetcher p)).
  assert (Ht : test_succeeds p e = false).
  { simpl. now destruct (testResultValid p),
      (Fetcher.idle_success (testFetcher p)). }
  assert (Hc : clear_succeeds p e = false).
  { simpl. rewrite state_eqb_refl, option_eqb_refl by apply data_eqb_refl.
    reflexivity. }
  assert (Hd : disturbs p e = false).
  { rewrite <- gate_resets_disturbs. unfold gate_resets, unchanged.
    rewrite handle_clear_fires, Hc. unfold e. now rewrite handle_Router_fields. }
  rewrite step_testPassed, step_testResultValid, Hd, Ht.
  destruct (undisturbed_fields p e Hd) as [Hf _].
  unfold step. destruct (commit_router (Some p) (handle e p)) as (Hs & Hfe & _ & _).
  repeat split; auto.
Qed.

(** ** The page: debounced detection *)

Lemma commit_timer_quiet (prev : option Page) (cur : Page) :
  clear_fires prev cur = false ->
  timer (commit prev cur) = timer (effects prev cur).
Proof.
  intros Hc. unfold commit. rewrite (effects_timer (Some cur)). simpl.
  rewrite detect_deps_eqb_same; [reflexivity| |].
  - now rewrite clear_fires_email, Hc.
  - symmetry. apply effects_router.
Qed.

(** Typing in the email field defers the detection.  A new email that
    has a domain only (re)starts the timeout, now for that domain: the
    detected domain, the matched profile, host, port and password stay
    as they were until it fires.  A new email without a domain cancels
    the pending timeout and clears domain and profile at once. *)
Theorem typing_defers_detection (p : Page) (value : string) :
  email p <> value ->
  let p' := step p (ChangeEmail value) in
  email p' = value /\ password p' = password p
  /\ smtpHost p' = smtpHost p /\ smtpPort p' = smtpPort p
  /\ match getEmailDomain value with
     | Some d =>
         timer p' = Some (d, settings p)
         /\ emailDomain p' = emailDomain p /\ smtpConfig p' = smtpConfig p
     | None =>
         timer p' = None /\ emailDomain p' = None /\ smtpConfig p' = None
     end.
Proof.
  intros Hnew p'. unfold p', step.
  set (cur := handle (ChangeEmail value) p).
  assert (Hc : clear_fires (Some p) cur = false)
    by (unfold cur; now rewrite handle_clear_fires).
  assert (Hu : unchanged detect_deps_eqb (Some p) cur = false).
  { simpl. unfold detect_deps_eqb. simpl.
    apply String.eqb_neq in Hnew. now rewrite Hnew. }
  assert (Hf := commit_fields (Some p) cur).
  rewrite effects_fields, Hc in Hf. unfold fields in Hf.
  injection Hf as -> -> -> ->.
  destruct (commit_detection (Some p) cur) as [-> ->].
  rewrite (commit_timer_quiet _ _ Hc).
  rewrite effects_timer, effects_emailDomain, effects_smtpConfig, Hc, Hu.
  simpl. repeat split.
  destruct (getEmailDomain value) as [d|] eqn:G; [|auto].
  now rewrite (getEmailDomain_truthy _ _ G).
Qed.

Lemma typing_defers_detection_witness :
  timer (step (mount None) (ChangeEmail "me@example.org"))
  = Some ("example.org", None)
  /\ emailDomain (step (mount None) (ChangeEmail "me@example.org")) = None.
Proof.
  destruct (typing_defers_detection (mount None) "me@example.org")
    as (_ & _ & _ & _ & H); [discriminate|].
  simpl getEmailDomain in H. destruct H as (H1 & H2 & _).
  split; [exact H1|exact H2].
Defined.

(** The timeout fires once: after it no timeout is pending, and a
    second one changes nothing. *)
Theorem timeout_fires_once (p : Page) :
  timer (step p Timeout) = None
  /\ step (step p Timeout) Timeout = step p Timeout.
Proof.
  assert (H : timer (step p Timeout) = None).
  { unfold step. rewrite commit_timer_quiet by now rewrite handle_clear_fires.
    rewrite effects_timer.
    replace (unchanged detect_deps_eqb (Some p) (handle Timeout p)) with true.
    - simpl. destruct (timer p) as [[d st]|] eqn:T; [|exact T].
      unfold detected. split_handle.
    - symmetry. simpl. destruct (timer p) as [[d st]|];
        apply detect_deps_eqb_same; unfold detected; split_handle. }
  split; [exact H|].
  rewrite (step_plain (step p Timeout) Timeout) by discriminate.
  unfold handle. rewrite H. apply commit_idle.
Qed.

(** ** The page: the test in flight *)

(** An edit hides the error of the last test and keeps the fetcher
    that holds it. *)
Theorem edit_hides_test_error (p : Page) (e : Event) :
  edits p e = true ->
  test_error_shown (step p e) = false
  /\ testFetcher (step p e) = testFetcher p.
Proof.
  intros H.
  assert (Hf : testFetcher (step p e) = testFetcher p).
  { rewrite step_plain by (intros ->; discriminate).
    destruct (commit_router (Some p) (handle e p)) as (_ & _ & -> & _).
    rewrite handle_testFetcher. destruct e; try reflexivity; discriminate. }
  split; [|exact Hf].
  unfold test_error_shown. rewrite Hf, step_testResultValid, (edits_disturb _ _ H).
  simpl. destruct (Fetcher.data (testFetcher p)); [apply andb_false_r|reflexivity].
Qed.

Lemma edit_hides_test_error_witness :
  test_error_shown
    (run page_testing
       [test_returns (mkData false (Some "535 Authentication failed") None)])
  = true
  /\ test_error_shown
       (step (run page_testing
                [test_returns (mkData false (Some "535 Authentication failed") None)])
          (ChangePassword "another password"))
     = false.
Proof.
  split; [reflexivity|].
  apply (edit_hides_test_error
           (run page_testing
              [test_returns (mkData false (Some "535 Authentication failed") None)])
           (ChangePassword "another password")).
  reflexivity.
Defined.

Lemma step_testFetcher (p : Page) (e : Event) :
  e <> ClickTest -> from_router e = false ->
  testFetcher (step p e) = testFetcher p.
Proof.
  intros Hc Hr. rewrite step_plain by exact Hc.
  destruct (commit_router (Some p) (handle e p)) as (_ & _ & -> & _).
  rewrite handle_testFetcher. destruct e; try reflexivity; discriminate.
Qed.

(** A test takes a snapshot of the fields.  Pressing the enabled test
    button submits the four fields as they stand and keeps the data of
    the test before; whatever the user does next, short of pressing
    the button again, the submission in flight is not altered. *)
Theorem test_takes_a_snapshot (p : Page) :
  smtp_section p = true -> test_disabled p = false ->
  Fetcher.formData (testFetcher (step p ClickTest))
  = [("notification_email", email p);
     ("notification_email_password", password p);
     ("smtp_host", Js.or_empty (smtpHost p));
     ("smtp_port", smtpPort p)]
  /\ Fetcher.data (testFetcher (step p ClickTest)) = Fetcher.data (testFetcher p)
  /\ (forall events,
        Forall (fun e => e <> ClickTest /\ from_router e = false) events ->
        testFetcher (run (step p ClickTest) events)
        = testFetcher (step p ClickTest)).
Proof.
  intros Hs Hd.
  assert (Hf : testFetcher (step p ClickTest)
               = Fetcher.submit (test_entries p) (testFetcher p)).
  { rewrite step_ClickTest, Hs, Hd. cbn [negb andb].
    rewrite submitTest_testFetcher.
    destruct (commit_router (Some p) (handle ClickTest p)) as (_ & _ & -> & _).
    now rewrite handle_testFetcher. }
  split; [|split].
  - rewrite Hf. unfold test_entries. simpl.
    unfold test_disabled in Hd. rewrite !orb_false_iff in Hd.
    destruct Hd as [[_ Hh] _]. now destruct (smtpHost p).
  - now rewrite Hf.
  - intros events Hall.
    generalize (step p ClickTest). intros q.
    revert q. induction Hall as [|e l [Hc Hr] _ IH]; intros q; simpl; [reflexivity|].
    now rewrite IH, step_testFetcher.
Qed.

Lemma test_takes_a_snapshot_witness :
  Fetcher.formData
    (testFetcher
       (step (run (mount None)
                [ChangeEmail "me@gmail.com"; Timeout; ChangePassword "app password"])
          ClickTest))
  = [("notification_email", "me@gmail.com");
     ("notification_email_password", "app password");
     ("smtp_host", "smtp.gmail.com");
     ("smtp_port", "587")].
Proof.
  apply (test_takes_a_snapshot
           (run (mount None)
              [ChangeEmail "me@gmail.com"; Timeout; ChangePassword "app password"]));
    reflexivity.
Defined.

(** * The forms route *)

(** ** The slug of a name *)

Lemma slug_char_not_dash (c : ascii) :
  is_slug_char c = true -> (c =? "-")%char = false.
Proof. destruct c as [[] [] [] [] [] [] [] []]; vm_compute; congruence. Qed.

Lemma slug_char_lower (c : ascii) :
  is_slug_char c || (c =? "-")%char = true -> Js.lower_unit c = c.
Proof. destruct c as [[] [] [] [] [] [] [] []]; vm_compute; congruence. Qed.

Lemma dash_runs_chars (s : string) (b : bool) :
  slug_chars_only (dash_runs s b) = true.
Proof.
  revert b. induction s as [|c r IH]; intros b; cbn [dash_runs]; [reflexivity|].
  destruct (is_slug_char c) eqn:E.
  - cbn [slug_chars_only]. now rewrite E, IH.
  - destruct b; [apply IH|]. cbn [slug_chars_only]. now rewrite IH.
Qed.

Lemma dash_runs_apart (s : string) (b : bool) :
  dashes_apart (dash_runs s b) b = true.
Proof.
  revert b. induction s as [|c r IH]; intros b; cbn [dash_runs]; [reflexivity|].
  destruct (is_slug_char c) eqn:E.
  - cbn [dashes_apart]. rewrite (slug_char_not_dash _ E). apply IH.
  - destruct b; [apply IH|]. cbn [dashes_apart].
    change ("-" =? "-")%char with true. cbn [negb andb]. apply IH.
Qed.

Lemma drop_leading_chars (s : string) :
  slug_chars_only s = true -> slug_chars_only (drop_leading_dashes s) = true.
Proof.
  induction s as [|c r IH]; cbn [drop_leading_dashes]; [auto|].
  intros H. destruct (c =? "-")%char; [|exact H].
  cbn [slug_chars_only] in H. apply andb_true_iff in H as [_ H]. auto.
Qed.

Lemma drop_leading_apart (s : string) (b : bool) :
  dashes_apart s b = true -> dashes_apart (drop_leading_dashes s) true = true.
Proof.
  revert b. induction s as [|c r IH]; intros b;
    cbn [drop_leading_dashes dashes_apart]; [auto|].
  destruct (c =? "-")%char eqn:E.
  - intros H. apply andb_true_iff in H as [_ H]. eauto.
  - cbn [dashes_apart]. now rewrite E.
Qed.

Lemma drop_trailing_chars (s : string) :
  slug_chars_only s = true -> slug_chars_only (drop_trailing_dashes s) = true.
Proof.
  induction s as [|c r IH]; cbn [drop_trailing_dashes slug_chars_only]; [auto|].
  intros H. apply andb_true_iff in H as [Hc H]. specialize (IH H).
  destruct (drop_trailing_dashes r) as [|k ks].
  - destruct (c =? "-")%char eqn:E; [reflexivity|].
    cbn [slug_chars_only]. rewrite E. now rewrite Hc.
  - cbn [slug_chars_only] in *. now rewrite Hc, IH.
Qed.

Lemma drop_trailing_apart (s : string) (b : bool) :
  dashes_apart s b = true -> dashes_apart (drop_trailing_dashes s) b = true.
Proof.
  revert b. induction s as [|c r IH]; intros b;
    cbn [drop_trailing_dashes dashes_apart]; [auto|].
  destruct (c =? "-")%char eqn:E.
  - intros H. apply andb_true_iff in H as [Hb H]. specialize (IH _ H).
    destruct (drop_trailing_dashes r) as [|k ks]; [reflexivity|].
    cbn [dashes_apart] in *. now rewrite E, Hb.
  - intros H. specialize (IH _ H).
    destruct (drop_trailing_dashes r) as [|k ks]; cbn [dashes_apart] in *;
      now rewrite E.
Qed.

Lemma last_char_cons (c k : ascii) (ks : string) :
  last_char (String c (String k ks)) = last_char (String k ks).
Proof.
  change (last_char (String c (String k ks)))
    with (match last_char (String k ks) with
          | Some l => Some l
          | None => Some c
          end).
  cbn [last_char]. now destruct (last_char ks).
Qed.

Lemma drop_trailing_last (s : string) :
  last_char (drop_trailing_dashes s) <> Some "-"%char.
Proof.
  induction s as [|c r IH]; cbn [drop_trailing_dashes]; [discriminate|].
  destruct (drop_trailing_dashes r) as [|k ks] eqn:K.
  - destruct (c =? "-")%char eqn:E; cbn [last_char]; [discriminate|].
    intros [= ->]. discriminate.
  - now rewrite last_char_cons.
Qed.

Lemma dashes_apart_weaken (s : string) :
  dashes_apart s true = true -> dashes_apart s false = true.
Proof.
  destruct s as [|c r]; cbn [dashes_apart]; [auto|].
  now destruct (c =? "-")%char.
Qed.

Lemma dash_runs_fixed (s : string) (b : bool) :
  slug_chars_only s = true -> dashes_apart s b = true -> dash_runs s b = s.
Proof.
  revert b. induction s as [|c r IH]; intros b;
    cbn [slug_chars_only dashes_apart dash_runs]; [auto|].
  intros Hc. apply andb_true_iff in Hc as [Hc Hr].
  destruct (is_slug_char c) eqn:E.
  - rewrite (slug_char_not_dash _ E). intros H. now rewrite (IH false).
  - cbn [orb] in Hc. rewrite Hc. intros H. apply andb_true_iff in H as [Hb H].
    apply negb_true_iff in Hb. subst b. apply Ascii.eqb_eq in Hc. subst c.
    now rewrite (IH true).
Qed.

Lemma drop_leading_fixed (s : string) :
  dashes_apart s true = true -> drop_leading_dashes s = s.
Proof.
  destruct s as [|c r]; cbn [dashes_apart drop_leading_dashes]; [auto|].
  now destruct (c =? "-")%char.
Qed.

Lemma drop_trailing_fixed (s : string) :
  last_char s <> Some "-"%char -> drop_trailing_dashes s = s.
Proof.
  induction s as [|c r IH]; [auto|].
  destruct r as [|k ks].
  - cbn [drop_trailing_dashes last_char]. intros H.
    destruct (c =? "-")%char eqn:E; [|reflexivity].
    apply Ascii.eqb_eq in E. congruence.
  - rewrite last_char_cons. intros H. specialize (IH H).
    change (drop_trailing_dashes (String c (String k ks)))
      with (match drop_trailing_dashes (String k ks) with
            | EmptyString =>
                if (c =? "-")%char then EmptyString else String c EmptyString
            | kept => String c kept
            end).
    now rewrite IH.
Qed.

Lemma toLowerCase_slug_chars (s : string) :
  slug_chars_only s = true -> Js.toLowerCase s = s.
Proof.
  induction s as [|c r IH]; cbn [slug_chars_only Js.toLowerCase]; [auto|].
  intros H. apply andb_true_iff in H as [Hc H].
  now rewrite (slug_char_lower _ Hc), IH.
Qed.

Lemma slug_is_well_formed (name : string) :
  slug_chars_only (slug name) = true
  /\ dashes_apart (slug name) true = true
  /\ last_char (slug name) <> Some "-"%char.
Proof.
  unfold slug. split; [|split].
  - apply drop_trailing_chars, drop_leading_chars, dash_runs_chars.
  - apply drop_trailing_apart, (drop_leading_apart _ false), dash_runs_apart.
  - apply drop_trailing_last.
Qed.

(** The slug of a name holds only [a-z], [0-9] and dashes; it neither
    starts nor ends with a dash and has no two dashes in a row. *)
Theorem slug_shape (name : string) :
  slug_chars_only (slug name) = true
  /\ dashes_apart (slug name) true = true
  /\ last_char (slug name) <> Some "-"%char.
Proof.
  unfold slug. split; [|split].
  - apply drop_trailing_chars, drop_leading_chars, dash_runs_chars.
  - apply drop_trailing_apart, (drop_leading_apart _ false), dash_runs_apart.
  - apply drop_trailing_last.
Qed.

(** Taking the slug of a slug changes nothing, and the slug does not
    depend on the case of the name. *)
Theorem slug_idempotent (name : string) :
  slug (slug name) = slug name
  /\ slug (Js.toLowerCase name) = slug name.
Proof.
  destruct (slug_is_well_formed name) as (Hc & Ha & Hl). split.
  - unfold slug at 1.
    rewrite (toLowerCase_slug_chars _ Hc).
    rewrite (dash_runs_fixed _ _ Hc (dashes_apart_weaken _ Ha)).
    rewrite (drop_leading_fixed _ Ha). now apply drop_trailing_fixed.
  - unfold slug. now rewrite toLowerCase_idempotent.
Qed.

Lemma dash_not_slug_char (c : ascii) :
  (c =? "-")%char = true -> is_slug_char c = false.
Proof. intros H. apply Ascii.eqb_eq in H. now subst c. Qed.

Lemma dash_runs_has (s : string) (b : bool) :
  has_slug_char (dash_runs s b) = has_slug_char s.
Proof.
  revert b. induction s as [|c r IH]; intros b;
    cbn [dash_runs has_slug_char]; [reflexivity|].
  destruct (is_slug_char c) eqn:E.
  - cbn [has_slug_char]. now rewrite E, IH.
  - destruct b; [apply IH|]. cbn [has_slug_char orb]. apply IH.
Qed.

Lemma drop_leading_has (s : string) :
  has_slug_char (drop_leading_dashes s) = has_slug_char s.
Proof.
  induction s as [|c r IH]; cbn [drop_leading_dashes]; [reflexivity|].
  destruct (c =? "-")%char eqn:E; [|reflexivity].
  cbn [has_slug_char]. now rewrite (dash_not_slug_char _ E).
Qed.

Lemma drop_trailing_has (s : string) :
  has_slug_char (drop_trailing_dashes s) = has_slug_char s.
Proof.
  induction s as [|c r IH]; cbn [drop_trailing_dashes has_slug_char];
    [reflexivity|].
  rewrite <- IH. destruct (drop_trailing_dashes r) as [|k ks].
  - destruct (c =? "-")%char eqn:E; [|reflexivity].
    cbn [has_slug_char]. now rewrite (dash_not_slug_char _ E).
  - reflexivity.
Qed.

Lemma slug_has (name : string) :
  has_slug_char (slug name) = has_slug_char (Js.toLowerCase name).
Proof.
  unfold slug. now rewrite drop_trailing_has, drop_leading_has, dash_runs_has.
Qed.

Lemma slug_empty (name : string) :
  slug name = "" <-> has_slug_char (Js.toLowerCase name) = false.
Proof.
  rewrite <- slug_has. destruct (slug_is_well_formed name) as (Hc & Ha & _).
  destruct (slug name) as [|c r]; [tauto|].
  split; [discriminate|]. intros H. exfalso.
  cbn [has_slug_char slug_chars_only dashes_apart] in *.
  apply orb_false_iff in H as [H _]. rewrite H in Hc.
  destruct (c =? "-")%char; discriminate.
Qed.

(** ** The table of forms *)

Lemma select_by_id_none (formId : string) (table : list Forms.Form) :
  Forms.select_by_id formId table = None <-> ~ In formId (Forms.ids table).
Proof.
  unfold Forms.select_by_id, Forms.ids.
  induction table as [|f rest IH]; cbn [find map In]; [tauto|].
  destruct (Forms.id f =? formId) eqn:E.
  - apply String.eqb_eq in E. split; [discriminate|tauto].
  - apply String.eqb_neq in E. tauto.
Qed.

Lemma select_by_id_new (formId name : string) (t1 t2 : Z)
    (table : list Forms.Form) :
  Forms.select_by_id formId (table ++ [Forms.mkForm formId name t1 t2]) <> None.
Proof.
  rewrite select_by_id_none. intros H. apply H. unfold Forms.ids.
  rewrite map_app. apply in_or_app. right. now left.
Qed.

Lemma ids_snoc (table : list Forms.Form) (f : Forms.Form) :
  Forms.ids (table ++ [f]) = (Forms.ids table ++ [Forms.id f])%list.
Proof. unfold Forms.ids. now rewrite map_app. Qed.

Lemma insert_by_created_at_perm (f : Forms.Form) (l : list Forms.Form) :
  Permutation (Forms.insert_by_created_at f l) (f :: l).
Proof.
  induction l as [|g rest IH]; cbn [Forms.insert_by_created_at]; [reflexivity|].
  destruct (Forms.created_at f <=? Forms.created_at g)%Z; [reflexivity|].
  rewrite IH. apply perm_swap.
Qed.

Lemma order_by_created_at_perm (table : list Forms.Form) :
  Permutation (Forms.order_by_created_at table) table.
Proof.
  unfold Forms.order_by_created_at.
  induction table as [|f rest IH]; cbn [fold_right]; [reflexivity|].
  rewrite insert_by_created_at_perm. now constructor.
Qed.

Lemma insert_by_created_at_sorted (f : Forms.Form) (l : list Forms.Form) :
  Sorted (fun a b => (Forms.created_at a <= Forms.created_at b)%Z) l ->
  Sorted (fun a b => (Forms.created_at a <= Forms.created_at b)%Z)
    (Forms.insert_by_created_at f l).
Proof.
  induction l as [|g rest IH]; cbn [Forms.insert_by_created_at]; intros H.
  - repeat constructor.
  - destruct (Forms.created_at f <=? Forms.created_at g)%Z eqn:E.
    + constructor; [exact H|]. constructor. lia.
    + inversion H as [|? ? Hs Hh]; subst. constructor; [auto|].
      destruct rest as [|h rest']; cbn [Forms.insert_by_created_at].
      * constructor. lia.
      * destruct (Forms.created_at f <=? Forms.created_at h)%Z;
          constructor; [lia|]. now inversion Hh.
Qed.

Lemma order_by_created_at_sorted (table : list Forms.Form) :
  StronglySorted (fun a b => (Forms.created_at a <= Forms.created_at b)%Z)
    (Forms.order_by_created_at table).
Proof.
  apply Sorted_StronglySorted; [intros a b c; lia|].
  unfold Forms.order_by_created_at.
  induction table as [|f rest IH]; cbn [fold_right]; [constructor|].
  now apply insert_by_created_at_sorted.
Qed.

Lemma order_by_created_at_first (table : list Forms.Form) :
  table <> [] ->
  exists f rest,
    Forms.order_by_created_at table = f :: rest
    /\ In f table
    /\ forall g, In g table -> (Forms.created_at f <= Forms.created_at g)%Z.
Proof.
  intros Hne. pose proof (order_by_created_at_perm table) as P.
  pose proof (order_by_created_at_sorted table) as S.
  destruct (Forms.order_by_created_at table) as [|f rest].
  - apply Permutation_nil in P. congruence.
  - exists f, rest. split; [reflexivity|]. split.
    + apply (Permutation_in _ P). now left.
    + intros g Hg. apply Permutation_sym in P.
      apply (Permutation_in _ P) in Hg. destruct Hg as [<-|Hg]; [lia|].
      inversion S as [|? ? _ Hall]; subst.
      rewrite Forall_forall in Hall. auto.
Qed.

Lemma strip_trailing_slash_spec (p : string) :
  p = strip_trailing_slash p ++ "/"
  \/ (p = strip_trailing_slash p /\ last_char p <> Some "/"%char).
Proof.
  induction p as [|c r IH]; [right; split; [reflexivity|discriminate]|].
  destruct r as [|k ks].
  - cbn [strip_trailing_slash last_char].
    destruct (c =? "/")%char eqn:E.
    + apply Ascii.eqb_eq in E. subst c. now left.
    + right. split; [reflexivity|]. intros [= ->]. discriminate.
  - change (strip_trailing_slash (String c (String k ks)))
      with (String c (strip_trailing_slash (String k ks))).
    rewrite last_char_cons.
    destruct IH as [IH|[IH Hl]].
    + left. cbn [append]. now rewrite <- IH.
    + right. now rewrite <- IH.
Qed.

Lemma forms_index_paths (p : string) :
  strip_trailing_slash p = "/forms" <-> p = "/forms" \/ p = "/forms/".
Proof.
  split.
  - intros H. destruct (strip_trailing_slash_spec p) as [E|[E _]];
      rewrite H in E; auto.
  - now intros [-> | ->].
Qed.

(** ** Properties of the forms route *)

Lemma lower_unit_slug_char (c : ascii) :
  is_slug_char (Js.lower_unit c) = is_alphanumeric c.
Proof. destruct c as [[] [] [] [] [] [] [] []]; vm_compute; reflexivity. Qed.

Lemma toLowerCase_has_slug_char (s : string) :
  has_slug_char (Js.toLowerCase s) = has_alphanumeric s.
Proof.
  induction s as [|c r IH]; [reflexivity|].
  cbn [Js.toLowerCase has_slug_char has_alphanumeric].
  now rewrite lower_unit_slug_char, IH.
Qed.

(** A name of code units up to U+00FF that is not empty and holds no
    letter [A-Z] or [a-z] and no digit passes the check of the name:
    the form is created under the empty id and the reply redirects to
    [/forms//submissions]; the name itself is stored as typed. *)
Theorem symbols_only_name_creates_empty_id
    (user : Forms.User) (entries : list (string * string)) (name : string)
    (createdAt : Z) (table : list Forms.Form) :
  get "name" entries = Some name ->
  name <> "" ->
  has_alphanumeric name = false ->
  ~ In "" (Forms.ids table) ->
  Forms.action forms_store_up (Ok (Some user)) (Some entries) createdAt table
  = (Ok (Forms.redirect "/forms//submissions"),
     (table ++ [Forms.mkForm "" name createdAt createdAt])%list).
Proof.
  intros Hget Hne Hno Hnew. unfold Forms.action. rewrite Hget.
  cbn [Js.truthy_opt Js.or_empty].
  destruct name as [|c r]; [congruence|]. cbn [Js.truthy negb].
  rewrite <- toLowerCase_has_slug_char in Hno.
  apply slug_empty in Hno. rewrite Hno.
  apply select_by_id_none in Hnew. rewrite Hnew. reflexivity.
Qed.

Lemma symbols_only_name_creates_empty_id_witness :
  Forms.action forms_store_up (Ok (Some (Forms.mkUser "Ann" "ann@example.com")))
    (Some [("name", "?!")]) 7 []
  = (Ok (Forms.redirect "/forms//submissions"),
     ([] ++ [Forms.mkForm "" "?!" 7 7])%list).
Proof.
  apply (symbols_only_name_creates_empty_id
           (Forms.mkUser "Ann" "ann@example.com") [("name", "?!")] "?!" 7 []).
  - reflexivity.
  - discriminate.
  - reflexivity.
  - simpl. tauto.
Defined.

(** Two names of one slug cannot both be created: once a creation under
    the first name has run against a store that answers, a creation
    under a name of the same slug is refused and leaves the table as it
    is, whoever asks and whatever the first creation answered. *)
Theorem same_slug_is_refused
    (first second : Forms.User) (entries1 entries2 : list (string * string))
    (name1 name2 : string) (t1 t2 : Z) (table : list Forms.Form) :
  get "name" entries1 = Some name1 -> name1 <> "" ->
  get "name" entries2 = Some name2 -> name2 <> "" ->
  slug name1 = slug name2 ->
  let after :=
    snd (Forms.action forms_store_up (Ok (Some first)) (Some entries1) t1 table) in
  Forms.action forms_store_up (Ok (Some second)) (Some entries2) t2 after
  = (Ok (Forms.failure "A form with this name already exists" 200), after).
Proof.
  intros G1 N1 G2 N2 Hs after.
  assert (Hin : Forms.select_by_id (slug name2) after <> None).
  { subst after. unfold Forms.action. rewrite G1.
    cbn [Js.truthy_opt Js.or_empty].
    destruct name1 as [|c r]; [congruence|]. cbn [Js.truthy negb].
    unfold forms_store_up. cbv beta iota. rewrite Hs.
    destruct (Forms.select_by_id (slug name2) table) eqn:E.
    - cbn [snd]. congruence.
    - cbn [snd]. apply select_by_id_new. }
  unfold Forms.action. rewrite G2. cbn [Js.truthy_opt Js.or_empty].
  destruct name2 as [|c r]; [congruence|]. cbn [Js.truthy negb].
  unfold forms_store_up at 1. cbv beta iota.
  destruct (Forms.select_by_id (slug (String c r)) after); [reflexivity|].
  congruence.
Qed.

Lemma same_slug_is_refused_witness :
  let after :=
    snd (Forms.action forms_store_up
           (Ok (Some (Forms.mkUser "Ann" "ann@example.com")))
           (Some [("name", "Contact us")]) 7 []) in
  Forms.action forms_store_up (Ok (Some (Forms.mkUser "Bob" "bob@example.com")))
    (Some [("name", "contact-US!")]) 9 after
  = (Ok (Forms.failure "A form with this name already exists" 200), after).
Proof.
  apply (same_slug_is_refused
           (Forms.mkUser "Ann" "ann@example.com")
           (Forms.mkUser "Bob" "bob@example.com")
           [("name", "Contact us")] [("name", "contact-US!")]
           "Contact us" "contact-US!" 7 9 []).
  - reflexivity.
  - discriminate.
  - reflexivity.
  - discriminate.
  - reflexivity.
Defined.

(** Whatever the session, the body and the store do, a creation leaves
    the table as it is or adds one row at its end, under an id that no
    row had; ids that were distinct stay distinct.  Without a user in
    the session the table is left as it is. *)
Theorem creation_adds_at_most_one_new_id
    (d1_fails : Forms.Statement -> list Forms.Form -> bool)
    (session : Result (option Forms.User))
    (body : option (list (string * string))) (createdAt : Z)
    (table : list Forms.Form) :
  let after := snd (Forms.action d1_fails session body createdAt table) in
  (after = table
   \/ exists f, after = (table ++ [f])%list
                /\ ~ In (Forms.id f) (Forms.ids table)
                /\ session <> Ok None /\ session <> Throw)
  /\ (NoDup (Forms.ids table) -> NoDup (Forms.ids after)).
Proof.
  cbv zeta.
  assert (H : snd (Forms.action d1_fails session body createdAt table) = table
    \/ exists f,
         snd (Forms.action d1_fails session body createdAt table)
         = (table ++ [f])%list
         /\ ~ In (Forms.id f) (Forms.ids table)
         /\ session <> Ok None /\ session <> Throw).
  { unfold Forms.action.
    destruct session as [[user|]|]; try (now left).
    destruct body as [entries|]; [|now left].
    destruct (negb (Js.truthy_opt (get "name" entries))); [now left|].
    destruct (d1_fails (Forms.SelectById _) table); [now left|].
    destruct (Forms.select_by_id _ table) eqn:E; [now left|].
    destruct (d1_fails (Forms.Insert _ _ _ _) table); [now left|].
    right. eexists. split; [reflexivity|]. split.
    - now apply select_by_id_none.
    - split; discriminate. }
  split; [exact H|]. intros Hnd.
  destruct H as [->|(f & -> & Hnew & _)]; [exact Hnd|].
  rewrite ids_snoc. now apply NoDup_snoc.
Qed.

Lemma creation_adds_at_most_one_new_id_witness :
  NoDup (Forms.ids [Forms.mkForm "a" "A" 3 3])
  /\ NoDup
       (Forms.ids
          (snd (Forms.action forms_store_up
                  (Ok (Some (Forms.mkUser "Ann" "ann@example.com")))
                  (Some [("name", "Contact us")]) 7
                  [Forms.mkForm "a" "A" 3 3]))).
Proof.
  assert (H : NoDup (Forms.ids [Forms.mkForm "a" "A" 3 3])).
  { constructor; [simpl; tauto|constructor]. }
  split; [exact H|].
  exact (proj2 (creation_adds_at_most_one_new_id forms_store_up
                  (Ok (Some (Forms.mkUser "Ann" "ann@example.com")))
                  (Some [("name", "Contact us")]) 7
                  [Forms.mkForm "a" "A" 3 3]) H).
Defined.

(** With forms in the table, a signed-in request for [/forms] or
    [/forms/] is redirected to the submissions of a form of the table
    that no other form precedes in [created_at]. *)
Theorem forms_index_opens_oldest_form
    (d1_fails : Forms.Statement -> list Forms.Form -> bool)
    (user : Forms.User) (pathname : string) (table : list Forms.Form) :
  d1_fails Forms.SelectAll table = false ->
  table <> [] ->
  pathname = "/forms" \/ pathname = "/forms/" ->
  exists f,
    In f table
    /\ (forall g, In g table -> (Forms.created_at f <= Forms.created_at g)%Z)
    /\ Forms.loader d1_fails (Ok (Some user)) pathname table
       = Ok (Forms.redirect ("/forms/" ++ Forms.id f ++ "/submissions")).
Proof.
  intros Hup Hne Hp.
  destruct (order_by_created_at_first table Hne) as (f & rest & E & Hin & Hmin).
  exists f. split; [exact Hin|]. split; [exact Hmin|].
  unfold Forms.loader. rewrite Hup, E. cbn [map fst].
  apply forms_index_paths in Hp. now rewrite Hp.
Qed.

Lemma forms_index_opens_oldest_form_witness :
  exists f,
    In f [Forms.mkForm "b" "B" 5 5; Forms.mkForm "a" "A" 3 3]
    /\ (forall g, In g [Forms.mkForm "b" "B" 5 5; Forms.mkForm "a" "A" 3 3] ->
        (Forms.created_at f <= Forms.created_at g)%Z)
    /\ Forms.loader forms_store_up
         (Ok (Some (Forms.mkUser "Ann" "ann@example.com"))) "/forms/"
         [Forms.mkForm "b" "B" 5 5; Forms.mkForm "a" "A" 3 3]
       = Ok (Forms.redirect ("/forms/" ++ Forms.id f ++ "/submissions")).
Proof.
  apply (forms_index_opens_oldest_form forms_store_up
           (Forms.mkUser "Ann" "ann@example.com") "/forms/"
           [Forms.mkForm "b" "B" 5 5; Forms.mkForm "a" "A" 3 3]).
  - reflexivity.
  - discriminate.
  - now right.
Defined.

(** The loader serves the page only to a signed-in user, only with forms
    in the table and only off the index path; the page then lists every
    form of the table once, in the order of [created_at]. *)
Theorem page_lists_every_form_in_order
    (d1_fails : Forms.Statement -> list Forms.Form -> bool)
    (session : Result (option Forms.User)) (pathname : string)
    (table : list Forms.Form) (forms : list (string * string))
    (user : Forms.User) :
  Forms.loader d1_fails session pathname table = Ok (Forms.page forms user) ->
  session = Ok (Some user)
  /\ table <> []
  /\ pathname <> "/forms" /\ pathname <> "/forms/"
  /\ exists sorted,
       Permutation sorted table
       /\ StronglySorted
            (fun a b => (Forms.created_at a <= Forms.created_at b)%Z) sorted
       /\ forms = map (fun f => (Forms.id f, Forms.name f)) sorted.
Proof.
  unfold Forms.loader. intros H.
  destruct session as [[u|]|]; try discriminate.
  destruct (d1_fails Forms.SelectAll table); [discriminate|].
  pose proof (order_by_created_at_perm table) as P.
  pose proof (order_by_created_at_sorted table) as S.
  destruct (Forms.order_by_created_at table) as [|f rest] eqn:E;
    [discriminate|].
  cbn [map] in H.
  destruct (strip_trailing_slash pathname =? "/forms") eqn:Hp; [discriminate|].
  injection H as <- <-. split; [reflexivity|]. split.
  { intros ->. apply Permutation_sym, Permutation_nil in P. discriminate. }
  apply String.eqb_neq in Hp. rewrite forms_index_paths in Hp.
  split; [tauto|]. split; [tauto|].
  exists (f :: rest). now repeat split.
Qed.

Lemma page_lists_every_form_in_order_witness :
  Ok (Some (Forms.mkUser "Ann" "ann@example.com"))
  = Ok (Some (Forms.mkUser "Ann" "ann@example.com"))
  /\ [Forms.mkForm "b" "B" 5 5; Forms.mkForm "a" "A" 3 3] <> []
  /\ "/forms/a/settings" <> "/forms" /\ "/forms/a/settings" <> "/forms/"
  /\ exists sorted,
       Permutation sorted [Forms.mkForm "b" "B" 5 5; Forms.mkForm "a" "A" 3 3]
       /\ StronglySorted
            (fun a b => (Forms.created_at a <= Forms.created_at b)%Z) sorted
       /\ [("a", "A"); ("b", "B")]
          = map (fun f => (Forms.id f, Forms.name f)) sorted.
Proof.
  apply (page_lists_every_form_in_order forms_store_up
           (Ok (Some (Forms.mkUser "Ann" "ann@example.com")))
           "/forms/a/settings"
           [Forms.mkForm "b" "B" 5 5; Forms.mkForm "a" "A" 3 3]
           [("a", "A"); ("b", "B")]
           (Forms.mkUser "Ann" "ann@example.com")).
  reflexivity.
Defined.

(** The first form: created on an empty table by a signed-in user under
    a name with a letter or digit, it is where the index path leads, by
    the very redirect that the creation answered. *)
Theorem first_form_is_the_landing_page
    (user : Forms.User) (entries : list (string * string)) (name : string)
    (createdAt : Z) :
  get "name" entries = Some name ->
  name <> "" ->
  let created :=
    Forms.action forms_store_up (Ok (Some user)) (Some entries) createdAt [] in
  fst created = Ok (Forms.redirect ("/forms/" ++ slug name ++ "/submissions"))
  /\ Forms.loader forms_store_up (Ok (Some user)) "/forms" (snd created)
     = fst created.
Proof.
  intros Hget Hne created. subst created. unfold Forms.action. rewrite Hget.
  cbn [Js.truthy_opt Js.or_empty].
  destruct name as [|c r]; [congruence|]. cbn [Js.truthy negb].
  split; reflexivity.
Qed.

Lemma first_form_is_the_landing_page_witness :
  let created :=
    Forms.action forms_store_up
      (Ok (Some (Forms.mkUser "Ann" "ann@example.com")))
      (Some [("name", "Contact us")]) 7 [] in
  fst created
  = Ok (Forms.redirect ("/forms/" ++ slug "Contact us" ++ "/submissions"))
  /\ Forms.loader forms_store_up
       (Ok (Some (Forms.mkUser "Ann" "ann@example.com"))) "/forms" (snd created)
     = fst created.
Proof.
  apply (first_form_is_the_landing_page
           (Forms.mkUser "Ann" "ann@example.com")
           [("name", "Contact us")] "Contact us" 7).
  - reflexivity.
  - discriminate.
Defined.

(** A form that has just been created has its settings routes open: on
    the table the creation leaves, a save of four filled fields under
    the id the creation redirected to is answered 200, not 404. *)
Theorem created_form_accepts_settings
    (user : Forms.User) (entries : list (string * string)) (name : string)
    (createdAt : Z) (table : list Forms.Form)
    (rows : list FormSettings) (outbox0 : list EmailConfig)
    (fields : list (string * string)) (settingsId : string) (updatedAt : Z) :
  get "name" entries = Some name ->
  name <> "" ->
  ~ In (slug name) (Forms.ids table) ->
  all_fields_filled fields = true ->
  let created :=
    Forms.action forms_store_up (Ok (Some user)) (Some entries) createdAt table in
  fst created = Ok (Forms.redirect ("/forms/" ++ slug name ++ "/submissions"))
  /\ fst (Notifications.action store_up (mkRequest "POST" (Some fields))
            (slug name) settingsId updatedAt
            (mkWorld (mkDatabase (Forms.ids (snd created)) rows) outbox0))
     = Ok (data true None 200).
Proof.
  intros Hget Hne Hnew F created. subst created. unfold Forms.action.
  rewrite Hget. cbn [Js.truthy_opt Js.or_empty].
  destruct name as [|c r]; [congruence|]. cbn [Js.truthy negb].
  unfold forms_store_up. cbv beta iota.
  apply select_by_id_none in Hnew. rewrite Hnew. cbn [fst snd].
  split; [reflexivity|].
  apply filled_save_is_accepted; [reflexivity| |exact F].
  cbn [DB forms]. rewrite ids_snoc. apply in_or_app. right. now left.
Qed.

Lemma created_form_accepts_settings_witness :
  let created :=
    Forms.action forms_store_up
      (Ok (Some (Forms.mkUser "Ann" "ann@example.com")))
      (Some [("name", "Contact us")]) 7 [] in
  fst created
  = Ok (Forms.redirect ("/forms/" ++ slug "Contact us" ++ "/submissions"))
  /\ fst (Notifications.action store_up
            (mkRequest "POST"
               (Some [("notification_email", "me@example.org");
                      ("notification_email_password", "secret");
                      ("smtp_host", "mail.example.org");
                      ("smtp_port", "465")]))
            (slug "Contact us") "uuid" 9
            (mkWorld (mkDatabase (Forms.ids (snd created)) []) []))
     = Ok (data true None 200).
Proof.
  apply (created_form_accepts_settings
           (Forms.mkUser "Ann" "ann@example.com")
           [("name", "Contact us")] "Contact us" 7 [] [] []
           [("notification_email", "me@example.org");
            ("notification_email_password", "secret");
            ("smtp_host", "mail.example.org");
            ("smtp_port", "465")] "uuid" 9).
  - reflexivity.
  - discriminate.
  - simpl. tauto.
  - reflexivity.
Defined.

(** ** Detection of a known provider, on a page *)

Lemma known_domain_detection_witness :
  emailDomain (step (step (mount None) (ChangeEmail "me@gmail.com")) Timeout)
  = Some "gmail.com"
  /\ smtpConfig (step (step (mount None) (ChangeEmail "me@gmail.com")) Timeout)
     = Some (Provider gmail)
  /\ smtpHost (step (step (mount None) (ChangeEmail "me@gmail.com")) Timeout)
     = Some (host gmail)
  /\ smtpPort (step (step (mount None) (ChangeEmail "me@gmail.com")) Timeout)
     = Js.toString (port gmail)
  /\ host_port_editable
       (step (step (mount None) (ChangeEmail "me@gmail.com")) Timeout)
     = false.
Proof.
  apply (known_domain_detection
           (step (mount None) (ChangeEmail "me@gmail.com")) "gmail.com" None
           gmail).
  - reflexivity.
  - reflexivity.
Defined.
